(** * libc++ pretty-printers for GDB: a shallow embedding of
      [libcxx/v1/printers.py] and the properties of its decoders.

    The printers read the inferior's memory through [gdb.Value].  Here the
    memory is a snapshot [memory], a partial map from addresses to the scalar
    stored there; an address outside its domain is unmapped, and fetching
    from it makes GDB raise [gdb.MemoryError].

    A [gdb.Value] obtained by [dereference()] or by field access is lazy: it
    is fetched when it is compared, used in arithmetic or formatted.  Over a
    fixed snapshot a lazy value is determined by what the fetch will find, so
    it is modelled as a [lazy] ([Some z]: the fetch gives [z]; [None]: the
    fetch raises), and the places where the source forces a value are the
    places where the model calls [fetch].

    The root value handed to a printer (the container object itself) is
    modelled as a record of its already readable control fields; what the
    printers chase through pointers is read from the snapshot.  The type
    queries of the printers ([template_argument], [gdb.lookup_type],
    [fields]) are taken to succeed.  Integers are unbounded, as Python's
    are; where a property needs a field to be non-negative, as its unsigned
    C++ type makes it, the property says so.

    Loops that the inferior's data can keep running are given fuel: an
    [outcome] is a return, a raised exception, or [Hang] when the fuel ran
    out, and properties about results are stated with fuel that suffices. *)

From Stdlib Require Import ZArith List String Ascii Bool Lia DecimalString.
Import ListNotations.
Local Open Scope string_scope.
Local Open Scope Z_scope.

(** ** Python control flow: returning, raising, not returning *)

Module Py.

(** The outcome of running a piece of Python: it returns [a], it raises an
    exception other than [StopIteration] ([gdb.error], [gdb.MemoryError]),
    or the loop it runs has not returned within the fuel given. *)
Inductive outcome (A : Type) : Type :=
| Ret (a : A)
| Raise
| Hang.
Arguments Ret {A} a.
Arguments Raise {A}.
Arguments Hang {A}.

Definition bind {A B : Type} (c : outcome A) (k : A -> outcome B) : outcome B :=
  match c with
  | Ret a => k a
  | Raise => Raise
  | Hang => Hang
  end.

(** [try: c  except: h] with a bare [except]. *)
Definition try_except {A : Type} (c : outcome A) (h : outcome A) : outcome A :=
  match c with
  | Raise => h
  | other => other
  end.

(** What one call of [__next__] does to the cursor [C]: [Ret (Some e, c)]
    returns [e], [Ret (None, c)] is [raise StopIteration]; either way the
    iterator object is left in state [c]. *)
Definition step (E C : Type) : Type := outcome (option E * C).

(** [list(iterator)]: call [__next__] until [StopIteration].  [fuel] bounds
    the number of calls.  The final state of the iterator object is
    returned too: the object outlives the call ([len(iterator)] reads
    it). *)
Fixpoint list_ {E C : Type} (next : C -> step E C) (fuel : nat) (c : C)
  : outcome (list E * C) :=
  match fuel with
  | O => Hang
  | S fuel' =>
      match next c with
      | Ret (None, c') => Ret ([], c')
      | Ret (Some e, c') =>
          match list_ next fuel' c' with
          | Ret (es, cz) => Ret (e :: es, cz)
          | Raise => Raise
          | Hang => Hang
          end
      | Raise => Raise
      | Hang => Hang
      end
  end.

(** [len(l)] as a Python integer. *)
Definition len {A : Type} (l : list A) : Z := Z.of_nat (List.length l).

(** ['%d' % n] *)
Definition fmt_d (n : Z) : string := NilZero.string_of_int (Z.to_int n).

(** ['[%d]' % n], the label of the [n]-th child. *)
Definition label (n : Z) : string := ("[" ++ fmt_d n ++ "]")%string.

End Py.

Import Py.

Declare Scope py_scope.
Delimit Scope py_scope with py.
Notation "x <- c ;; k" := (Py.bind c (fun x => k))
  (at level 61, c at next level, right associativity) : py_scope.
Local Open Scope py_scope.

(** ** The inferior's memory and [gdb.Value] *)

Module Gdb.

Definition memory : Type := Z -> option Z.

(** A lazy [gdb.Value]: what fetching it will give. *)
Definition lazy : Type := option Z.

(** Forcing a value: comparison, arithmetic, truth test, ['%s' % v]. *)
Definition fetch (v : lazy) : outcome Z :=
  match v with
  | Some z => Ret z
  | None => Raise
  end.

(** [p.dereference()] for a pointer whose value is known. *)
Definition dereference (m : memory) (p : Z) : lazy := m p.

(** [p.dereference()] for a pointer that is itself lazy: nothing is read
    until the result is forced, and forcing it fetches [p] first. *)
Definition dereference_lazy (m : memory) (p : lazy) : lazy :=
  match p with
  | Some a => m a
  | None => None
  end.

(** [p + n] on a pointer to objects of [sz] bytes. *)
Definition ptr_add (sz p n : Z) : Z := p + n * sz.

(** [p - q] on two such pointers (C division of the byte distance). *)
Definition ptr_diff (sz p q : Z) : Z := Z.quot (p - q) sz.

(** [a / b] and [a % b] on [gdb.Value] integers: C division and remainder,
    an error on zero. *)
Definition gdb_div (a b : Z) : outcome Z :=
  if b =? 0 then Raise else Ret (Z.quot a b).

Definition gdb_rem (a b : Z) : outcome Z :=
  if b =? 0 then Raise else Ret (Z.rem a b).

(** A snapshot given by the list of its mapped cells. *)
Fixpoint cells (l : list (Z * Z)) : memory :=
  fun a =>
    match l with
    | [] => None
    | (k, v) :: l' => if a =? k then Some v else cells l' a
    end.

End Gdb.

Import Gdb.

(** What a children sequence carries: a [gdb.Value] (still lazy) or, for the
    bits of a [vector<bool>], a Python [bool]. *)
Inductive value : Type :=
| GdbValue (v : lazy)
| PyBool (b : bool).

(** An element of a children sequence: [(label, value)]. *)
Definition child : Type := (string * value)%type.

(** ** [StdStringPrinter] *)

Module StdStringPrinter.

(** The control fields of a [std::basic_string] that the printer reads:
    [__r_.__first_.__s] (short form: a size byte and the inline buffer,
    whose address is what the array decays to) and [__r_.__first_.__l]
    (long form: a size and a pointer). *)
Record basic_string : Type := {
  s_size : Z;   (* __s.__size_ *)
  s_data : Z;   (* address of __s.__data_ *)
  l_size : Z;   (* __l.__size_ *)
  l_data : Z    (* __l.__data_ *)
}.

Record printer : Type := {
  typename : string;
  size : Z;
  ptr : Z;
  display_hint : bool   (* whether [self.display_hint] has been set *)
}.

Definition __short_mask : Z := 1.

(** "Figure out pointer and size": the pair [(self.size, self.ptr)]. *)
Definition figure_out (val : basic_string) : Z * Z :=
  if Z.land (s_size val) __short_mask =? 0
  then (Z.shiftr (s_size val) 1, s_data val)
  else (l_size val, l_data val).

(** The addresses of [first_char_ptr] and [last_char_ptr]; [csz] is the
    size of the character type, [template_argument(0)]. *)
Definition first_char_ptr (p : Z) : Z := p.
Definition last_char_ptr (csz p sz : Z) : Z := ptr_add csz (first_char_ptr p) sz.

(** The body of the [try]: both characters are forced by the formatting. *)
Definition audit (m : memory) (csz sz p : Z) : outcome bool :=
  if 0 <=? sz then
    _ <- fetch (dereference m (first_char_ptr p)) ;;
    _ <- fetch (dereference m (last_char_ptr csz p sz)) ;;
    Ret true
  else Ret false.

Definition __init__ (m : memory) (csz : Z) (tn : string) (val : basic_string)
  : printer :=
  let '(sz, p) := figure_out val in
  match audit m csz sz p with
  | Ret hint => {| typename := tn; size := sz; ptr := p; display_hint := hint |}
  | _ => {| typename := tn; size := -1; ptr := 0; display_hint := false |}
  end.

(** [ptr.string(length=n)]: the [n] characters from [p] on; it raises when
    one of them cannot be read. *)
Fixpoint read_chars (m : memory) (csz p : Z) (n : nat) : outcome string :=
  match n with
  | O => Ret EmptyString
  | S n' =>
      c <- fetch (dereference m p) ;;
      rest <- read_chars m csz (ptr_add csz p 1) n' ;;
      Ret (String (ascii_of_N (Z.to_N c)) rest)
  end.

Definition to_string (m : memory) (csz : Z) (self : printer) : string :=
  match
    (if 0 <=? size self
     then s <- read_chars m csz (ptr self) (Z.to_nat (size self)) ;; Ret (Some s)
     else Ret None)
  with
  | Ret (Some s) => s
  | _ => "invalid"
  end.

End StdStringPrinter.

(** ** [StdVectorPrinter] *)

Module StdVectorPrinter.

(** The two layouts of [std::vector]: the general one (three pointers) and
    [vector<bool>] (a pointer to the storage words, a bit count, a word
    capacity and the static [__bits_per_word], [None] when GDB reports it
    as optimized out).  The printer tells them apart by the presence of a
    field named [__bits_per_word]. *)
Inductive vector : Type :=
| Vector (__begin_ __end_ __end_cap_ : Z)
| VectorBool (__begin_ __size_ __cap_alloc_ : Z) (__bits_per_word : option Z).

Definition has_bits_per_word (val : vector) : bool :=
  match val with
  | Vector _ _ _ => false
  | VectorBool _ _ _ _ => true
  end.

Definition val_begin (val : vector) : Z :=
  match val with
  | Vector b _ _ => b
  | VectorBool b _ _ _ => b
  end.

Record printer : Type := {
  typename : string;
  val : vector;
  is_bool : bool;
  bits_per_word : Z;     (* assigned only when [is_bool] *)
  size : Z;
  capacity : Z;
  has_children : bool    (* whether [self.children] has been set *)
}.

(** The body of the [try] in [__init__]: the addresses of the front and
    back objects, both forced by the formatting.  [esz] is the size of an
    element, [wsz] the size of a storage word. *)
Definition audit (m : memory) (esz wsz : Z) (val : vector) (bpw sz : Z)
  : outcome unit :=
  let front_ptr := val_begin val in
  back_ptr <-
    match val with
    | VectorBool _ _ _ _ =>
        q <- gdb_div (sz - 1) bpw ;; Ret (ptr_add wsz front_ptr q)
    | Vector _ e _ => Ret (ptr_add esz e (-1))
    end ;;
  _ <- fetch (dereference m front_ptr) ;;
  _ <- fetch (dereference m back_ptr) ;;
  Ret tt.

Definition __init__ (m : memory) (esz wsz : Z) (tn : string) (val : vector)
  : printer :=
  let bpw :=
    match val with
    | VectorBool _ _ _ None => 64
    | VectorBool _ _ _ (Some w) => w
    | Vector _ _ _ => 0
    end in
  let sz0 :=
    match val with
    | VectorBool _ s _ _ => s
    | Vector b e _ => ptr_diff esz e b
    end in
  let cap :=
    match val with
    | VectorBool _ _ c _ => c * bpw
    | Vector b _ ec => ptr_diff esz ec b
    end in
  let sz1 := if cap <? sz0 then -1 else sz0 in
  let audited :=                 (* the new size, and whether children is set *)
    if 0 <? sz1 then
      match audit m esz wsz val bpw sz1 with
      | Ret _ => (sz1, true)
      | _ => (-1, false)
      end
    else (sz1, false) in
  {| typename := tn; val := val; is_bool := has_bits_per_word val;
     bits_per_word := bpw; size := fst audited; capacity := cap;
     has_children := snd audited |}.

(** The state of an [_iterator] object. *)
Record cursor : Type := {
  bitvec : bool;
  item : Z;
  so : Z;
  c_size : Z;
  c_bits_per_word : Z;
  finish : Z;
  count : Z
}.

Definition _iterator (start finish_or_size bpw : Z) (bv : bool) : cursor :=
  if bv
  then {| bitvec := true; item := start; so := 0; c_size := finish_or_size;
          c_bits_per_word := bpw; finish := 0; count := 0 |}
  else {| bitvec := false; item := start; so := 0; c_size := 0;
          c_bits_per_word := 0; finish := finish_or_size; count := 0 |}.

Definition with_count (c : cursor) (n : Z) : cursor :=
  {| bitvec := bitvec c; item := item c; so := so c; c_size := c_size c;
     c_bits_per_word := c_bits_per_word c; finish := finish c; count := n |}.

Definition with_item_so (c : cursor) (i s : Z) : cursor :=
  {| bitvec := bitvec c; item := i; so := s; c_size := c_size c;
     c_bits_per_word := c_bits_per_word c; finish := finish c;
     count := count c |}.

Definition __next__ (m : memory) (esz wsz : Z) (self : cursor) : step child cursor :=
  let cnt := count self in
  let self := with_count self (cnt + 1) in
  if bitvec self then
    if cnt =? c_size self then Ret (None, self)
    else
      elt <- fetch (dereference m (item self)) ;;
      let obit := negb (Z.land elt (Z.shiftl 1 (so self)) =? 0) in
      let so' := so self + 1 in
      let self :=
        if c_bits_per_word self <=? so'
        then with_item_so self (ptr_add wsz (item self) 1) 0
        else with_item_so self (item self) so' in
      Ret (Some (label cnt, PyBool obit), self)
  else
    if item self =? finish self then Ret (None, self)
    else
      let elt := dereference m (item self) in
      let self := with_item_so self (ptr_add esz (item self) 1) (so self) in
      Ret (Some (label cnt, GdbValue elt), self).

Definition _children (self : printer) : cursor :=
  match val self with
  | VectorBool b s _ _ => _iterator b s (bits_per_word self) true
  | Vector b e _ => _iterator b e 0 false
  end.

(** The [children] attribute: present only when [__init__] has set it. *)
Definition children (self : printer) : option cursor :=
  if has_children self then Some (_children self) else None.

Definition to_string (esz : Z) (self : printer) : string :=
  if size self =? 0 then "empty"
  else if 0 <? size self then
    match val self with
    | VectorBool _ _ c _ =>
        let capacity := c * bits_per_word self in
        if size self =? 0
        then ("empty " ++ typename self ++ "<bool> (capacity=" ++ fmt_d capacity ++ ")")%string
        else (typename self ++ "<bool> (length=" ++ fmt_d (size self)
              ++ ", capacity=" ++ fmt_d capacity ++ ")")%string
    | Vector start _ end_ =>
        let capacity := ptr_diff esz end_ start in
        if size self =? 0
        then ("empty " ++ typename self ++ " (capacity=" ++ fmt_d capacity ++ ")")%string
        else (typename self ++ " (length=" ++ fmt_d (size self)
              ++ ", capacity=" ++ fmt_d capacity ++ ")")%string
    end
  else "invalid".

End StdVectorPrinter.

(** ** [StdListPrinter] *)

Module StdListPrinter.

(** Where the fields of a list node lie, as byte offsets from the node's
    address. *)
Record node_layout : Type := {
  off_next : Z;    (* __next_ *)
  off_value : Z    (* __value_ *)
}.

(** The control fields of a [std::list]: the address of the embedded
    sentinel [__end_], the sentinel's [__next_], and
    [__size_alloc_.__first_]. *)
Record list_ : Type := {
  end_address : Z;
  end_next : Z;
  size_alloc : Z
}.

Record cursor : Type := {
  head : Z;
  base : lazy;
  num_nodes : Z;
  count : Z
}.

Definition _iterator (val : list_) (n : Z) : cursor :=
  {| head := end_address val; base := Some (end_next val);
     num_nodes := n; count := 0 |}.

Definition __next__ (m : memory) (L : node_layout) (self : cursor)
  : step child cursor :=
  b <- fetch (base self) ;;      (* forced by the comparison with [head] *)
  if (b =? head self) || (count self =? num_nodes self)
  then Ret (None, self)
  else
    let elt := b in              (* the node's address *)
    let self' :=
      {| head := head self;
         base := dereference m (elt + off_next L);
         num_nodes := num_nodes self;
         count := count self + 1 |} in
    Ret (Some (label (count self),
               GdbValue (dereference m (elt + off_value L))), self').

Record printer : Type := {
  typename : string;
  val : list_;
  size : Z;
  has_children : bool
}.

(** [_children] reads [self.size] at the time of the call. *)
Definition _children_at (val : list_) (sz : Z) : cursor := _iterator val sz.

Definition _children (self : printer) : cursor :=
  _children_at (val self) (size self).

Definition children (self : printer) : option cursor :=
  if has_children self then Some (_children self) else None.

(** [__init__]; [fuel] bounds the calls of [__next__] made by [list(...)]. *)
Definition __init__ (m : memory) (L : node_layout) (fuel : nat) (tn : string)
  (val : list_) : outcome printer :=
  let sz := size_alloc val in
  match Py.list_ (__next__ m L) fuel (_children_at val sz) with
  | Ret (es, _) =>
      if negb (sz =? len es)
      then Ret {| typename := tn; val := val; size := -1; has_children := false |}
      else if 0 <? sz
      then Ret {| typename := tn; val := val; size := sz; has_children := true |}
      else Ret {| typename := tn; val := val; size := sz; has_children := false |}
  | Raise =>
      Ret {| typename := tn; val := val; size := -1; has_children := false |}
  | Hang => Hang
  end.

Definition to_string (self : printer) : string :=
  if size self =? 0 then "empty"
  else if 0 <? size self
  then (typename self ++ " (length=" ++ fmt_d (size self) ++ ")")%string
  else "invalid".

End StdListPrinter.

(** ** [HashTablePrinter], [UnorderedSetPrinter], [UnorderedMapPrinter] *)

Module HashTablePrinter.

(** Offsets of the fields of a hash node; for the map printers the value
    is a pair [__cc] with a [first] and a [second]. *)
Record node_layout : Type := {
  off_next : Z;     (* __next_ *)
  off_value : Z;    (* __value_ *)
  off_first : Z;    (* __value_.__cc.first, from the node *)
  off_second : Z    (* __value_.__cc.second, from the node *)
}.

(** The control fields of a [__hash_table]: [__p1_.__first_.__next_] and
    [__p2_.__first_]. *)
Record hashtable : Type := {
  p1_first_next : Z;
  p2_first : Z
}.

Record cursor : Type := {
  node : lazy;
  size : Z;
  count : Z
}.

Definition _iterator (table : hashtable) : cursor :=
  {| node := Some (p1_first_next table);
     size := if p2_first table <? 0 then 0 else p2_first table;
     count := 0 |}.

(** [__len__] *)
Definition __len__ (self : cursor) : Z := size self.

(** ['%s' % value] on the [__value_] of the node at [n]: formatting
    fetches the whole object.  The element of a set is the one cell at
    [off_value]; the [__value_] of a map holds the pair [__cc], and both
    its [first] and its [second] are fetched. *)
Definition format_value (m : memory) (L : node_layout) (is_pair : bool) (n : Z)
  : outcome unit :=
  if is_pair then
    _ <- fetch (dereference m (n + off_first L)) ;;
    _ <- fetch (dereference m (n + off_second L)) ;;
    Ret tt
  else
    _ <- fetch (dereference m (n + off_value L)) ;;
    Ret tt.

(** [HashTablePrinter._iterator.__next__], on a table whose values are
    pairs ([is_pair], the tables of the map printers) or single cells.  The
    address of the node just visited is returned along with the child, for
    the map subclass. *)
Definition next_node (m : memory) (L : node_layout) (is_pair : bool)
  (self : cursor) : step (Z * child) cursor :=
  if size self <=? count self then Ret (None, self)
  else
    n <- fetch (node self) ;;          (* forced by the comparison with 0 *)
    if n =? 0 then Ret (None, self)
    else
      let self1 :=
        {| node := dereference m (n + off_next L);
           size := size self; count := count self |} in
      let value := dereference m (n + off_value L) in
      match format_value m L is_pair n with    (* '%s' % value *)
      | Ret _ =>
          Ret (Some (n, (label (count self), GdbValue value)),
               {| node := node self1; size := size self1;
                  count := count self1 + 1 |})
      | Raise => Ret (None, self1)
      | Hang => Hang
      end.

(** The iterator of the set printers. *)
Definition __next__ (m : memory) (L : node_layout) (self : cursor)
  : step child cursor :=
  r <- next_node m L false self ;;
  match r with
  | (Some (_, c), self') => Ret (Some c, self')
  | (None, self') => Ret (None, self')
  end.

(** [UnorderedMapPrinter._iterator.__next__]: everything the base class
    raises becomes [StopIteration]; the key is formatted into the label. *)
Definition map__next__ (m : memory) (L : node_layout) (self : cursor)
  : step child cursor :=
  match next_node m L true self with
  | Ret (Some (n, (idx_str, _)), self') =>
      match fetch (dereference m (n + off_first L)) with
      | Ret k =>
          Ret (Some ((idx_str ++ " " ++ fmt_d k)%string,
                     GdbValue (dereference m (n + off_second L))), self')
      | Raise => Ret (None, self')
      | Hang => Hang
      end
  | Ret (None, self') => Ret (None, self')
  | Raise => Ret (None, self)
  | Hang => Hang
  end.

Definition next_of (is_map : bool) := if is_map then map__next__ else __next__.

Record printer : Type := {
  typename : string;
  val : hashtable;
  p_size : Z;
  has_children : bool
}.

Definition _children (table : hashtable) : cursor := _iterator table.

Definition children (self : printer) : option cursor :=
  if has_children self then Some (_children (val self)) else None.

(** [__init__], shared by the set and the map printers; [is_map] selects
    the iterator class that [_children] builds. *)
Definition __init__ (m : memory) (L : node_layout) (is_map : bool) (fuel : nat)
  (tn : string) (table : hashtable) : outcome printer :=
  match Py.list_ (next_of is_map m L) fuel (_children table) with
  | Ret (es, it) =>
      let sz := len es in
      if negb (sz =? __len__ it)
      then Ret {| typename := tn; val := table; p_size := -1; has_children := false |}
      else if 0 <? sz
      then Ret {| typename := tn; val := table; p_size := sz; has_children := true |}
      else Ret {| typename := tn; val := table; p_size := sz; has_children := false |}
  | Raise =>
      Ret {| typename := tn; val := table; p_size := -1; has_children := false |}
  | Hang => Hang
  end.

Definition to_string (self : printer) : string :=
  if p_size self =? 0 then "empty"
  else if 0 <? p_size self
  then (typename self ++ " (count=" ++ fmt_d (p_size self) ++ ")")%string
  else "invalid".

End HashTablePrinter.

(** ** [StdRbtreePrinter], [StdSetPrinter], [StdMapPrinter] *)

Module StdRbtreePrinter.

Record node_layout : Type := {
  off_left : Z;     (* __left_ *)
  off_right : Z;    (* __right_ *)
  off_parent : Z;   (* __parent_ *)
  off_value : Z;    (* __value_ *)
  off_first : Z;    (* __value_.__cc.first, from the node *)
  off_second : Z    (* __value_.__cc.second, from the node *)
}.

(** The control fields of a [__tree]: [__begin_node_] and
    [__pair3_.__first_]. *)
Record rbtree : Type := {
  begin_node : Z;
  pair3_first : Z
}.

Record cursor : Type := {
  node : Z;
  size : Z;
  count : Z
}.

Definition _iterator (tree : rbtree) : cursor :=
  {| node := begin_node tree;
     size := if pair3_first tree <? 0 then 0 else pair3_first tree;
     count := 0 |}.

Definition __len__ (self : cursor) : Z := size self.

(** [while node.dereference()['__left_']: node = node.dereference()['__left_']] *)
Fixpoint descend_left (m : memory) (L : node_layout) (fuel : nat) (n : Z)
  : outcome Z :=
  match fuel with
  | O => Hang
  | S fuel' =>
      l <- fetch (dereference m (n + off_left L)) ;;
      if l =? 0 then Ret n else descend_left m L fuel' l
  end.

(** [while node != parent_node.dereference()['__left_']: ...]; the result is
    [parent_node] when the loop exits. *)
Fixpoint ascend (m : memory) (L : node_layout) (fuel : nat)
  (n : Z) (parent_node : lazy) : outcome Z :=
  match fuel with
  | O => Hang
  | S fuel' =>
      p <- fetch parent_node ;;
      l <- fetch (dereference m (p + off_left L)) ;;
      if n =? l then Ret p
      else ascend m L fuel' p (dereference m (p + off_parent L))
  end.

(** "Compute the next node": the body of the [try] up to [return_tuple]. *)
Definition successor (m : memory) (L : node_layout) (fuel : nat) (n : Z)
  : outcome Z :=
  r <- fetch (dereference m (n + off_right L)) ;;
  if negb (r =? 0)
  then descend_left m L fuel r
  else ascend m L fuel n (dereference m (n + off_parent L)).

(** [StdRbtreePrinter._iterator.__next__]; [fuel] bounds its inner loops. *)
Definition next_node (m : memory) (L : node_layout) (fuel : nat)
  (self : cursor) : step (Z * child) cursor :=
  if size self <=? count self then Ret (None, self)
  else
    let result := node self in
    match successor m L fuel result with
    | Ret n' =>
        Ret (Some (result,
                   (label (count self),
                    GdbValue (dereference m (result + off_value L)))),
             {| node := n'; size := size self; count := count self + 1 |})
    | Raise => Ret (None, self)
    | Hang => Hang
    end.

Definition __next__ (m : memory) (L : node_layout) (fuel : nat) (self : cursor)
  : step child cursor :=
  r <- next_node m L fuel self ;;
  match r with
  | (Some (_, c), self') => Ret (Some c, self')
  | (None, self') => Ret (None, self')
  end.

(** [StdMapPrinter._iterator.__next__] *)
Definition map__next__ (m : memory) (L : node_layout) (fuel : nat)
  (self : cursor) : step child cursor :=
  match next_node m L fuel self with
  | Ret (Some (n, (idx_str, _)), self') =>
      match fetch (dereference m (n + off_first L)) with
      | Ret k =>
          Ret (Some ((idx_str ++ " " ++ fmt_d k)%string,
                     GdbValue (dereference m (n + off_second L))), self')
      | Raise => Ret (None, self')
      | Hang => Hang
      end
  | Ret (None, self') => Ret (None, self')
  | Raise => Ret (None, self)
  | Hang => Hang
  end.

Definition next_of (is_map : bool) := if is_map then map__next__ else __next__.

Record printer : Type := {
  typename : string;
  val : rbtree;
  p_size : Z;
  has_children : bool
}.

Definition _children (tree : rbtree) : cursor := _iterator tree.

Definition children (self : printer) : option cursor :=
  if has_children self then Some (_children (val self)) else None.

(** [__init__]; [fuel] bounds the calls of [__next__], [fuel_in] the inner
    loops of each call. *)
Definition __init__ (m : memory) (L : node_layout) (is_map : bool)
  (fuel fuel_in : nat) (tn : string) (tree : rbtree) : outcome printer :=
  match Py.list_ (next_of is_map m L fuel_in) fuel (_children tree) with
  | Ret (es, it) =>
      let sz := len es in
      if negb (sz =? __len__ it)
      then Ret {| typename := tn; val := tree; p_size := -1; has_children := false |}
      else if 0 <? sz
      then Ret {| typename := tn; val := tree; p_size := sz; has_children := true |}
      else Ret {| typename := tn; val := tree; p_size := sz; has_children := false |}
  | Raise =>
      Ret {| typename := tn; val := tree; p_size := -1; has_children := false |}
  | Hang => Hang
  end.

Definition to_string (self : printer) : string :=
  if p_size self =? 0 then "empty"
  else if 0 <? p_size self
  then (typename self ++ " (count=" ++ fmt_d (p_size self) ++ ")")%string
  else "invalid".

End StdRbtreePrinter.

(** ** [StdSplitBufferPrinter] *)

Module StdSplitBufferPrinter.

(** The control fields of a [__split_buffer]: [__begin_], [__end_] and
    [__end_cap_.__first_]. *)
Record split_buffer : Type := {
  __begin_ : Z;
  __end_ : Z;
  __end_cap_ : Z
}.

Record cursor : Type := {
  ptr : Z;
  c_end : Z;
  count : Z
}.

Definition _iterator (b e : Z) : cursor :=
  {| ptr := b; c_end := e; count := 0 |}.

(** [__next__]; [sz] is the size of the objects the buffer holds.  The
    child's value is also returned as the address it lies at. *)
Definition next_at (m : memory) (sz : Z) (self : cursor)
  : step (Z * child) cursor :=
  if c_end self <=? ptr self then Ret (None, self)
  else
    Ret (Some (ptr self, (label (count self), GdbValue (dereference m (ptr self)))),
         {| ptr := ptr_add sz (ptr self) 1; c_end := c_end self;
            count := count self + 1 |}).

Definition __next__ (m : memory) (sz : Z) (self : cursor) : step child cursor :=
  r <- next_at m sz self ;;
  match r with
  | (Some (_, c), self') => Ret (Some c, self')
  | (None, self') => Ret (None, self')
  end.

Record printer : Type := {
  begin : Z;
  end_ : Z;
  end_cap : Z;
  size : Z;
  capacity : Z;
  has_children : bool
}.

Definition _children_at (b e : Z) : cursor := _iterator b e.

Definition _children (self : printer) : cursor :=
  _children_at (begin self) (end_ self).

Definition children (self : printer) : option cursor :=
  if has_children self then Some (_children self) else None.

Definition invalid (b e ec : Z) : printer :=
  {| begin := b; end_ := e; end_cap := ec; size := -1; capacity := -1;
     has_children := false |}.

Definition __init__ (m : memory) (sz : Z) (fuel : nat) (val : split_buffer)
  : outcome printer :=
  let b := __begin_ val in
  let e := __end_ val in
  let ec := __end_cap_ val in
  let size0 := ptr_diff sz e b in
  let capacity0 := ptr_diff sz ec b in
  let '(size1, capacity1) :=
    if capacity0 <? size0 then (-1, -1) else (size0, capacity0) in
  if 0 <? size1 then
    match Py.list_ (__next__ m sz) fuel (_children_at b e) with
    | Ret (es, _) =>
        if negb (size1 =? len es)
        then Ret (invalid b e ec)
        else Ret {| begin := b; end_ := e; end_cap := ec; size := size1;
                    capacity := capacity1; has_children := true |}
    | Raise => Ret (invalid b e ec)
    | Hang => Hang
    end
  else
    Ret {| begin := b; end_ := e; end_cap := ec; size := size1;
           capacity := capacity1; has_children := false |}.

Definition to_string (self : printer) : string :=
  if size self =? 0 then "empty"
  else if 0 <? size self
  then ("(length=" ++ fmt_d (size self) ++ ", capacity="
        ++ fmt_d (capacity self) ++ ")")%string
  else "invalid".

End StdSplitBufferPrinter.

(** ** [StdDequePrinter] *)

Module StdDequePrinter.

(** The control fields of a [std::deque]: [__block_size], the split buffer
    [__map_] of block pointers, [__start_] and [__size_.__first_]. *)
Record deque : Type := {
  __block_size : Z;
  __map_ : StdSplitBufferPrinter.split_buffer;
  __start_ : Z;
  __size_ : Z
}.

Record cursor : Type := {
  count : Z;
  c_size : Z;
  c_block_size : Z;
  c_start : Z;
  map_begin : Z;
  map_end : Z
}.

Definition _iterator (sz bs st mb me : Z) : cursor :=
  {| count := 0; c_size := sz; c_block_size := bs; c_start := st;
     map_begin := mb; map_end := me |}.

(** [__next__]; [psz] is the size of a block pointer, [esz] of an
    element. *)
Definition __next__ (m : memory) (psz esz : Z) (self : cursor) : step child cursor :=
  if c_size self <=? count self then Ret (None, self)
  else if c_block_size self <? c_start self then Ret (None, self)
  else
    let idx := c_start self + count self in
    q <- gdb_div idx (c_block_size self) ;;
    let block_ptr := ptr_add psz (map_begin self) q in
    if map_end self <=? block_ptr then Ret (None, self)
    else
      idx' <- gdb_rem idx (c_block_size self) ;;
      b <- fetch (dereference m block_ptr) ;;     (* forced by [+ idx] *)
      let data_ptr := ptr_add esz b idx' in
      Ret (Some (label (count self), GdbValue (dereference m data_ptr)),
           {| count := count self + 1; c_size := c_size self;
              c_block_size := c_block_size self; c_start := c_start self;
              map_begin := map_begin self; map_end := map_end self |}).

Record printer : Type := {
  typename : string;
  block_size : Z;
  blocks : StdSplitBufferPrinter.printer;
  start : Z;
  size : Z;
  capacity : Z;
  has_children : bool
}.

Definition _children_at (sz bs st : Z) (blocks : StdSplitBufferPrinter.printer)
  : cursor :=
  _iterator sz bs st (StdSplitBufferPrinter.begin blocks) (StdSplitBufferPrinter.end_ blocks).

Definition _children (self : printer) : cursor :=
  _children_at (size self) (block_size self) (start self) (blocks self).

Definition children (self : printer) : option cursor :=
  if has_children self then Some (_children self) else None.

(** [for (idx, ptr) in self.blocks.children(): test_str = '%s' %
    ptr.dereference()]: every block pointer is fetched and the object it
    points to is read.  Nothing around the loop catches what it raises. *)
Fixpoint litmus (m : memory) (psz : Z) (fuel : nat) (c : StdSplitBufferPrinter.cursor)
  : outcome unit :=
  match fuel with
  | O => Hang
  | S fuel' =>
      r <- StdSplitBufferPrinter.next_at m psz c ;;
      match r with
      | (None, _) => Ret tt
      | (Some (a, _), c') =>
          p <- fetch (dereference m a) ;;
          _ <- fetch (dereference m p) ;;
          litmus m psz fuel' c'
      end
  end.

(** [__init__].  The [try] around its body is commented out in the source,
    so the function raises what its body raises. *)
Definition __init__ (m : memory) (psz esz : Z) (fuel : nat) (tn : string)
  (val : deque) : outcome printer :=
  let bs := __block_size val in
  blocks <- StdSplitBufferPrinter.__init__ m psz fuel (__map_ val) ;;
  let st := __start_ val in
  let sz := __size_ val in
  let cap := StdSplitBufferPrinter.capacity blocks * bs in
  let mk (s : Z) (ch : bool) : printer :=
    {| typename := tn; block_size := bs; blocks := blocks; start := st;
       size := s; capacity := cap; has_children := ch |} in
  if (0 <? sz) && (st <? bs) && StdSplitBufferPrinter.has_children blocks
     && (sz <=? StdSplitBufferPrinter.size blocks * bs)
  then
    _ <- litmus m psz fuel (StdSplitBufferPrinter._children blocks) ;;
    r <- Py.list_ (__next__ m psz esz) fuel (_children_at sz bs st blocks) ;;
    if negb (sz =? len (fst r))
    then Ret (mk (-1) false)
    else Ret (mk sz true)
  else Ret (mk (-1) false).

Definition to_string (self : printer) : string :=
  if size self =? 0 then "empty"
  else if 0 <? size self
  then (typename self ++ " (length=" ++ fmt_d (size self) ++ ", capacity="
        ++ fmt_d (capacity self) ++ ")")%string
  else "invalid".

End StdDequePrinter.

(** ** The pretty-printer protocol

    What GDB uses of a printer: [to_string], and [children] when the
    attribute is present; the children are pulled from the iterator that
    [children()] returns. *)

Class PrettyPrinter (P : Type) : Type := {
  cursor_of : Type;
  pp_to_string : P -> string;
  pp_children : P -> option cursor_of;
  pp_next : cursor_of -> step child cursor_of
}.

#[export] Instance vector_printer (m : memory) (esz wsz : Z)
  : PrettyPrinter StdVectorPrinter.printer := {
  cursor_of := StdVectorPrinter.cursor;
  pp_to_string := StdVectorPrinter.to_string esz;
  pp_children := StdVectorPrinter.children;
  pp_next := StdVectorPrinter.__next__ m esz wsz
}.

#[export] Instance list_printer (m : memory) (L : StdListPrinter.node_layout)
  : PrettyPrinter StdListPrinter.printer := {
  cursor_of := StdListPrinter.cursor;
  pp_to_string := StdListPrinter.to_string;
  pp_children := StdListPrinter.children;
  pp_next := StdListPrinter.__next__ m L
}.

#[export] Instance deque_printer (m : memory) (psz esz : Z)
  : PrettyPrinter StdDequePrinter.printer := {
  cursor_of := StdDequePrinter.cursor;
  pp_to_string := StdDequePrinter.to_string;
  pp_children := StdDequePrinter.children;
  pp_next := StdDequePrinter.__next__ m psz esz
}.

#[export] Instance rbtree_printer (m : memory) (L : StdRbtreePrinter.node_layout)
  (is_map : bool) (fuel_in : nat) : PrettyPrinter StdRbtreePrinter.printer := {
  cursor_of := StdRbtreePrinter.cursor;
  pp_to_string := StdRbtreePrinter.to_string;
  pp_children := StdRbtreePrinter.children;
  pp_next := StdRbtreePrinter.next_of is_map m L fuel_in
}.

#[export] Instance hashtable_printer (m : memory) (L : HashTablePrinter.node_layout)
  (is_map : bool) : PrettyPrinter HashTablePrinter.printer := {
  cursor_of := HashTablePrinter.cursor;
  pp_to_string := HashTablePrinter.to_string;
  pp_children := HashTablePrinter.children;
  pp_next := HashTablePrinter.next_of is_map m L
}.

(** [list(printer.children())], as the host computes it: absent when the
    printer has no [children] attribute. *)
Definition elements {P : Type} `{PrettyPrinter P} (fuel : nat) (p : P)
  : option (outcome (list child)) :=
  match pp_children p with
  | None => None
  | Some c =>
      Some (match Py.list_ pp_next fuel c with
            | Ret (es, _) => Ret es
            | Raise => Raise
            | Hang => Hang
            end)
  end.

(** ** Printer and iterator objects

    [children()] constructs a new iterator object at each call, and
    [__next__] assigns to the fields of the iterator it is called on.  To
    tell one iterator from another, and an iterator from the printer that
    built it, the objects live in a heap and are named by references: the
    fields of an object are the record of its class, a reference is the
    position of the object in the heap. *)

Module Heap.

Section WithPrinter.

Context {P : Type} {H : PrettyPrinter P}.

Inductive object : Type :=
| PrinterObject (p : P)
| IteratorObject (c : cursor_of).

Definition heap : Type := list object.

Definition ref : Type := nat.

Definition get (h : heap) (r : ref) : option object := nth_error h r.

(** Constructing an object: it gets a reference no object had before. *)
Definition new (o : object) (h : heap) : ref * heap :=
  (List.length h, (h ++ [o])%list).

(** Assigning to the fields of the object at [r]; the other objects are
    left as they are. *)
Fixpoint set (h : heap) (r : ref) (o : object) : heap :=
  match h, r with
  | [], _ => []
  | _ :: h', O => o :: h'
  | x :: h', S r' => x :: set h' r' o
  end.

(** [self.children()] on the printer at [self]: [AttributeError] when
    [__init__] did not set the attribute, otherwise the iterator object
    that [_children] constructs from the printer's fields. *)
Definition children (self : ref) (h : heap) : outcome (ref * heap) :=
  match get h self with
  | Some (PrinterObject p) =>
      match pp_children p with
      | Some c => Ret (new (IteratorObject c) h)
      | None => Raise
      end
  | _ => Raise
  end.

(** [it.__next__()]: the method runs on the fields of the iterator at
    [it], and what it assigned stays there, also when it ends by
    [StopIteration]. *)
Definition __next__ (it : ref) (h : heap) : step child heap :=
  match get h it with
  | Some (IteratorObject c) =>
      r <- pp_next c ;;
      Ret (fst r, set h it (IteratorObject (snd r)))
  | _ => Raise
  end.

(** [list(it)] *)
Definition list_ (fuel : nat) (it : ref) (h : heap)
  : outcome (list child * heap) :=
  Py.list_ (__next__ it) fuel h.




End WithPrinter.

Arguments heap P {H}.
Arguments object P {H}.

End Heap.

(** ** Concrete snapshots used below *)

Module Scenario.

(** A deque of [int] with one block pointer, at 1000, that points to an
    unmapped block at 2000. *)
Definition dangling_block_memory : memory := cells [(1000, 2000)].

Definition dangling_block_deque : StdDequePrinter.deque :=
  {| StdDequePrinter.__block_size := 1024;
     StdDequePrinter.__map_ :=
       {| StdSplitBufferPrinter.__begin_ := 1000;
          StdSplitBufferPrinter.__end_ := 1008;
          StdSplitBufferPrinter.__end_cap_ := 1008 |};
     StdDequePrinter.__start_ := 0;
     StdDequePrinter.__size_ := 1 |}.

(** An empty vector: the three pointers are equal. *)
Definition empty_vector (a : Z) : StdVectorPrinter.vector := StdVectorPrinter.Vector a a a.

(** A [vector<bool>] of 65 bits in two 64-bit words at 1000 and 1008, bits
    0 and 64 set, [__bits_per_word] optimized out. *)
Definition bits65_memory : memory := cells [(1000, 1); (1008, 1)].

Definition bits65 : StdVectorPrinter.vector := StdVectorPrinter.VectorBool 1000 65 2 None.

Definition bits65_expected : list child :=
  map (fun i => (label (Z.of_nat i),
                 PyBool (Nat.eqb i 0 || Nat.eqb i 64)))
      (seq 0 65).

(** A short string "ab" whose inline buffer at 500 is mapped up to its
    terminator, and the same control fields over a snapshot where the
    terminator is unmapped. *)
Definition short_ab : StdStringPrinter.basic_string :=
  {| StdStringPrinter.s_size := 4; StdStringPrinter.s_data := 500;
     StdStringPrinter.l_size := 0; StdStringPrinter.l_data := 0 |}.

Definition long_ab : StdStringPrinter.basic_string :=
  {| StdStringPrinter.s_size := 33; StdStringPrinter.s_data := 500;
     StdStringPrinter.l_size := 2; StdStringPrinter.l_data := 9000 |}.

Definition ab_memory : memory :=
  cells [(500, 97); (501, 98); (502, 0); (9000, 97); (9001, 98); (9002, 0)].

Definition ab_truncated_memory : memory := cells [(500, 97); (501, 98)].

(** List nodes: [__prev_] at 0, [__next_] at 8, [__value_] at 16. *)
Definition list_layout : StdListPrinter.node_layout :=
  {| StdListPrinter.off_next := 8; StdListPrinter.off_value := 16 |}.

(** A list whose sentinel lies at 100 and whose chain is
    100 -> 200 -> 300 -> 100, holding 7 and 8. *)
Definition two_nodes_memory : memory :=
  cells [(208, 300); (216, 7); (308, 100); (316, 8)].

Definition list_of_size (n : Z) : StdListPrinter.list_ :=
  {| StdListPrinter.end_address := 100; StdListPrinter.end_next := 200;
     StdListPrinter.size_alloc := n |}.

(** Hash nodes: [__next_] at 0, [__value_] at 16 (a pair: [first] at 16,
    [second] at 24). *)
Definition hash_layout : HashTablePrinter.node_layout :=
  {| HashTablePrinter.off_next := 0; HashTablePrinter.off_value := 16;
     HashTablePrinter.off_first := 16; HashTablePrinter.off_second := 24 |}.

(** A chain 400 -> 500 -> null holding the entries 1 -> 10 and 2 -> 20. *)
Definition two_entries_memory : memory :=
  cells [(400, 500); (416, 1); (424, 10); (500, 0); (516, 2); (524, 20)].

Definition table_of_size (n : Z) : HashTablePrinter.hashtable :=
  {| HashTablePrinter.p1_first_next := 400; HashTablePrinter.p2_first := n |}.

Definition tree_layout : StdRbtreePrinter.node_layout :=
  {| StdRbtreePrinter.off_left := 0; StdRbtreePrinter.off_right := 8;
     StdRbtreePrinter.off_parent := 16; StdRbtreePrinter.off_value := 32;
     StdRbtreePrinter.off_first := 32; StdRbtreePrinter.off_second := 40 |}.

Definition tree_of_size (n : Z) : StdRbtreePrinter.rbtree :=
  {| StdRbtreePrinter.begin_node := 600; StdRbtreePrinter.pair3_first := n |}.

(** A deque of [int] (4 bytes) with blocks of 4 elements: two block
    pointers at 1000 and 1008, blocks at 2000 and 3000, five elements
    from logical offset 1. *)
Definition two_blocks_memory : memory :=
  cells [(1000, 2000); (1008, 3000);
         (2000, 10); (2004, 11); (2008, 12); (2012, 13);
         (3000, 14); (3004, 15)].

Definition two_blocks_deque : StdDequePrinter.deque :=
  {| StdDequePrinter.__block_size := 4;
     StdDequePrinter.__map_ :=
       {| StdSplitBufferPrinter.__begin_ := 1000;
          StdSplitBufferPrinter.__end_ := 1016;
          StdSplitBufferPrinter.__end_cap_ := 1016 |};
     StdDequePrinter.__start_ := 1;
     StdDequePrinter.__size_ := 5 |}.

(** A vector of three [int]s with capacity four. *)
Definition three_ints_memory : memory := cells [(1000, 7); (1004, 8); (1008, 9)].

Definition three_ints : StdVectorPrinter.vector := StdVectorPrinter.Vector 1000 1012 1016.

End Scenario.

(** ** Shapes of the inferior's data, and cursor states, used to state the
    properties *)

Module Shape.

(** The state of a [vector<bool>] cursor that is about to produce bit [i]:
    it stands on the storage word of index [i / bpw], at offset
    [i mod bpw]. *)
Definition bit_cursor (wsz b s bpw i : Z) : StdVectorPrinter.cursor :=
  {| StdVectorPrinter.bitvec := true;
     StdVectorPrinter.item := ptr_add wsz b (i / bpw);
     StdVectorPrinter.so := i mod bpw;
     StdVectorPrinter.c_size := s;
     StdVectorPrinter.c_bits_per_word := bpw;
     StdVectorPrinter.finish := 0;
     StdVectorPrinter.count := i |}.

(** The state of a vector cursor that has produced [i] elements of the
    range from [b] to [e]. *)
Definition vector_cursor (esz b e i : Z) : StdVectorPrinter.cursor :=
  {| StdVectorPrinter.bitvec := false;
     StdVectorPrinter.item := ptr_add esz b i;
     StdVectorPrinter.so := 0;
     StdVectorPrinter.c_size := 0;
     StdVectorPrinter.c_bits_per_word := 0;
     StdVectorPrinter.finish := e;
     StdVectorPrinter.count := i |}.

(** Following the [__next_] links of list nodes from [b], the sentinel
    [head] is met after exactly [k] nodes. *)
Fixpoint returns_after (m : memory) (L : StdListPrinter.node_layout)
  (head b : Z) (k : nat) : Prop :=
  match k with
  | O => b = head
  | S k' =>
      b <> head
      /\ exists b', m (b + StdListPrinter.off_next L) = Some b'
                    /\ returns_after m L head b' k'
  end.

(** Following the [__next_] links of hash nodes from [n], a null link is
    met after exactly [k] nodes. *)
Fixpoint null_after (m : memory) (L : HashTablePrinter.node_layout)
  (n : Z) (k : nat) : Prop :=
  match k with
  | O => n = 0
  | S k' =>
      n <> 0
      /\ exists n', m (n + HashTablePrinter.off_next L) = Some n'
                    /\ null_after m L n' k'
  end.

(** The state of a deque cursor that has produced [i] elements. *)
Definition deque_cursor (c : StdDequePrinter.cursor) (i : Z) : StdDequePrinter.cursor :=
  {| StdDequePrinter.count := i;
     StdDequePrinter.c_size := StdDequePrinter.c_size c;
     StdDequePrinter.c_block_size := StdDequePrinter.c_block_size c;
     StdDequePrinter.c_start := StdDequePrinter.c_start c;
     StdDequePrinter.map_begin := StdDequePrinter.map_begin c;
     StdDequePrinter.map_end := StdDequePrinter.map_end c |}.

End Shape.

(** ** [StdForwardListPrinter] *)

Module StdForwardListPrinter.

Record node_layout : Type := {
  off_next : Z;    (* __next_ *)
  off_value : Z    (* __value_ *)
}.

(** The control field of a [std::forward_list]:
    [__before_begin_.__first_.__next_]. *)
Record forward_list : Type := {
  before_begin_next : Z
}.

Record cursor : Type := {
  node : lazy;
  count : Z
}.

Definition _iterator (head : Z) : cursor :=
  {| node := Some head; count := 0 |}.

Definition __next__ (m : memory) (L : node_layout) (self : cursor)
  : step child cursor :=
  n <- fetch (node self) ;;       (* forced by the comparison with 0 *)
  if n =? 0 then Ret (None, self)
  else
    Ret (Some (label (count self), GdbValue (dereference m (n + off_value L))),
         {| node := dereference m (n + off_next L);
            count := count self + 1 |}).

Record printer : Type := {
  val : forward_list;
  typename : string;
  head : Z;
  size : Z;
  has_children : bool
}.

Definition _children (self : printer) : cursor := _iterator (head self).

Definition children (self : printer) : option cursor :=
  if has_children self then Some (_children self) else None.

(** [__init__]; [fuel] bounds the calls of [__next__] made by [list(...)],
    which nothing else bounds. *)
Definition __init__ (m : memory) (L : node_layout) (fuel : nat) (tn : string)
  (val : forward_list) : outcome printer :=
  let h := before_begin_next val in
  match Py.list_ (__next__ m L) fuel (_iterator h) with
  | Ret (es, _) =>
      Ret {| val := val; typename := tn; head := h; size := len es;
             has_children := 0 <? len es |}
  | Raise =>
      Ret {| val := val; typename := tn; head := h; size := -1;
             has_children := false |}
  | Hang => Hang
  end.

Definition to_string (self : printer) : string :=
  if size self =? 0 then "empty"
  else if 0 <? size self
  then (typename self ++ " (length=" ++ fmt_d (size self) ++ ")")%string
  else "invalid".

End StdForwardListPrinter.

#[export] Instance forward_list_printer (m : memory)
  (L : StdForwardListPrinter.node_layout)
  : PrettyPrinter StdForwardListPrinter.printer := {
  cursor_of := StdForwardListPrinter.cursor;
  pp_to_string := StdForwardListPrinter.to_string;
  pp_children := StdForwardListPrinter.children;
  pp_next := StdForwardListPrinter.__next__ m L
}.

(** ** [StdBitsetPrinter] *)

Module StdBitsetPrinter.

(** The storage field [__first_] of a [std::bitset]: absent in the
    specialization for no bits, a single word when there is one storage
    word, an array of words otherwise. *)
Inductive storage : Type :=
| NoWords
| Word (w : Z)
| Words (ws : Z -> Z).

Record bitset : Type := {
  __first_ : storage;
  __n_words : Z;
  __bits_per_word : option Z    (* [None]: optimized out *)
}.

Record printer : Type := {
  typename : string;
  val : bitset;
  bit_count : Z                 (* template_argument(0) *)
}.

Definition __init__ (tn : string) (val : bitset) (bits : Z) : printer :=
  {| typename := tn; val := val; bit_count := bits |}.

Definition to_string (self : printer) : string :=
  (typename self ++ " (length=" ++ fmt_d (bit_count self) ++ ")")%string.

(** [word = words] when there is one word, [word = words[word_index]]
    otherwise.  GDB refuses to subscript a scalar, and to do arithmetic on
    an array taken as a number. *)
Definition word_at (words : storage) (words_count word_index : Z) : outcome Z :=
  match words with
  | NoWords => Raise
  | Word w => if words_count =? 1 then Ret w else Raise
  | Words ws => if words_count =? 1 then Raise else Ret (ws word_index)
  end.

(** The inner loop, [while word != 0: ...]: what it appends to [result].
    [base] is [word_index * bits_per_word]. *)
Fixpoint scan_word (fuel : nat) (base bit_index word : Z)
  : outcome (list (string * Z)) :=
  match fuel with
  | O => Hang
  | S fuel' =>
      if word =? 0 then Ret []
      else
        rest <- scan_word fuel' base (bit_index + 1) (Z.shiftr word 1) ;;
        Ret (if negb (Z.land word 1 =? 0)
             then (label (base + bit_index), 1) :: rest
             else rest)
  end.

(** The outer loop, [while word_index < words_count: ...]. *)
Fixpoint scan_words (fuel fuel_in : nat) (words : storage)
  (words_count bits_per_word word_index : Z) : outcome (list (string * Z)) :=
  match fuel with
  | O => Hang
  | S fuel' =>
      if word_index <? words_count then
        word <- word_at words words_count word_index ;;
        here <- scan_word fuel_in (word_index * bits_per_word) 0 word ;;
        rest <- scan_words fuel' fuel_in words words_count bits_per_word
                  (word_index + 1) ;;
        Ret (here ++ rest)%list
      else Ret []
  end.

(** [children]: the list it returns.  [fuel] bounds the outer loop and
    [fuel_in] each run of the inner one. *)
Definition children (fuel fuel_in : nat) (self : printer)
  : outcome (list (string * Z)) :=
  match __first_ (val self) with
  | NoWords => Raise             (* no member named __first_ *)
  | words =>
      let bits_per_word :=
        match __bits_per_word (val self) with
        | None => 64
        | Some w => w
        end in
      scan_words fuel fuel_in words (__n_words (val self)) bits_per_word 0
  end.

End StdBitsetPrinter.

(** * The registry: RxPrinter and Printer *)

(** A sub-printer: a registered name and the constructor it stands for.
    [function] is any callable taking the registered name and the value;
    [V] is the type of values and [R] what the callable returns. *)

Module RxPrinter.

Section WithTypes.

Context {V R : Type}.

Record printer : Type := {
  name : string;
  function : string -> V -> R;
  enabled : bool
}.

Definition __init__ (name : string) (function : string -> V -> R) : printer :=
  {| name := name; function := function; enabled := true |}.

(** [invoke]: [None] when disabled, otherwise the call
    [function(name, value)]. *)
Definition invoke (self : printer) (value : V) : option R :=
  if negb (enabled self) then None
  else Some (function self (name self) value).

End WithTypes.

Arguments printer : clear implicits.

End RxPrinter.

Module Printer.

(** The pattern [^([a-zA-Z0-9_:]+)<.*>$] compiled in [__init__], as
    [re.match] runs it.  The group is a non-empty run of word characters;
    since the next character has to be [<], which is no word character,
    only the longest run can be followed by a match.  [.] is any character
    but a newline, and [$] is the end of the string or the place before a
    newline that ends it. *)

Definition word_char (c : ascii) : bool :=
  let n := nat_of_ascii c in
  (((97 <=? n) && (n <=? 122)) || ((65 <=? n) && (n <=? 90))
   || ((48 <=? n) && (n <=? 57)) || (n =? 95) || (n =? 58))%nat.

Definition newline : ascii := "010"%char.

Definition not_newline (c : ascii) : bool := negb (Ascii.eqb c newline).

Fixpoint all_chars (f : ascii -> bool) (s : string) : bool :=
  match s with
  | EmptyString => true
  | String c rest => f c && all_chars f rest
  end.

(** [[a-zA-Z0-9_:]*], greedy: the longest run and what follows it. *)
Fixpoint word_prefix (s : string) : string * string :=
  match s with
  | EmptyString => (EmptyString, EmptyString)
  | String c rest =>
      if word_char c
      then let run := word_prefix rest in (String c (fst run), snd run)
      else (EmptyString, s)
  end.

(** [$] *)
Definition at_end (s : string) : bool :=
  match s with
  | EmptyString => true
  | String c EmptyString => Ascii.eqb c newline
  | String _ (String _ _) => false
  end.

(** [.*>$]: at each character either [.*] stops and [>$] matches here, or
    [.*] takes the character, which is then no newline. *)
Fixpoint tail_matches (s : string) : bool :=
  match s with
  | EmptyString => false
  | String c rest =>
      (Ascii.eqb c ">" && at_end rest) || (not_newline c && tail_matches rest)
  end.

(** [compiled_rx.match(s)]: [None], or group 1 of the match. *)
Definition compiled_rx_match (s : string) : option string :=
  let run := word_prefix s in
  match fst run, snd run with
  | String g group, String c tail =>
      if Ascii.eqb c "<" && tail_matches tail then Some (String g group) else None
  | _, _ => None
  end.

Section WithTypes.

Context {V R : Type}.

(** The dict [lookup]: one entry per key, a later assignment replacing the
    earlier one. *)
Definition dict : Type := list (string * RxPrinter.printer V R).

Fixpoint dict_get (k : string) (d : dict) : option (RxPrinter.printer V R) :=
  match d with
  | [] => None
  | (k', v) :: d' => if String.eqb k k' then Some v else dict_get k d'
  end.

Definition dict_set (k : string) (v : RxPrinter.printer V R) (d : dict) : dict :=
  (k, v) :: filter (fun e => negb (String.eqb k (fst e))) d.

Record printer : Type := {
  name : string;
  subprinters : list (RxPrinter.printer V R);
  lookup : dict;
  enabled : bool
}.

Definition __init__ (name : string) : printer :=
  {| name := name; subprinters := []; lookup := []; enabled := true |}.

(** [add]: the sanity check raises [ValueError] when [name + '<>'] does not
    match; otherwise the new sub-printer is appended to [subprinters] and
    stored in [lookup] under its name. *)
Definition add (self : printer) (name_ : string) (function : string -> V -> R)
  : outcome printer :=
  match compiled_rx_match (name_ ++ "<>") with
  | None => Raise
  | Some _ =>
      let printer_ := RxPrinter.__init__ name_ function in
      Ret {| name := name self;
             subprinters := (subprinters self ++ [printer_])%list;
             lookup := dict_set name_ printer_ (lookup self);
             enabled := enabled self |}
  end.

Definition add_version (self : printer) (base name_ : string)
  (function : string -> V -> R) : outcome printer :=
  self <- add self (base ++ name_) function ;;
  add self ((base ++ "__1::") ++ name_) function.

Definition add_container (self : printer) (base name_ : string)
  (function : string -> V -> R) : outcome printer :=
  self <- add_version self base name_ function ;;
  add_version self (base ++ "__1::") name_ function.

(** [__call__], on the result [typename] of [get_basic_type(val.type)]:
    the tag of the type once reference, qualifiers and typedefs are
    stripped, [None] for a type without a tag. *)
Definition __call__ (self : printer) (typename : option string) (val : V)
  : option R :=
  match typename with
  | None => None
  | Some typename =>
      if String.eqb typename "" then None
      else
        match compiled_rx_match typename with
        | None => None
        | Some basename =>
            match dict_get basename (lookup self) with
            | Some printer_ => RxPrinter.invoke printer_ val
            | None => None
            end
        end
  end.

End WithTypes.

Arguments printer : clear implicits.
Arguments dict : clear implicits.

End Printer.

(** * build_libcxx_dictionary *)

Module Dictionary.

(** The classes registered as constructors. *)
Inductive printer_class : Type :=
| StdStringPrinter
| StdBitsetPrinter
| StdDequePrinter
| StdListPrinter
| StdMapPrinter
| StdSetPrinter
| StdStackOrQueuePrinter
| StdTuplePrinter
| StdPairPrinter
| UniquePointerPrinter
| StdArrayPrinter
| StdVectorPrinter
| SharedPointerPrinter
| UnorderedMapPrinter
| UnorderedSetPrinter
| StdForwardListPrinter
| StdListIteratorPrinter
| StdRbtreeIteratorPrinter
| StdHashtableIteratorPrinter
| StdUnorderedMapIteratorPrinter
| StdMapIteratorPrinter
| StdDequeIteratorPrinter
| StdVectorIteratorPrinter
| StdVectorBoolIteratorPrinter.

(** The call [function(name, value)] of a registered class, kept as the
    class, the name and the value it is called with. *)
Definition construct {V : Type} (c : printer_class) (name : string) (val : V)
  : printer_class * string * V := (c, name, val).

Definition build_libcxx_dictionary {V : Type}
  : outcome (Printer.printer V (printer_class * string * V)) :=
  let libcxx_printer := Printer.__init__ "libc++-v1" in
  libcxx_printer <- Printer.add_version libcxx_printer "std::" "basic_string" (construct StdStringPrinter) ;;
  libcxx_printer <- Printer.add_container libcxx_printer "std::" "bitset" (construct StdBitsetPrinter) ;;
  libcxx_printer <- Printer.add_container libcxx_printer "std::" "deque" (construct StdDequePrinter) ;;
  libcxx_printer <- Printer.add_container libcxx_printer "std::" "list" (construct StdListPrinter) ;;
  libcxx_printer <- Printer.add_container libcxx_printer "std::" "map" (construct StdMapPrinter) ;;
  libcxx_printer <- Printer.add_container libcxx_printer "std::" "multimap" (construct StdMapPrinter) ;;
  libcxx_printer <- Printer.add_container libcxx_printer "std::" "multiset" (construct StdSetPrinter) ;;
  libcxx_printer <- Printer.add_version libcxx_printer "std::" "priority_queue" (construct StdStackOrQueuePrinter) ;;
  libcxx_printer <- Printer.add_version libcxx_printer "std::" "queue" (construct StdStackOrQueuePrinter) ;;
  libcxx_printer <- Printer.add_version libcxx_printer "std::" "tuple" (construct StdTuplePrinter) ;;
  libcxx_printer <- Printer.add_version libcxx_printer "std::" "pair" (construct StdPairPrinter) ;;
  libcxx_printer <- Printer.add_container libcxx_printer "std::" "set" (construct StdSetPrinter) ;;
  libcxx_printer <- Printer.add_version libcxx_printer "std::" "stack" (construct StdStackOrQueuePrinter) ;;
  libcxx_printer <- Printer.add_version libcxx_printer "std::" "unique_ptr" (construct UniquePointerPrinter) ;;
  libcxx_printer <- Printer.add_container libcxx_printer "std::" "array" (construct StdArrayPrinter) ;;
  libcxx_printer <- Printer.add_container libcxx_printer "std::" "vector" (construct StdVectorPrinter) ;;
  libcxx_printer <- Printer.add libcxx_printer "std::__debug::bitset" (construct StdBitsetPrinter) ;;
  libcxx_printer <- Printer.add libcxx_printer "std::__debug::deque" (construct StdDequePrinter) ;;
  libcxx_printer <- Printer.add libcxx_printer "std::__debug::list" (construct StdListPrinter) ;;
  libcxx_printer <- Printer.add libcxx_printer "std::__debug::map" (construct StdMapPrinter) ;;
  libcxx_printer <- Printer.add libcxx_printer "std::__debug::multimap" (construct StdMapPrinter) ;;
  libcxx_printer <- Printer.add libcxx_printer "std::__debug::multiset" (construct StdSetPrinter) ;;
  libcxx_printer <- Printer.add libcxx_printer "std::__debug::priority_queue" (construct StdStackOrQueuePrinter) ;;
  libcxx_printer <- Printer.add libcxx_printer "std::__debug::queue" (construct StdStackOrQueuePrinter) ;;
  libcxx_printer <- Printer.add libcxx_printer "std::__debug::set" (construct StdSetPrinter) ;;
  libcxx_printer <- Printer.add libcxx_printer "std::__debug::stack" (construct StdStackOrQueuePrinter) ;;
  libcxx_printer <- Printer.add libcxx_printer "std::__debug::unique_ptr" (construct UniquePointerPrinter) ;;
  libcxx_printer <- Printer.add libcxx_printer "std::__debug::array" (construct StdArrayPrinter) ;;
  libcxx_printer <- Printer.add libcxx_printer "std::__debug::vector" (construct StdVectorPrinter) ;;
  libcxx_printer <- Printer.add_version libcxx_printer "std::" "shared_ptr" (construct SharedPointerPrinter) ;;
  libcxx_printer <- Printer.add_version libcxx_printer "std::" "weak_ptr" (construct SharedPointerPrinter) ;;
  libcxx_printer <- Printer.add_container libcxx_printer "std::" "unordered_map" (construct UnorderedMapPrinter) ;;
  libcxx_printer <- Printer.add_container libcxx_printer "std::" "unordered_set" (construct UnorderedSetPrinter) ;;
  libcxx_printer <- Printer.add_container libcxx_printer "std::" "unordered_multimap" (construct UnorderedMapPrinter) ;;
  libcxx_printer <- Printer.add_container libcxx_printer "std::" "unordered_multiset" (construct UnorderedSetPrinter) ;;
  libcxx_printer <- Printer.add_container libcxx_printer "std::" "forward_list" (construct StdForwardListPrinter) ;;
  libcxx_printer <- Printer.add_version libcxx_printer "std::" "shared_ptr" (construct SharedPointerPrinter) ;;
  libcxx_printer <- Printer.add_version libcxx_printer "std::" "weak_ptr" (construct SharedPointerPrinter) ;;
  libcxx_printer <- Printer.add_version libcxx_printer "std::" "unordered_map" (construct UnorderedMapPrinter) ;;
  libcxx_printer <- Printer.add_version libcxx_printer "std::" "unordered_set" (construct UnorderedSetPrinter) ;;
  libcxx_printer <- Printer.add_version libcxx_printer "std::" "unordered_multimap" (construct UnorderedMapPrinter) ;;
  libcxx_printer <- Printer.add_version libcxx_printer "std::" "unordered_multiset" (construct UnorderedSetPrinter) ;;
  libcxx_printer <- Printer.add libcxx_printer "std::__debug::unordered_map" (construct UnorderedMapPrinter) ;;
  libcxx_printer <- Printer.add libcxx_printer "std::__debug::unordered_set" (construct UnorderedSetPrinter) ;;
  libcxx_printer <- Printer.add libcxx_printer "std::__debug::unordered_multimap" (construct UnorderedMapPrinter) ;;
  libcxx_printer <- Printer.add libcxx_printer "std::__debug::unordered_multiset" (construct UnorderedSetPrinter) ;;
  libcxx_printer <- Printer.add libcxx_printer "std::__debug::forward_list" (construct StdForwardListPrinter) ;;
  libcxx_printer <- Printer.add_container libcxx_printer "std::" "__list_iterator" (construct StdListIteratorPrinter) ;;
  libcxx_printer <- Printer.add_container libcxx_printer "std::" "__list_const_iterator" (construct StdListIteratorPrinter) ;;
  libcxx_printer <- Printer.add_container libcxx_printer "std::" "__forward_list_iterator" (construct StdListIteratorPrinter) ;;
  libcxx_printer <- Printer.add_container libcxx_printer "std::" "__forward_list_const_iterator" (construct StdListIteratorPrinter) ;;
  libcxx_printer <- Printer.add_version libcxx_printer "std::" "__tree_iterator" (construct StdRbtreeIteratorPrinter) ;;
  libcxx_printer <- Printer.add_version libcxx_printer "std::" "__tree_const_iterator" (construct StdRbtreeIteratorPrinter) ;;
  libcxx_printer <- Printer.add_version libcxx_printer "std::" "__hash_iterator" (construct StdHashtableIteratorPrinter) ;;
  libcxx_printer <- Printer.add_version libcxx_printer "std::" "__hash_const_iterator" (construct StdHashtableIteratorPrinter) ;;
  libcxx_printer <- Printer.add_version libcxx_printer "std::" "__hash_map_iterator" (construct StdUnorderedMapIteratorPrinter) ;;
  libcxx_printer <- Printer.add_version libcxx_printer "std::" "__hash_map_const_iterator" (construct StdUnorderedMapIteratorPrinter) ;;
  libcxx_printer <- Printer.add_version libcxx_printer "std::" "__map_iterator" (construct StdMapIteratorPrinter) ;;
  libcxx_printer <- Printer.add_version libcxx_printer "std::" "__map_const_iterator" (construct StdMapIteratorPrinter) ;;
  libcxx_printer <- Printer.add_container libcxx_printer "std::" "__deque_iterator" (construct StdDequeIteratorPrinter) ;;
  libcxx_printer <- Printer.add_version libcxx_printer "std::" "__wrap_iter" (construct StdVectorIteratorPrinter) ;;
  libcxx_printer <- Printer.add_version libcxx_printer "std::" "__bit_iterator" (construct StdVectorBoolIteratorPrinter) ;;
  libcxx_printer <- Printer.add libcxx_printer "std::__norm::__list_iterator" (construct StdListIteratorPrinter) ;;
  libcxx_printer <- Printer.add libcxx_printer "std::__norm::__list_const_iterator" (construct StdListIteratorPrinter) ;;
  libcxx_printer <- Printer.add libcxx_printer "std::__norm::__forward_list_iterator" (construct StdListIteratorPrinter) ;;
  libcxx_printer <- Printer.add libcxx_printer "std::__norm::__forward_list_const_iterator" (construct StdListIteratorPrinter) ;;
  Printer.add libcxx_printer "std::__norm::__deque_iterator" (construct StdDequeIteratorPrinter).

(** The global [libcxx_printer]: the printer [build_libcxx_dictionary]
    leaves in it. *)
Definition libcxx_printer {V : Type}
  : Printer.printer V (printer_class * string * V) :=
  match build_libcxx_dictionary with
  | Ret printer_ => printer_
  | _ => Printer.__init__ "libc++-v1"
  end.

End Dictionary.


(** ** Binary trees laid out in the inferior *)

Module Tree.

(** A binary tree of node addresses. *)
Inductive tree : Type :=
| Leaf
| Node (l : tree) (a : Z) (r : tree).

(** The pointer to a tree: null for the empty tree. *)
Definition root (t : tree) : Z :=
  match t with
  | Leaf => 0
  | Node _ a _ => a
  end.

Fixpoint inorder (t : tree) : list Z :=
  match t with
  | Leaf => []
  | Node l a r => inorder l ++ a :: inorder r
  end.

Fixpoint height (t : tree) : nat :=
  match t with
  | Leaf => O
  | Node l _ r => S (Nat.max (height l) (height r))
  end.

(** The first node of [t] in order, or [nxt] when [t] is empty. *)
Fixpoint leftmost (t : tree) (nxt : Z) : Z :=
  match t with
  | Leaf => nxt
  | Node l a _ => leftmost l a
  end.

(** [t] is laid out in memory below the node (or end node) [parent]: every
    node is non-null, its [__left_] and [__right_] hold the pointers to its
    subtrees, its [__parent_] holds [parent], and its two children, when it
    has both, are different nodes. *)
Fixpoint shaped (m : memory) (L : StdRbtreePrinter.node_layout) (t : tree)
  (parent : Z) : Prop :=
  match t with
  | Leaf => True
  | Node l a r =>
      a <> 0
      /\ m (a + StdRbtreePrinter.off_left L) = Some (root l)
      /\ m (a + StdRbtreePrinter.off_right L) = Some (root r)
      /\ m (a + StdRbtreePrinter.off_parent L) = Some parent
      /\ match r with Leaf => True | Node _ b _ => root l <> b end
      /\ shaped m L l a
      /\ shaped m L r a
  end.

(** The child shown for the node [a] at position [i]: its value for a set;
    for a map the mapped value, labelled with the key [key a] too. *)
Definition entry_child (m : memory) (L : StdRbtreePrinter.node_layout)
  (is_map : bool) (key : Z -> Z) (i a : Z) : child :=
  if is_map
  then ((label i ++ " " ++ fmt_d (key a))%string,
        GdbValue (dereference m (a + StdRbtreePrinter.off_second L)))
  else (label i, GdbValue (dereference m (a + StdRbtreePrinter.off_value L))).

Fixpoint entry_children_from (m : memory) (L : StdRbtreePrinter.node_layout)
  (is_map : bool) (key : Z -> Z) (i : Z) (nodes : list Z) : list child :=
  match nodes with
  | [] => []
  | a :: rest =>
      entry_child m L is_map key i a
      :: entry_children_from m L is_map key (i + 1) rest
  end.

(** The [__tree] control fields of the tree [t] hanging from the end node
    [e]. *)
Definition rbtree_of (t : tree) (e : Z) : StdRbtreePrinter.rbtree :=
  {| StdRbtreePrinter.begin_node := leftmost t e;
     StdRbtreePrinter.pair3_first := len (inorder t) |}.

End Tree.

(** ** What a well-formed container is expected to show *)

Module Expected.

(** The children of a contiguous range of [n] objects of [sz] bytes from
    [b]: labelled [[0]], [[1]], ..., each the (lazy) object at its
    address. *)
Definition range_children (m : memory) (sz b : Z) (n : nat) : list child :=
  map (fun i => (label (Z.of_nat i),
                 GdbValue (dereference m (ptr_add sz b (Z.of_nat i)))))
      (seq 0 n).

(** The children of a chain of nodes given by their addresses: labelled by
    position from [i] on, each the (lazy) value field of its node. *)
Fixpoint node_children_from (m : memory) (off_value : Z) (i : Z)
  (nodes : list Z) : list child :=
  match nodes with
  | [] => []
  | a :: rest =>
      (label i, GdbValue (dereference m (a + off_value)))
      :: node_children_from m off_value (i + 1) rest
  end.

Definition node_children (m : memory) (off_value : Z) (nodes : list Z)
  : list child :=
  node_children_from m off_value 0 nodes.

(** The children of a chain of map entries, given as (address, key)
    pairs: the label carries the position and the key, the value is the
    (lazy) mapped value of the entry. *)
Fixpoint map_children_from (m : memory) (off_second : Z) (i : Z)
  (entries : list (Z * Z)) : list child :=
  match entries with
  | [] => []
  | (a, k) :: rest =>
      ((label i ++ " " ++ fmt_d k)%string,
       GdbValue (dereference m (a + off_second)))
      :: map_children_from m off_second (i + 1) rest
  end.

(** The nodes [nodes] are linked from [n] on through the field at
    [off_next], and the link of the last one (or [n] itself, when there
    are none) is [last]. *)
Fixpoint linked (m : memory) (off_next : Z) (n : Z) (nodes : list Z)
  (last : Z) : Prop :=
  match nodes with
  | [] => n = last
  | a :: rest =>
      n = a /\ exists n', m (a + off_next) = Some n'
                           /\ linked m off_next n' rest last
  end.

(** The string that [ptr.string(length=n)] decodes from the character
    codes [cs]. *)
Definition decoded (cs : list Z) : string :=
  fold_right (fun c s => String (ascii_of_N (Z.to_N c)) s) EmptyString cs.

(** The state of a split-buffer cursor that has produced [i] slots. *)
Definition split_cursor (sz b e : Z) (i : nat) : StdSplitBufferPrinter.cursor :=
  {| StdSplitBufferPrinter.ptr := ptr_add sz b (Z.of_nat i);
     StdSplitBufferPrinter.c_end := e;
     StdSplitBufferPrinter.count := Z.of_nat i |}.

(** A block map of [nb] slots from [mb] laid out in memory: slot [j] holds
    the block pointer [blk j], and the first object of each block is
    mapped. *)
Definition block_map (m : memory) (psz mb : Z) (nb : nat) (blk : Z -> Z) : Prop :=
  forall j, 0 <= j < Z.of_nat nb ->
    m (ptr_add psz mb j) = Some (blk j) /\ exists x, m (blk j) = Some x.

(** The deque over such a map. *)
Definition deque_over (psz bs mb ec : Z) (nb : nat) (st sz : Z)
  : StdDequePrinter.deque :=
  {| StdDequePrinter.__block_size := bs;
     StdDequePrinter.__map_ :=
       {| StdSplitBufferPrinter.__begin_ := mb;
          StdSplitBufferPrinter.__end_ := ptr_add psz mb (Z.of_nat nb);
          StdSplitBufferPrinter.__end_cap_ := ec |};
     StdDequePrinter.__start_ := st;
     StdDequePrinter.__size_ := sz |}.

(** The first [n] elements of that deque: element [i] lies in block
    [(st + i) / bs] at offset [(st + i) mod bs]. *)
Definition deque_children (m : memory) (esz bs st : Z) (blk : Z -> Z) (n : nat)
  : list child :=
  map (fun i =>
         (label (Z.of_nat i),
          GdbValue (dereference m
                      (ptr_add esz (blk ((st + Z.of_nat i) / bs))
                         ((st + Z.of_nat i) mod bs)))))
      (seq 0 n).

(** The positions below [width] of the bits set in [w], in increasing
    order. *)
Definition set_bits (width : nat) (w : Z) : list Z :=
  filter (Z.testbit w) (map Z.of_nat (seq 0 width)).

(** The children of a bitset stored in [n] words of [width] significant
    bits: one child per set bit, labelled with its position
    [word_index * bpw + bit], with value 1, word after word. *)
Definition bitset_children (bpw : Z) (width : nat) (ws : Z -> Z) (n : nat)
  : list (string * Z) :=
  List.concat (map (fun i =>
                 map (fun b => (label (Z.of_nat i * bpw + b), 1))
                     (set_bits width (ws (Z.of_nat i))))
              (seq 0 n)).

(** The class names registered with a version namespace, and the class
    that prints each. *)
Definition libcxx_printers : list (string * Dictionary.printer_class) :=
  [
   ("basic_string", Dictionary.StdStringPrinter);
   ("bitset", Dictionary.StdBitsetPrinter);
   ("deque", Dictionary.StdDequePrinter);
   ("list", Dictionary.StdListPrinter);
   ("map", Dictionary.StdMapPrinter);
   ("multimap", Dictionary.StdMapPrinter);
   ("multiset", Dictionary.StdSetPrinter);
   ("priority_queue", Dictionary.StdStackOrQueuePrinter);
   ("queue", Dictionary.StdStackOrQueuePrinter);
   ("tuple", Dictionary.StdTuplePrinter);
   ("pair", Dictionary.StdPairPrinter);
   ("set", Dictionary.StdSetPrinter);
   ("stack", Dictionary.StdStackOrQueuePrinter);
   ("unique_ptr", Dictionary.UniquePointerPrinter);
   ("array", Dictionary.StdArrayPrinter);
   ("vector", Dictionary.StdVectorPrinter);
   ("shared_ptr", Dictionary.SharedPointerPrinter);
   ("weak_ptr", Dictionary.SharedPointerPrinter);
   ("unordered_map", Dictionary.UnorderedMapPrinter);
   ("unordered_set", Dictionary.UnorderedSetPrinter);
   ("unordered_multimap", Dictionary.UnorderedMapPrinter);
   ("unordered_multiset", Dictionary.UnorderedSetPrinter);
   ("forward_list", Dictionary.StdForwardListPrinter);
   ("__list_iterator", Dictionary.StdListIteratorPrinter);
   ("__list_const_iterator", Dictionary.StdListIteratorPrinter);
   ("__forward_list_iterator", Dictionary.StdListIteratorPrinter);
   ("__forward_list_const_iterator", Dictionary.StdListIteratorPrinter);
   ("__tree_iterator", Dictionary.StdRbtreeIteratorPrinter);
   ("__tree_const_iterator", Dictionary.StdRbtreeIteratorPrinter);
   ("__hash_iterator", Dictionary.StdHashtableIteratorPrinter);
   ("__hash_const_iterator", Dictionary.StdHashtableIteratorPrinter);
   ("__hash_map_iterator", Dictionary.StdUnorderedMapIteratorPrinter);
   ("__hash_map_const_iterator", Dictionary.StdUnorderedMapIteratorPrinter);
   ("__map_iterator", Dictionary.StdMapIteratorPrinter);
   ("__map_const_iterator", Dictionary.StdMapIteratorPrinter);
   ("__deque_iterator", Dictionary.StdDequeIteratorPrinter);
   ("__wrap_iter", Dictionary.StdVectorIteratorPrinter);
   ("__bit_iterator", Dictionary.StdVectorBoolIteratorPrinter)
  ].

End Expected.

(** ** More concrete snapshots *)

Module More.

(** Two mapped objects at 1000 and 1006, for a vector of 4-byte elements
    whose end, 1010, is not a whole number of elements past 1000. *)
Definition ragged_memory : memory := cells [(1000, 7); (1006, 8)].

(** The string "ab" in long form: size 2, data at 9000. *)
Definition long_ab_only : StdStringPrinter.basic_string :=
  {| StdStringPrinter.s_size := 1; StdStringPrinter.s_data := 700;
     StdStringPrinter.l_size := 2; StdStringPrinter.l_data := 9000 |}.

(** A block map of two 8-byte slots from 1000, and one whose end lies four
    bytes into a third slot. *)
Definition map_of_two : StdSplitBufferPrinter.split_buffer :=
  {| StdSplitBufferPrinter.__begin_ := 1000;
     StdSplitBufferPrinter.__end_ := 1016;
     StdSplitBufferPrinter.__end_cap_ := 1032 |}.

Definition ragged_map : StdSplitBufferPrinter.split_buffer :=
  {| StdSplitBufferPrinter.__begin_ := 1000;
     StdSplitBufferPrinter.__end_ := 1020;
     StdSplitBufferPrinter.__end_cap_ := 1032 |}.

(** The block pointers of [Scenario.two_blocks_memory], by map index. *)
Definition two_blocks (j : Z) : Z := if j =? 0 then 2000 else 3000.

(** Forward-list nodes: [__next_] at 0, [__value_] at 8.  A chain
    400 -> 500 -> null holding 1 and 2; a node at 600 linked to itself; a
    node at 700 whose link is unmapped. *)
Definition fl_layout : StdForwardListPrinter.node_layout :=
  {| StdForwardListPrinter.off_next := 0; StdForwardListPrinter.off_value := 8 |}.

Definition fl_memory : memory :=
  cells [(400, 500); (408, 1); (500, 0); (508, 2); (600, 600); (608, 3); (708, 4)].

Definition fl_from (h : Z) : StdForwardListPrinter.forward_list :=
  {| StdForwardListPrinter.before_begin_next := h |}.

(** A tree of three nodes, 700 with children 600 and 800, hanging from the
    end node 900; the values (and keys) are 1, 2, 3, the mapped values 10,
    20, 30. *)
Definition three_nodes : Tree.tree :=
  Tree.Node (Tree.Node Tree.Leaf 600 Tree.Leaf) 700
            (Tree.Node Tree.Leaf 800 Tree.Leaf).

Definition three_nodes_memory : memory :=
  cells [(900, 700);
         (700, 600); (708, 800); (716, 900); (732, 2); (740, 20);
         (600, 0); (608, 0); (616, 700); (632, 1); (640, 10);
         (800, 0); (808, 0); (816, 700); (832, 3); (840, 30)].

Definition three_keys (a : Z) : Z :=
  if a =? 600 then 1 else if a =? 700 then 2 else 3.

(** A single tree node at 600 with a readable value and no children, whose
    parent pointer is null. *)
Definition orphan_memory : memory :=
  cells [(600, 0); (608, 0); (616, 0); (632, 5)].

(** A bitset of 96 bits in two words: bits 1 and 3 of the first word and
    bit 0 of the second are set. *)
Definition bitset_words (i : Z) : Z := if i =? 0 then 10 else 1.

Definition bitset96 : StdBitsetPrinter.bitset :=
  {| StdBitsetPrinter.__first_ := StdBitsetPrinter.Words bitset_words;
     StdBitsetPrinter.__n_words := 2;
     StdBitsetPrinter.__bits_per_word := None |}.

(** A registry holding one constructor, which returns what it is called
    with. *)
Definition echo (name : string) (val : Z) : string * Z := (name, val).

Definition one_printer : Printer.printer Z (string * Z) :=
  {| Printer.name := "libc++-v1";
     Printer.subprinters := [RxPrinter.__init__ "std::vector" echo];
     Printer.lookup := [("std::vector", RxPrinter.__init__ "std::vector" echo)];
     Printer.enabled := true |}.

(** The chain 400 -> 500 -> null of a map whose second entry has a readable
    key, 2, and an unmapped mapped value. *)
Definition unreadable_second_memory : memory :=
  cells [(400, 500); (416, 1); (424, 10); (500, 0); (516, 2)].

End More.

(** * Properties *)

(** ** [list(iterator)] and its fuel *)

Section ListFuel.

Context {E C : Type} (next : C -> step E C).

Lemma list_unfold (f : nat) (c : C) :
  Py.list_ next (S f) c
  = match next c with
    | Ret (None, c') => Ret ([], c')
    | Ret (Some e, c') =>
        match Py.list_ next f c' with
        | Ret (es, cz) => Ret (e :: es, cz)
        | Raise => Raise
        | Hang => Hang
        end
    | Raise => Raise
    | Hang => Hang
    end.
Proof. reflexivity. Qed.

(** A run that returned keeps its result under more fuel. *)
Lemma list_fuel_mono (f : nat) :
  forall (g : nat) (c : C) (r : list E * C),
    (f <= g)%nat -> Py.list_ next f c = Ret r -> Py.list_ next g c = Ret r.
Proof.
  induction f as [|f IH]; intros g c r Hle Hrun; [discriminate|].
  destruct g as [|g]; [lia|].
  simpl in *.
  destruct (next c) as [[[e|] c']| |]; try discriminate; [|exact Hrun].
  destruct (Py.list_ next f c') as [[es cz]| |] eqn:Hrec; try discriminate.
  rewrite (IH g c' (es, cz)); [exact Hrun | lia | exact Hrec].
Qed.

(** More generally, a run that did not run out of fuel is not changed by
    more fuel. *)
Lemma list_fuel_stable (f : nat) :
  forall (g : nat) (c : C),
    (f <= g)%nat -> Py.list_ next f c <> Hang ->
    Py.list_ next g c = Py.list_ next f c.
Proof.
  induction f as [|f IH]; intros g c Hle Hrun; [contradiction Hrun; reflexivity|].
  destruct g as [|g]; [lia|].
  rewrite !list_unfold in *.
  destruct (next c) as [[[e|] c']| |]; try reflexivity.
  rewrite (IH g c'); [reflexivity | lia |].
  intros Hh. rewrite Hh in Hrun. contradiction Hrun; reflexivity.
Qed.

End ListFuel.

(** ** Which constructors can raise *)

(** The constructors of the list, hash-table and tree printers wrap their
    traversal in [try]/[except]: they return a printer or do not return,
    they never raise. *)
Lemma list_init_never_raises m L fuel tn val :
  StdListPrinter.__init__ m L fuel tn val <> Raise.
Proof.
  unfold StdListPrinter.__init__.
  destruct (Py.list_ _ _ _) as [[es c]| |]; try discriminate.
  destruct (negb _); [discriminate|]. destruct (0 <? _); discriminate.
Qed.

Lemma hashtable_init_never_raises m L is_map fuel tn table :
  HashTablePrinter.__init__ m L is_map fuel tn table <> Raise.
Proof.
  unfold HashTablePrinter.__init__.
  destruct (Py.list_ _ _ _) as [[es c]| |]; try discriminate.
  destruct (negb _); [discriminate|]. destruct (0 <? _); discriminate.
Qed.

Lemma rbtree_init_never_raises m L is_map fuel fuel_in tn tree :
  StdRbtreePrinter.__init__ m L is_map fuel fuel_in tn tree <> Raise.
Proof.
  unfold StdRbtreePrinter.__init__.
  destruct (Py.list_ _ _ _) as [[es c]| |]; try discriminate.
  destruct (negb _); [discriminate|]. destruct (0 <? _); discriminate.
Qed.

Lemma split_buffer_init_never_raises m sz fuel val :
  StdSplitBufferPrinter.__init__ m sz fuel val <> Raise.
Proof.
  unfold StdSplitBufferPrinter.__init__.
  destruct (_ <? _); destruct (0 <? _); try discriminate;
    destruct (Py.list_ _ _ _) as [[es c]| |]; try discriminate;
    destruct (negb _); discriminate.
Qed.

(** C1 (the deque constructor): the claim is that no failed read escapes a
    constructor.  On a deque whose only block pointer is readable but points
    to an unmapped block, reading the block in the litmus loop raises, and,
    the [try] around the body of [StdDequePrinter.__init__] being commented
    out, the constructor raises, whatever fuel (at least two calls of
    [__next__]) the loops are given. *)
Theorem deque_init_raises_on_dangling_block (fuel : nat) (tn : string) :
  StdDequePrinter.__init__ Scenario.dangling_block_memory 8 4 (S (S fuel)) tn
    Scenario.dangling_block_deque = Raise.
Proof. reflexivity. Qed.

(** ** Vectors *)

(** C2 (empty vector): with [begin == end == end_cap] the printer has no
    [children], and its summary is the bare string "empty", not
    "empty vector (capacity=0)": [to_string] tests [self.size == 0] first,
    and the branch that formats the capacity of an empty vector lies under
    [self.size > 0], where it cannot be reached. *)
Theorem empty_vector_summary (m : memory) (esz wsz a : Z) :
  let p := StdVectorPrinter.__init__ m esz wsz "vector" (Scenario.empty_vector a) in
  StdVectorPrinter.to_string esz p = "empty"
  /\ StdVectorPrinter.to_string esz p <> "empty vector (capacity=0)"
  /\ StdVectorPrinter.capacity p = 0
  /\ StdVectorPrinter.children p = None.
Proof.
  unfold Scenario.empty_vector, StdVectorPrinter.__init__, StdVectorPrinter.to_string,
    StdVectorPrinter.children, ptr_diff; simpl.
  rewrite Z.sub_diag. simpl.
  repeat split; discriminate.
Qed.

(** ** Strings *)

Lemma land_short_mask (x : Z) :
  (Z.land x StdStringPrinter.__short_mask =? 0) = negb (Z.testbit x 0).
Proof.
  unfold StdStringPrinter.__short_mask.
  change 1 with (Z.ones 1). rewrite Z.land_ones by lia.
  change (2 ^ 1) with 2. rewrite <- Z.bit0_mod.
  destruct (Z.testbit x 0); reflexivity.
Qed.

(** The probe of [__init__] returns exactly when both characters it reads
    are mapped. *)
Lemma string_audit_spec (m : memory) (csz sz p : Z) :
  0 <= sz ->
  (StdStringPrinter.audit m csz sz p = Ret true
   <-> (exists c, m (StdStringPrinter.first_char_ptr p) = Some c)
       /\ (exists c, m (StdStringPrinter.last_char_ptr csz p sz) = Some c))
  /\ (StdStringPrinter.audit m csz sz p = Raise
      <-> m (StdStringPrinter.first_char_ptr p) = None
          \/ m (StdStringPrinter.last_char_ptr csz p sz) = None).
Proof.
  intros Hsz. unfold StdStringPrinter.audit, dereference.
  destruct (Z.leb_spec 0 sz) as [_|]; [|lia].
  destruct (m (StdStringPrinter.first_char_ptr p)) as [c|];
    destruct (m (StdStringPrinter.last_char_ptr csz p sz)) as [d|]; simpl;
    (split; split;
     [ intros H; try discriminate H; split; eexists; reflexivity
     | intros [[x Hx] [y Hy]]; try discriminate; reflexivity
     | intros H; try discriminate H; auto
     | intros [H|H]; try discriminate H; reflexivity ]).
Qed.

(** C3 (short or long form): the low bit of the short form's size byte
    selects the representation.  When it is 0 the length is that byte
    shifted right by one and the data pointer is the address of the inline
    buffer; otherwise they are the long form's size and pointer fields.  The
    printer keeps this pair whenever its probe did not fail. *)
Theorem string_representation_selected (m : memory) (csz : Z) (tn : string)
  (val : StdStringPrinter.basic_string) :
  let p := StdStringPrinter.__init__ m csz tn val in
  let kept := exists hint,
    StdStringPrinter.audit m csz (fst (StdStringPrinter.figure_out val))
      (snd (StdStringPrinter.figure_out val)) = Ret hint in
  (Z.testbit (StdStringPrinter.s_size val) 0 = false ->
     StdStringPrinter.figure_out val
       = (Z.shiftr (StdStringPrinter.s_size val) 1, StdStringPrinter.s_data val)
     /\ (kept -> StdStringPrinter.size p = Z.shiftr (StdStringPrinter.s_size val) 1
                 /\ StdStringPrinter.ptr p = StdStringPrinter.s_data val))
  /\ (Z.testbit (StdStringPrinter.s_size val) 0 = true ->
     StdStringPrinter.figure_out val = (StdStringPrinter.l_size val, StdStringPrinter.l_data val)
     /\ (kept -> StdStringPrinter.size p = StdStringPrinter.l_size val
                 /\ StdStringPrinter.ptr p = StdStringPrinter.l_data val)).
Proof.
  cbv zeta. unfold StdStringPrinter.__init__.
  assert (Hsel : forall b, Z.testbit (StdStringPrinter.s_size val) 0 = b ->
             StdStringPrinter.figure_out val
             = if b then (StdStringPrinter.l_size val, StdStringPrinter.l_data val)
               else (Z.shiftr (StdStringPrinter.s_size val) 1, StdStringPrinter.s_data val)).
  { intros b Hb. unfold StdStringPrinter.figure_out.
    rewrite land_short_mask, Hb. destruct b; reflexivity. }
  split; intros Hbit; rewrite (Hsel _ Hbit); simpl;
    (split; [reflexivity|]); intros [hint Hk]; rewrite Hk; simpl; auto.
Qed.

Lemma string_representation_selected_witness :
  StdStringPrinter.size (StdStringPrinter.__init__ Scenario.ab_memory 1 "std::basic_string"
                    Scenario.short_ab) = 2
  /\ StdStringPrinter.ptr (StdStringPrinter.__init__ Scenario.ab_memory 1 "std::basic_string"
                      Scenario.long_ab) = 9000.
Proof.
  split.
  - apply (proj1 (string_representation_selected Scenario.ab_memory 1
                    "std::basic_string" Scenario.short_ab));
      [reflexivity | exists true; reflexivity].
  - apply (proj2 (string_representation_selected Scenario.ab_memory 1
                    "std::basic_string" Scenario.long_ab));
      [reflexivity | exists true; reflexivity].
Defined.

(** C8 (string validation): the probe reads the character at the data
    pointer and the character [size] positions after it (the end of the
    buffer, where the terminator lies); it succeeds exactly when both are
    mapped, and when either read fails the printer's size becomes -1, its
    pointer 0, and its summary is "invalid". *)
Theorem string_probe_failure_invalidates (m : memory) (csz : Z) (tn : string)
  (val : StdStringPrinter.basic_string) :
  let sz := fst (StdStringPrinter.figure_out val) in
  let p0 := snd (StdStringPrinter.figure_out val) in
  let p := StdStringPrinter.__init__ m csz tn val in
  0 <= sz ->
  (StdStringPrinter.audit m csz sz p0 = Ret true
   <-> (exists c, m p0 = Some c) /\ (exists c, m (p0 + sz * csz) = Some c))
  /\ (m p0 = None \/ m (p0 + sz * csz) = None ->
      StdStringPrinter.size p = -1
      /\ StdStringPrinter.ptr p = 0
      /\ StdStringPrinter.to_string m csz p = "invalid").
Proof.
  cbv zeta. intros Hsz.
  destruct (string_audit_spec m csz _ (snd (StdStringPrinter.figure_out val)) Hsz)
    as [Hok Hfail].
  split; [exact Hok|].
  intros Hnone. apply Hfail in Hnone.
  unfold StdStringPrinter.__init__.
  destruct (StdStringPrinter.figure_out val) as [sz p0]; simpl in *.
  rewrite Hnone. split; [|split]; reflexivity.
Qed.

Lemma string_probe_failure_invalidates_witness :
  StdStringPrinter.size (StdStringPrinter.__init__ Scenario.ab_truncated_memory 1
                    "std::basic_string" Scenario.short_ab) = -1
  /\ StdStringPrinter.to_string Scenario.ab_truncated_memory 1
       (StdStringPrinter.__init__ Scenario.ab_truncated_memory 1
          "std::basic_string" Scenario.short_ab) = "invalid".
Proof.
  destruct (proj2 (string_probe_failure_invalidates
                     Scenario.ab_truncated_memory 1 "std::basic_string"
                     Scenario.short_ab ltac:(vm_compute; discriminate))
              (or_intror eq_refl)) as (Hs & _ & Ht).
  split; [exact Hs | exact Ht].
Defined.

(** ** Walking a vector *)

Section VectorTraversal.

Variables (m : memory) (esz wsz : Z) (b : Z).
Hypothesis esz_pos : 0 < esz.

Lemma vector_cursor_next (n i : Z) :
  i <> n ->
  StdVectorPrinter.__next__ m esz wsz (Shape.vector_cursor esz b (ptr_add esz b n) i)
  = Ret (Some (label i, GdbValue (m (ptr_add esz b i))),
         Shape.vector_cursor esz b (ptr_add esz b n) (i + 1)).
Proof.
  intros Hi. unfold StdVectorPrinter.__next__, Shape.vector_cursor; simpl.
  destruct (Z.eqb_spec (ptr_add esz b i) (ptr_add esz b n)) as [Heq|_].
  { unfold ptr_add in Heq. nia. }
  unfold StdVectorPrinter.with_item_so, dereference; simpl.
  do 3 f_equal. unfold ptr_add. lia.
Qed.

Lemma vector_cursor_stop (n : Z) :
  StdVectorPrinter.__next__ m esz wsz (Shape.vector_cursor esz b (ptr_add esz b n) n)
  = Ret (None, StdVectorPrinter.with_count
                 (Shape.vector_cursor esz b (ptr_add esz b n) n) (n + 1)).
Proof.
  unfold StdVectorPrinter.__next__, Shape.vector_cursor; simpl.
  rewrite Z.eqb_refl. reflexivity.
Qed.


End VectorTraversal.


(** ** Bit vectors *)

Lemma bit_mask_test (w k : Z) :
  0 <= k -> negb (Z.land w (Z.shiftl 1 k) =? 0) = Z.testbit w k.
Proof.
  intros Hk. rewrite Z.shiftl_1_l.
  destruct (Z.testbit w k) eqn:Hbit.
  - destruct (Z.eqb_spec (Z.land w (2 ^ k)) 0) as [Hz|]; [|reflexivity].
    assert (Hk' : Z.testbit (Z.land w (2 ^ k)) k = true).
    { rewrite Z.land_spec, Hbit, Z.pow2_bits_eqb, Z.eqb_refl by lia. reflexivity. }
    rewrite Hz, Z.bits_0 in Hk'. discriminate.
  - replace (Z.land w (2 ^ k)) with 0; [reflexivity|].
    symmetry. apply Z.bits_inj'. intros j Hj.
    rewrite Z.land_spec, Z.bits_0, Z.pow2_bits_eqb by lia.
    destruct (Z.eqb_spec k j) as [->|]; [rewrite Hbit|]; auto using andb_false_r.
Qed.

(** Stepping a bit index: either the offset grows within the word, or it
    wraps to the next word. *)
Lemma bit_index_step (bpw i : Z) :
  0 < bpw -> 0 <= i ->
  if bpw <=? i mod bpw + 1
  then (i + 1) / bpw = i / bpw + 1 /\ (i + 1) mod bpw = 0
  else (i + 1) / bpw = i / bpw /\ (i + 1) mod bpw = i mod bpw + 1.
Proof.
  intros Hb Hi.
  pose proof (Z.div_mod i bpw ltac:(lia)) as Hdm.
  pose proof (Z.mod_pos_bound i bpw Hb) as Hr.
  destruct (Z.leb_spec bpw (i mod bpw + 1)).
  - split.
    + symmetry. apply (Z.div_unique (i + 1) bpw (i / bpw + 1) 0); lia.
    + symmetry. apply (Z.mod_unique (i + 1) bpw (i / bpw + 1) 0); lia.
  - split.
    + symmetry. apply (Z.div_unique (i + 1) bpw (i / bpw) (i mod bpw + 1)); lia.
    + symmetry. apply (Z.mod_unique (i + 1) bpw (i / bpw) (i mod bpw + 1)); lia.
Qed.

Section BitCursor.

Variables (m : memory) (esz wsz : Z).
Variables (b s bpw : Z) (words : Z -> Z).
Hypothesis bpw_pos : 0 < bpw.
Hypothesis words_mapped :
  forall j, 0 <= j < s -> m (ptr_add wsz b (j / bpw)) = Some (words (j / bpw)).

Local Abbreviation bit_cursor := (Shape.bit_cursor wsz b s bpw).

Lemma bit_cursor_start : StdVectorPrinter._iterator b s bpw true = bit_cursor 0.
Proof.
  unfold StdVectorPrinter._iterator, bit_cursor, ptr_add.
  rewrite Z.div_0_l, Z.mod_0_l by lia. f_equal. lia.
Qed.

Lemma bit_cursor_next (i : Z) :
  0 <= i < s ->
  StdVectorPrinter.__next__ m esz wsz (bit_cursor i)
  = Ret (Some (label i, PyBool (Z.testbit (words (i / bpw)) (i mod bpw))),
         bit_cursor (i + 1)).
Proof.
  intros Hi. unfold StdVectorPrinter.__next__, bit_cursor; simpl.
  destruct (Z.eqb_spec i s) as [|_]; [lia|].
  unfold dereference. rewrite (words_mapped i Hi). simpl.
  pose proof (Z.mod_pos_bound i bpw bpw_pos) as Hr.
  rewrite bit_mask_test by lia.
  pose proof (bit_index_step bpw i bpw_pos ltac:(lia)) as Hstep.
  unfold StdVectorPrinter.with_item_so; simpl.
  destruct (bpw <=? i mod bpw + 1); destruct Hstep as [Hq Hm];
    rewrite Hq, Hm; unfold ptr_add; do 2 f_equal; f_equal; lia.
Qed.

Lemma bit_cursor_stop :
  StdVectorPrinter.__next__ m esz wsz (bit_cursor s)
  = Ret (None, StdVectorPrinter.with_count (bit_cursor s) (s + 1)).
Proof.
  unfold StdVectorPrinter.__next__, bit_cursor; simpl. rewrite Z.eqb_refl. reflexivity.
Qed.

(** Draining the cursor from bit [i] on gives the bits [i .. s-1]. *)
Lemma bit_cursor_list (n : nat) :
  forall i, 0 <= i -> s - i = Z.of_nat n ->
    exists es c',
      Py.list_ (StdVectorPrinter.__next__ m esz wsz) (S n) (bit_cursor i) = Ret (es, c')
      /\ List.length es = n
      /\ forall k, (k < n)%nat ->
           nth_error es k
           = Some (label (i + Z.of_nat k),
                   PyBool (Z.testbit (words ((i + Z.of_nat k) / bpw))
                             ((i + Z.of_nat k) mod bpw))).
Proof.
  induction n as [|n IH]; intros i Hi Hn.
  - replace i with s by lia. simpl. rewrite bit_cursor_stop.
    do 2 eexists. split; [reflexivity|]. split; [reflexivity|]. lia.
  - destruct (IH (i + 1)) as (es & c' & Hrun & Hlen & Hnth); [lia|lia|].
    rewrite list_unfold.
    rewrite bit_cursor_next by lia. rewrite Hrun.
    do 2 eexists. split; [reflexivity|]. split; [simpl; lia|].
    intros [|k] Hk; cbn [nth_error].
    + change (Z.of_nat 0) with 0. rewrite Z.add_0_r. reflexivity.
    + rewrite Hnth by lia.
      replace (i + 1 + Z.of_nat k) with (i + Z.of_nat (S k)) by lia.
      reflexivity.
Qed.

End BitCursor.

(** C7 (bit cursor): the children of a [vector<bool>] are its bits, one per
    step: bit [j] is read from the storage word of index [j / bits_per_word]
    at offset [j mod bits_per_word], where [bits_per_word] is 64 when GDB
    reports the field as optimized out.  For the 65-bit vector with bits 0
    and 64 set the sequence is [true] at 0 and 64 and [false] in between. *)
Theorem bool_vector_children (m : memory) (esz wsz : Z) (tn : string)
  (b s cap : Z) (field : option Z) (words : Z -> Z) :
  let bpw := match field with None => 64 | Some w => w end in
  let p := StdVectorPrinter.__init__ m esz wsz tn (StdVectorPrinter.VectorBool b s cap field) in
  (0 < bpw ->
   0 <= s ->
   (forall j, 0 <= j < s -> m (ptr_add wsz b (j / bpw)) = Some (words (j / bpw))) ->
   StdVectorPrinter.bits_per_word p = bpw
   /\ exists es c',
        Py.list_ (StdVectorPrinter.__next__ m esz wsz) (S (Z.to_nat s)) (StdVectorPrinter._children p)
        = Ret (es, c')
        /\ len es = s
        /\ forall j, 0 <= j < s ->
             nth_error es (Z.to_nat j)
             = Some (label j, PyBool (Z.testbit (words (j / bpw)) (j mod bpw))))
  /\ elements (H := vector_printer Scenario.bits65_memory 4 8) 66
       (StdVectorPrinter.__init__ Scenario.bits65_memory 4 8 "std::vector" Scenario.bits65)
     = Some (Ret Scenario.bits65_expected).
Proof.
  cbv zeta. split; [|vm_compute; reflexivity].
  intros Hbpw Hs Hwords.
  assert (Hb : StdVectorPrinter.bits_per_word
                 (StdVectorPrinter.__init__ m esz wsz tn (StdVectorPrinter.VectorBool b s cap field))
               = match field with None => 64 | Some w => w end).
  { destruct field; reflexivity. }
  split; [exact Hb|].
  assert (Hc : StdVectorPrinter._children
                 (StdVectorPrinter.__init__ m esz wsz tn (StdVectorPrinter.VectorBool b s cap field))
               = StdVectorPrinter._iterator b s
                   (match field with None => 64 | Some w => w end) true).
  { unfold StdVectorPrinter._children. rewrite Hb. reflexivity. }
  rewrite Hc, (bit_cursor_start wsz) by exact Hbpw.
  destruct (bit_cursor_list m esz wsz b s _ words Hbpw Hwords (Z.to_nat s) 0)
    as (es & c' & Hrun & Hlen & Hnth); [lia|lia|].
  exists es, c'. split; [exact Hrun|]. split; [unfold len; lia|].
  intros j Hj. rewrite Hnth by lia.
  rewrite Z2Nat.id by lia. reflexivity.
Qed.

Lemma bool_vector_children_witness :
  exists es c',
    Py.list_ (StdVectorPrinter.__next__ Scenario.bits65_memory 4 8) 66
      (StdVectorPrinter._children
         (StdVectorPrinter.__init__ Scenario.bits65_memory 4 8 "std::vector" Scenario.bits65))
    = Ret (es, c')
    /\ len es = 65
    /\ nth_error es 64 = Some ("[64]"%string, PyBool true).
Proof.
  destruct (proj1 (bool_vector_children Scenario.bits65_memory 4 8 "std::vector"
                     1000 65 2 None (fun _ => 1))
              ltac:(lia) ltac:(lia)) as (_ & es & c' & Hrun & Hlen & Hnth).
  - intros j Hj. unfold ptr_add, Scenario.bits65_memory.
    assert (Hq : j / 64 = 0 \/ j / 64 = 1).
    { assert (0 <= j / 64 < 2); [|lia]. split.
      - apply Z.div_pos; lia.
      - apply Z.div_lt_upper_bound; lia. }
    destruct Hq as [-> | ->]; reflexivity.
  - exists es, c'. split; [exact Hrun|]. split; [exact Hlen|].
    exact (Hnth 64 ltac:(lia)).
Defined.

(** ** Lists *)

Section ListTraversal.

Variables (m : memory) (L : StdListPrinter.node_layout).

(** One call of [__next__] on a cursor whose [base] can be fetched. *)
Lemma list_next_spec (c : StdListPrinter.cursor) (b : Z) :
  StdListPrinter.base c = Some b ->
  StdListPrinter.__next__ m L c
  = if (b =? StdListPrinter.head c) || (StdListPrinter.count c =? StdListPrinter.num_nodes c)
    then Ret (None, c)
    else Ret (Some (label (StdListPrinter.count c),
                    GdbValue (m (b + StdListPrinter.off_value L))),
              {| StdListPrinter.head := StdListPrinter.head c;
                 StdListPrinter.base := m (b + StdListPrinter.off_next L);
                 StdListPrinter.num_nodes := StdListPrinter.num_nodes c;
                 StdListPrinter.count := StdListPrinter.count c + 1 |}).
Proof. intros Hb. unfold StdListPrinter.__next__. rewrite Hb. reflexivity. Qed.

(** The traversal is bounded by the stored count: [list] returns or raises
    within [num_nodes - count + 1] calls. *)
Lemma list_bounded (n : nat) :
  forall c, 0 <= StdListPrinter.num_nodes c - StdListPrinter.count c <= Z.of_nat n ->
    Py.list_ (StdListPrinter.__next__ m L) (S n) c <> Hang.
Proof.
  induction n as [|n IH]; intros c Hc; rewrite list_unfold;
    (destruct (StdListPrinter.base c) as [b|] eqn:Hb;
     [rewrite (list_next_spec c b Hb)
     |unfold StdListPrinter.__next__; rewrite Hb; discriminate]).
  - destruct (Z.eqb_spec (StdListPrinter.count c) (StdListPrinter.num_nodes c)); [|lia].
    rewrite orb_true_r. discriminate.
  - destruct ((b =? StdListPrinter.head c)
              || (StdListPrinter.count c =? StdListPrinter.num_nodes c)) eqn:Hstop;
      [discriminate|].
    apply orb_false_iff in Hstop. destruct Hstop as [_ Hcnt].
    apply Z.eqb_neq in Hcnt.
    match goal with |- context [Py.list_ _ (S n) ?c1] =>
      specialize (IH c1); destruct (Py.list_ _ (S n) c1) as [[es cz]| |]
    end; try discriminate.
    apply IH. simpl. lia.
Qed.

(** A chain that returns to the sentinel after [k] nodes, with at least
    [k] nodes left to count, is traversed to the sentinel: [k] children. *)
Lemma list_returns_after (k : nat) :
  forall c b,
    StdListPrinter.base c = Some b ->
    Shape.returns_after m L (StdListPrinter.head c) b k ->
    StdListPrinter.count c + Z.of_nat k <= StdListPrinter.num_nodes c ->
    exists es c',
      Py.list_ (StdListPrinter.__next__ m L) (S k) c = Ret (es, c')
      /\ List.length es = k.
Proof.
  induction k as [|k IH]; intros c b Hb Hret Hcnt.
  - simpl in Hret. subst b. simpl. rewrite (list_next_spec c _ Hb).
    rewrite Z.eqb_refl. simpl. eauto.
  - destruct Hret as (Hne & b' & Hnext & Hret).
    rewrite list_unfold.
    rewrite (list_next_spec c _ Hb).
    destruct (Z.eqb_spec b (StdListPrinter.head c)); [contradiction|].
    destruct (Z.eqb_spec (StdListPrinter.count c) (StdListPrinter.num_nodes c)); [lia|].
    simpl orb. cbv iota.
    match goal with |- context [Py.list_ _ (S k) ?c1] =>
      destruct (IH c1 b') as (es & c' & Hrun & Hlen)
    end; [exact Hnext | exact Hret | simpl; lia |].
    rewrite Hrun. eexists _, _. split; [reflexivity|]. simpl. lia.
Qed.

End ListTraversal.

(** C5 (list traversal and count check): the cursor starts at the sentinel's
    [__next_]; a call of [__next__] stops when the cursor is back at the
    sentinel or has produced the stored count, and otherwise yields the
    node's value and moves to the node's [__next_]; and when the number of
    children so produced differs from the stored size (in particular when
    the sentinel is met after fewer nodes than the stored size) the printer
    has size -1, summary "invalid" and no [children], whereas a chain that
    meets the sentinel after exactly the stored number of nodes keeps its
    size.  The constructor returns as soon as the fuel exceeds the stored
    size. *)
Theorem list_traversal_and_count_check (m : memory) (L : StdListPrinter.node_layout)
  (tn : string) (val : StdListPrinter.list_) :
  let start := StdListPrinter._children_at val (StdListPrinter.size_alloc val) in
  (StdListPrinter.head start = StdListPrinter.end_address val
   /\ StdListPrinter.base start = Some (StdListPrinter.end_next val)
   /\ StdListPrinter.num_nodes start = StdListPrinter.size_alloc val
   /\ StdListPrinter.count start = 0)
  /\ (forall c b, StdListPrinter.base c = Some b ->
        (b = StdListPrinter.head c \/ StdListPrinter.count c = StdListPrinter.num_nodes c ->
           StdListPrinter.__next__ m L c = Ret (None, c))
        /\ (b <> StdListPrinter.head c -> StdListPrinter.count c <> StdListPrinter.num_nodes c ->
           StdListPrinter.__next__ m L c
           = Ret (Some (label (StdListPrinter.count c),
                        GdbValue (m (b + StdListPrinter.off_value L))),
                  {| StdListPrinter.head := StdListPrinter.head c;
                     StdListPrinter.base := m (b + StdListPrinter.off_next L);
                     StdListPrinter.num_nodes := StdListPrinter.num_nodes c;
                     StdListPrinter.count := StdListPrinter.count c + 1 |})))
  /\ (forall fuel es c',
        Py.list_ (StdListPrinter.__next__ m L) fuel start = Ret (es, c') ->
        len es <> StdListPrinter.size_alloc val ->
        exists p, StdListPrinter.__init__ m L fuel tn val = Ret p
                  /\ StdListPrinter.size p = -1
                  /\ StdListPrinter.to_string p = "invalid"
                  /\ StdListPrinter.children p = None)
  /\ (forall k fuel,
        Shape.returns_after m L (StdListPrinter.end_address val) (StdListPrinter.end_next val) k ->
        Z.of_nat k < StdListPrinter.size_alloc val ->
        (k < fuel)%nat ->
        exists p, StdListPrinter.__init__ m L fuel tn val = Ret p
                  /\ StdListPrinter.size p = -1
                  /\ StdListPrinter.to_string p = "invalid"
                  /\ StdListPrinter.children p = None)
  /\ (forall k fuel,
        Shape.returns_after m L (StdListPrinter.end_address val) (StdListPrinter.end_next val) k ->
        Z.of_nat k = StdListPrinter.size_alloc val ->
        (k < fuel)%nat ->
        exists p, StdListPrinter.__init__ m L fuel tn val = Ret p
                  /\ StdListPrinter.size p = StdListPrinter.size_alloc val
                  /\ StdListPrinter.has_children p = (0 <? StdListPrinter.size_alloc val))
  /\ (forall fuel,
        0 <= StdListPrinter.size_alloc val ->
        (Z.to_nat (StdListPrinter.size_alloc val) < fuel)%nat ->
        exists p, StdListPrinter.__init__ m L fuel tn val = Ret p).
Proof.
  cbv zeta.
  assert (Hinv : forall fuel es c',
    Py.list_ (StdListPrinter.__next__ m L) fuel
      (StdListPrinter._children_at val (StdListPrinter.size_alloc val)) = Ret (es, c') ->
    len es <> StdListPrinter.size_alloc val ->
    exists p, StdListPrinter.__init__ m L fuel tn val = Ret p
              /\ StdListPrinter.size p = -1
              /\ StdListPrinter.to_string p = "invalid"
              /\ StdListPrinter.children p = None).
  { intros fuel es c' Hrun Hne. unfold StdListPrinter.__init__. rewrite Hrun.
    destruct (Z.eqb_spec (StdListPrinter.size_alloc val) (len es)) as [Heq|_];
      [congruence|].
    simpl. eexists. split; [reflexivity|]. repeat split. }
  split; [repeat split|]. split; [|split; [exact Hinv|split; [|split]]].
  - intros c b Hb. rewrite (list_next_spec m L c b Hb). split.
    + intros [-> | ->]; rewrite Z.eqb_refl; [reflexivity|].
      rewrite orb_true_r. reflexivity.
    + intros H1 H2.
      destruct (Z.eqb_spec b (StdListPrinter.head c)); [contradiction|].
      destruct (Z.eqb_spec (StdListPrinter.count c) (StdListPrinter.num_nodes c));
        [contradiction|]. reflexivity.
  - intros k fuel Hret Hlt Hfuel.
    destruct (list_returns_after m L k
                (StdListPrinter._children_at val (StdListPrinter.size_alloc val))
                (StdListPrinter.end_next val) eq_refl Hret)
      as (es & c' & Hrun & Hlen); [simpl; lia|].
    apply (list_fuel_mono _ (S k) fuel) in Hrun; [|lia].
    apply (Hinv fuel es c' Hrun). unfold len. lia.
  - intros k fuel Hret Heq Hfuel.
    destruct (list_returns_after m L k
                (StdListPrinter._children_at val (StdListPrinter.size_alloc val))
                (StdListPrinter.end_next val) eq_refl Hret)
      as (es & c' & Hrun & Hlen); [simpl; lia|].
    apply (list_fuel_mono _ (S k) fuel) in Hrun; [|lia].
    unfold StdListPrinter.__init__. rewrite Hrun.
    destruct (Z.eqb_spec (StdListPrinter.size_alloc val) (len es)) as [_|Hne];
      [|unfold len in Hne; lia].
    cbn [negb]. destruct (0 <? StdListPrinter.size_alloc val);
      eexists; (split; [reflexivity|]); split; reflexivity.
  - intros fuel Hsz Hfuel.
    assert (Hb : Py.list_ (StdListPrinter.__next__ m L)
                   (S (Z.to_nat (StdListPrinter.size_alloc val)))
                   (StdListPrinter._children_at val (StdListPrinter.size_alloc val)) <> Hang).
    { apply list_bounded.
      cbn [StdListPrinter.num_nodes StdListPrinter.count StdListPrinter._children_at StdListPrinter._iterator].
      lia. }
    unfold StdListPrinter.__init__.
    rewrite (list_fuel_stable _ (S (Z.to_nat (StdListPrinter.size_alloc val))) fuel)
      by (lia || exact Hb).
    destruct (Py.list_ _ (S _) _) as [[es c]| |]; [| eauto | contradiction Hb; reflexivity].
    destruct (negb _); [eauto|]. destruct (0 <? _); eauto.
Qed.

Lemma list_traversal_and_count_check_witness :
  exists p,
    StdListPrinter.__init__ Scenario.two_nodes_memory Scenario.list_layout 5 "std::list"
      (Scenario.list_of_size 3) = Ret p
    /\ StdListPrinter.size p = -1
    /\ StdListPrinter.to_string p = "invalid"
    /\ StdListPrinter.children p = None.
Proof.
  apply (proj1 (proj2 (proj2 (proj2 (list_traversal_and_count_check
           Scenario.two_nodes_memory Scenario.list_layout "std::list"
           (Scenario.list_of_size 3))))) 2%nat 5%nat).
  - simpl. split; [lia|]. eexists. split; [reflexivity|].
    split; [lia|]. eexists. split; [reflexivity|]. reflexivity.
  - simpl. lia.
  - lia.
Defined.

(** ** Hash tables *)

Section HashTraversal.

Variables (m : memory) (L : HashTablePrinter.node_layout).

(** The base iterator stops by [StopIteration], leaving the cursor as it
    is, when the stored count is reached or at a null node. *)
Lemma hash_next_node_stop (is_pair : bool) (c : HashTablePrinter.cursor) (n : Z) :
  HashTablePrinter.node c = Some n ->
  HashTablePrinter.size c <= HashTablePrinter.count c \/ n = 0 ->
  HashTablePrinter.next_node m L is_pair c = Ret (None, c).
Proof.
  intros Hn Hstop. unfold HashTablePrinter.next_node.
  destruct (Z.leb_spec (HashTablePrinter.size c) (HashTablePrinter.count c));
    [reflexivity|].
  destruct Hstop as [Hle | ->]; [lia|]. rewrite Hn. reflexivity.
Qed.

(** At a node other than null, with entries left to count, the base
    iterator moves to the node's [__next_], and yields when the value can
    be formatted. *)
Lemma hash_next_node_step (is_pair : bool) (c : HashTablePrinter.cursor) (n : Z) :
  HashTablePrinter.node c = Some n ->
  HashTablePrinter.count c < HashTablePrinter.size c -> n <> 0 ->
  HashTablePrinter.next_node m L is_pair c
  = match HashTablePrinter.format_value m L is_pair n with
    | Ret _ =>
        Ret (Some (n, (label (HashTablePrinter.count c),
                       GdbValue (m (n + HashTablePrinter.off_value L)))),
             {| HashTablePrinter.node := m (n + HashTablePrinter.off_next L);
                HashTablePrinter.size := HashTablePrinter.size c;
                HashTablePrinter.count := HashTablePrinter.count c + 1 |})
    | Raise =>
        Ret (None,
             {| HashTablePrinter.node := m (n + HashTablePrinter.off_next L);
                HashTablePrinter.size := HashTablePrinter.size c;
                HashTablePrinter.count := HashTablePrinter.count c |})
    | Hang => Hang
    end.
Proof.
  intros Hn Hc Hnz. unfold HashTablePrinter.next_node.
  destruct (Z.leb_spec (HashTablePrinter.size c) (HashTablePrinter.count c)); [lia|].
  rewrite Hn. cbn [fetch Py.bind].
  destruct (Z.eqb_spec n 0); [contradiction|]. reflexivity.
Qed.

(** Formatting never hangs. *)
Lemma format_value_cases (is_pair : bool) (n : Z) :
  HashTablePrinter.format_value m L is_pair n = Ret tt
  \/ HashTablePrinter.format_value m L is_pair n = Raise.
Proof.
  unfold HashTablePrinter.format_value, dereference, fetch.
  destruct is_pair.
  - destruct (m (n + HashTablePrinter.off_first L));
      destruct (m (n + HashTablePrinter.off_second L)); cbn; auto.
  - destruct (m (n + HashTablePrinter.off_value L)); cbn; auto.
Qed.

Variable is_map : bool.

(** Both iterator classes stop by [StopIteration] at a null node, and keep
    the stored (clamped) count. *)
Lemma hash_next_null (c : HashTablePrinter.cursor) (n : Z) :
  HashTablePrinter.node c = Some n ->
  HashTablePrinter.size c <= HashTablePrinter.count c \/ n = 0 ->
  HashTablePrinter.next_of is_map m L c = Ret (None, c).
Proof.
  intros Hn Hstop. unfold HashTablePrinter.next_of.
  destruct is_map; unfold HashTablePrinter.map__next__, HashTablePrinter.__next__;
    rewrite (hash_next_node_stop _ c n Hn Hstop); reflexivity.
Qed.

(** At a node other than null, a call either yields and moves to the
    node's [__next_] with the count advanced, or stops. *)
Lemma hash_next_node (c : HashTablePrinter.cursor) (n : Z) :
  HashTablePrinter.count c < HashTablePrinter.size c ->
  HashTablePrinter.node c = Some n -> n <> 0 ->
  (exists e,
     HashTablePrinter.next_of is_map m L c
     = Ret (Some e,
            {| HashTablePrinter.node := m (n + HashTablePrinter.off_next L);
               HashTablePrinter.size := HashTablePrinter.size c;
               HashTablePrinter.count := HashTablePrinter.count c + 1 |}))
  \/ (exists c', HashTablePrinter.next_of is_map m L c = Ret (None, c')
                 /\ HashTablePrinter.size c' = HashTablePrinter.size c).
Proof.
  intros Hc Hn Hnz. unfold HashTablePrinter.next_of.
  destruct is_map; unfold HashTablePrinter.map__next__, HashTablePrinter.__next__;
    rewrite (hash_next_node_step _ c n Hn Hc Hnz);
    match goal with
    | |- context [HashTablePrinter.format_value m L ?b n] =>
        destruct (format_value_cases b n) as [Hf | Hf]; rewrite Hf
    end; cbn [Py.bind]; eauto.
  unfold fetch, dereference.
  destruct (m (n + HashTablePrinter.off_first L)); eauto.
Qed.

(** No call changes the stored count the cursor keeps for [__len__]. *)
Lemma hash_next_size (c c' : HashTablePrinter.cursor) (r : option child) :
  HashTablePrinter.next_of is_map m L c = Ret (r, c') ->
  HashTablePrinter.size c' = HashTablePrinter.size c.
Proof.
  assert (Hnode : forall b r0 c0,
            HashTablePrinter.next_node m L b c = Ret (r0, c0) ->
            HashTablePrinter.size c0 = HashTablePrinter.size c).
  { intros b r0 c0. unfold HashTablePrinter.next_node.
    destruct (HashTablePrinter.size c <=? HashTablePrinter.count c);
      [intros E; injection E as _ <-; reflexivity|].
    destruct (HashTablePrinter.node c) as [n|]; cbn [fetch Py.bind]; [|discriminate].
    destruct (n =? 0); [intros E; injection E as _ <-; reflexivity|].
    destruct (format_value_cases b n) as [Hf | Hf]; rewrite Hf;
      intros E; injection E as _ <-; reflexivity. }
  unfold HashTablePrinter.next_of.
  destruct is_map; unfold HashTablePrinter.map__next__, HashTablePrinter.__next__.
  - destruct (HashTablePrinter.next_node m L true c) as [[[[n [lbl v]]|] c0]| |] eqn:He.
    + destruct (fetch _); intros E; try discriminate;
        injection E as _ <-; exact (Hnode _ _ _ He).
    + intros E. injection E as _ <-. exact (Hnode _ _ _ He).
    + intros E. injection E as _ <-. reflexivity.
    + discriminate.
  - destruct (HashTablePrinter.next_node m L false c) as [[[[n e]|] c0]| |] eqn:He;
      cbn [Py.bind]; try discriminate;
      intros E; injection E as _ <-; exact (Hnode _ _ _ He).
Qed.

Lemma hash_list_size (fuel : nat) :
  forall c es c',
    Py.list_ (HashTablePrinter.next_of is_map m L) fuel c = Ret (es, c') ->
    HashTablePrinter.size c' = HashTablePrinter.size c.
Proof.
  induction fuel as [|fuel IH]; intros c es c'; [discriminate|].
  rewrite list_unfold.
  destruct (HashTablePrinter.next_of is_map m L c) as [[[e|] c1]| |] eqn:He;
    try discriminate.
  - destruct (Py.list_ _ fuel c1) as [[es1 cz]| |] eqn:Hrun; try discriminate.
    intros E. injection E as _ <-.
    rewrite (IH _ _ _ Hrun). exact (hash_next_size _ _ _ He).
  - intros E. injection E as _ <-. exact (hash_next_size _ _ _ He).
Qed.

(** A call never hangs, and one that yields has counted one more entry
    of the stored count. *)
Lemma hash_next_progress (c : HashTablePrinter.cursor) :
  HashTablePrinter.next_of is_map m L c <> Hang
  /\ forall e c1,
       HashTablePrinter.next_of is_map m L c = Ret (Some e, c1) ->
       HashTablePrinter.count c < HashTablePrinter.size c
       /\ HashTablePrinter.size c1 = HashTablePrinter.size c
       /\ HashTablePrinter.count c1 = HashTablePrinter.count c + 1.
Proof.
  unfold HashTablePrinter.next_of.
  destruct is_map; unfold HashTablePrinter.map__next__, HashTablePrinter.__next__,
    HashTablePrinter.next_node;
    (destruct (Z.leb_spec (HashTablePrinter.size c) (HashTablePrinter.count c));
     [split; [discriminate | intros e c1; discriminate]|]);
    (destruct (HashTablePrinter.node c) as [n|]; cbn [fetch Py.bind];
     [|split; [discriminate | intros e c1; discriminate]]);
    (destruct (n =? 0); [split; [discriminate | intros e c1; discriminate]|]);
    match goal with
    | |- context [HashTablePrinter.format_value m L ?b n] =>
        destruct (format_value_cases b n) as [Hf | Hf]; rewrite Hf
    end; cbn [Py.bind];
    try (split; [discriminate | intros e c1; discriminate]).
  - unfold fetch, dereference.
    destruct (m (n + HashTablePrinter.off_first L)).
    + split; [discriminate|]. intros e c1 E. injection E as _ <-.
      cbn [HashTablePrinter.size HashTablePrinter.count]. repeat split; lia.
    + split; [discriminate | intros e c1; discriminate].
  - split; [discriminate|]. intros e c1 E. injection E as _ <-.
    cbn [HashTablePrinter.size HashTablePrinter.count]. repeat split; lia.
Qed.

(** The traversal is bounded by the stored count: [list] returns or raises
    within [size - count + 1] calls. *)
Lemma hash_bounded (k : nat) :
  forall c,
    HashTablePrinter.size c - HashTablePrinter.count c <= Z.of_nat k ->
    Py.list_ (HashTablePrinter.next_of is_map m L) (S k) c <> Hang.
Proof.
  induction k as [|k IH]; intros c Hc; rewrite list_unfold;
    destruct (hash_next_progress c) as [Hnh Hyield];
    destruct (HashTablePrinter.next_of is_map m L c) as [[[e|] c1]| |];
    try discriminate; try (contradiction Hnh; reflexivity);
    destruct (Hyield e c1 eq_refl) as (Hlt & Hsz & Hcnt).
  - lia.
  - specialize (IH c1 ltac:(lia)).
    destruct (Py.list_ _ (S k) c1) as [[es cz]| |]; try discriminate.
    contradiction IH; reflexivity.
Qed.

(** A chain that runs into a null link after [k] nodes, with more than [k]
    entries left to count, yields at most [k] children. *)
Lemma hash_null_after (k : nat) :
  forall c n,
    HashTablePrinter.node c = Some n ->
    Shape.null_after m L n k ->
    HashTablePrinter.count c + Z.of_nat k < HashTablePrinter.size c ->
    exists es c',
      Py.list_ (HashTablePrinter.next_of is_map m L) (S k) c = Ret (es, c')
      /\ (List.length es <= k)%nat
      /\ HashTablePrinter.size c' = HashTablePrinter.size c.
Proof.
  induction k as [|k IH]; intros c n Hn Hnull Hcnt; rewrite list_unfold.
  - simpl in Hnull. subst n. rewrite (hash_next_null c 0 Hn) by (right; reflexivity).
    exists [], c. repeat split. simpl. lia.
  - destruct Hnull as (Hnz & n' & Hnext & Hnull).
    destruct (hash_next_node c n ltac:(lia) Hn Hnz)
      as [[e He] | (c' & He & Hsz)]; rewrite He.
    + match goal with |- context [Py.list_ _ (S k) ?c1] =>
        destruct (IH c1 n') as (es & c' & Hrun & Hlen & Hsz)
      end; [exact Hnext | exact Hnull | simpl; lia |].
      rewrite Hrun. exists (e :: es), c'. split; [reflexivity|].
      split; [simpl; lia | exact Hsz].
    + exists [], c'. split; [reflexivity|]. split; [simpl; lia | exact Hsz].
Qed.

End HashTraversal.

(** C6 (hash chain): the cursor starts at the stored head pointer with the
    stored count (clamped at 0) and nothing counted.  A call of [__next__]
    stops, leaving the cursor as it is, once the stored count is reached or
    at a null node; otherwise it moves the cursor to the node's [__next_]
    link and, when the node's value can be read (for a map: both members of
    the pair), yields it as child [count] (for a map: the mapped value,
    labelled with position and key) and advances the count; when the value
    cannot be read it stops, with the cursor already moved.  So the chain is
    followed link by link, for at most the stored count of entries: the
    constructor returns as soon as the fuel exceeds the stored count.  When
    the traversal ends with a count other than the stored one, in
    particular when a null link is met after [k] entries with [k] below the
    stored count, the printer (of a set or of a map) has size -1, summary
    "invalid" and no [children]. *)
Theorem hashtable_null_before_count (m : memory) (L : HashTablePrinter.node_layout)
  (tn : string) (table : HashTablePrinter.hashtable) :
  let start := HashTablePrinter._children table in
  (HashTablePrinter.node start = Some (HashTablePrinter.p1_first_next table)
   /\ HashTablePrinter.size start
      = (if HashTablePrinter.p2_first table <? 0 then 0
         else HashTablePrinter.p2_first table)
   /\ HashTablePrinter.count start = 0)
  /\ (forall is_map c n,
        HashTablePrinter.node c = Some n ->
        HashTablePrinter.size c <= HashTablePrinter.count c \/ n = 0 ->
        HashTablePrinter.next_of is_map m L c = Ret (None, c))
  /\ (forall c n v,
        HashTablePrinter.node c = Some n ->
        HashTablePrinter.count c < HashTablePrinter.size c -> n <> 0 ->
        m (n + HashTablePrinter.off_value L) = Some v ->
        HashTablePrinter.next_of false m L c
        = Ret (Some (label (HashTablePrinter.count c), GdbValue (Some v)),
               {| HashTablePrinter.node := m (n + HashTablePrinter.off_next L);
                  HashTablePrinter.size := HashTablePrinter.size c;
                  HashTablePrinter.count := HashTablePrinter.count c + 1 |}))
  /\ (forall c n k v,
        HashTablePrinter.node c = Some n ->
        HashTablePrinter.count c < HashTablePrinter.size c -> n <> 0 ->
        m (n + HashTablePrinter.off_first L) = Some k ->
        m (n + HashTablePrinter.off_second L) = Some v ->
        HashTablePrinter.next_of true m L c
        = Ret (Some ((label (HashTablePrinter.count c) ++ " " ++ fmt_d k)%string,
                     GdbValue (Some v)),
               {| HashTablePrinter.node := m (n + HashTablePrinter.off_next L);
                  HashTablePrinter.size := HashTablePrinter.size c;
                  HashTablePrinter.count := HashTablePrinter.count c + 1 |}))
  /\ (forall (is_map : bool) c n,
        HashTablePrinter.node c = Some n ->
        HashTablePrinter.count c < HashTablePrinter.size c -> n <> 0 ->
        (if is_map
         then m (n + HashTablePrinter.off_first L) = None
              \/ m (n + HashTablePrinter.off_second L) = None
         else m (n + HashTablePrinter.off_value L) = None) ->
        HashTablePrinter.next_of is_map m L c
        = Ret (None,
               {| HashTablePrinter.node := m (n + HashTablePrinter.off_next L);
                  HashTablePrinter.size := HashTablePrinter.size c;
                  HashTablePrinter.count := HashTablePrinter.count c |}))
  /\ (forall is_map fuel es c',
        Py.list_ (HashTablePrinter.next_of is_map m L) fuel start = Ret (es, c') ->
        len es <> HashTablePrinter.size start ->
        exists p, HashTablePrinter.__init__ m L is_map fuel tn table = Ret p
                  /\ HashTablePrinter.p_size p = -1
                  /\ HashTablePrinter.to_string p = "invalid"
                  /\ HashTablePrinter.children p = None)
  /\ (forall is_map (k fuel : nat),
        Shape.null_after m L (HashTablePrinter.p1_first_next table) k ->
        Z.of_nat k < HashTablePrinter.p2_first table ->
        (k < fuel)%nat ->
        exists p, HashTablePrinter.__init__ m L is_map fuel tn table = Ret p
                  /\ HashTablePrinter.p_size p = -1
                  /\ HashTablePrinter.to_string p = "invalid"
                  /\ HashTablePrinter.children p = None)
  /\ (forall is_map (fuel : nat),
        (Z.to_nat (HashTablePrinter.p2_first table) < fuel)%nat ->
        exists p, HashTablePrinter.__init__ m L is_map fuel tn table = Ret p).
Proof.
  cbv zeta.
  assert (Hinv : forall is_map fuel es c',
    Py.list_ (HashTablePrinter.next_of is_map m L) fuel
      (HashTablePrinter._children table) = Ret (es, c') ->
    len es <> HashTablePrinter.size (HashTablePrinter._children table) ->
    exists p, HashTablePrinter.__init__ m L is_map fuel tn table = Ret p
              /\ HashTablePrinter.p_size p = -1
              /\ HashTablePrinter.to_string p = "invalid"
              /\ HashTablePrinter.children p = None).
  { intros is_map fuel es c' Hrun Hne. unfold HashTablePrinter.__init__.
    rewrite Hrun. unfold HashTablePrinter.__len__.
    rewrite (hash_list_size m L is_map fuel _ _ _ Hrun).
    destruct (Z.eqb_spec (len es)
                (HashTablePrinter.size (HashTablePrinter._children table)));
      [contradiction|].
    cbn [negb]. eexists. split; [reflexivity|]. repeat split. }
  split; [repeat split|].
  split; [intros is_map c n; apply hash_next_null|].
  split.
  { intros c n v Hn Hc Hnz Hv.
    unfold HashTablePrinter.next_of, HashTablePrinter.__next__.
    rewrite (hash_next_node_step m L false c n Hn Hc Hnz).
    unfold HashTablePrinter.format_value, dereference. rewrite Hv. reflexivity. }
  split.
  { intros c n k v Hn Hc Hnz Hk Hv.
    unfold HashTablePrinter.next_of, HashTablePrinter.map__next__.
    rewrite (hash_next_node_step m L true c n Hn Hc Hnz).
    unfold HashTablePrinter.format_value, dereference. rewrite Hk, Hv.
    cbn [fetch Py.bind]. rewrite Hk, Hv. reflexivity. }
  split.
  { intros is_map c n Hn Hc Hnz Hbad.
    unfold HashTablePrinter.next_of.
    destruct is_map; unfold HashTablePrinter.map__next__, HashTablePrinter.__next__;
      rewrite (hash_next_node_step m L _ c n Hn Hc Hnz);
      unfold HashTablePrinter.format_value, dereference.
    - destruct Hbad as [Hbad | Hbad]; rewrite Hbad;
        [|destruct (m (n + HashTablePrinter.off_first L))]; reflexivity.
    - rewrite Hbad. reflexivity. }
  split; [exact Hinv|]. split.
  { intros is_map k fuel Hnull Hlt Hfuel.
    assert (Hsize : HashTablePrinter.size (HashTablePrinter._children table)
                    = HashTablePrinter.p2_first table).
    { simpl. destruct (Z.ltb_spec (HashTablePrinter.p2_first table) 0);
        [lia | reflexivity]. }
    destruct (hash_null_after m L is_map k (HashTablePrinter._children table)
                (HashTablePrinter.p1_first_next table) eq_refl Hnull)
      as (es & c' & Hrun & Hlen & Hsz).
    { rewrite Hsize. simpl. lia. }
    apply (list_fuel_mono _ (S k) fuel) in Hrun; [|lia].
    apply (Hinv is_map fuel es c' Hrun). rewrite Hsize. unfold len. lia. }
  intros is_map fuel Hfuel.
  assert (Hb : Py.list_ (HashTablePrinter.next_of is_map m L)
                 (S (Z.to_nat (HashTablePrinter.p2_first table)))
                 (HashTablePrinter._children table) <> Hang).
  { apply hash_bounded.
    cbn [HashTablePrinter.size HashTablePrinter.count HashTablePrinter._children
         HashTablePrinter._iterator].
    destruct (Z.ltb_spec (HashTablePrinter.p2_first table) 0); lia. }
  unfold HashTablePrinter.__init__.
  rewrite (list_fuel_stable _ (S (Z.to_nat (HashTablePrinter.p2_first table))) fuel)
    by (lia || exact Hb).
  destruct (Py.list_ _ (S _) _) as [[es c]| |]; [| eauto | contradiction Hb; reflexivity].
  destruct (negb _); [eauto|]. destruct (0 <? _); eauto.
Qed.

Lemma hashtable_null_before_count_witness :
  exists p,
    HashTablePrinter.__init__ Scenario.two_entries_memory Scenario.hash_layout true 5
      "std::unordered_map" (Scenario.table_of_size 3) = Ret p
    /\ HashTablePrinter.p_size p = -1
    /\ HashTablePrinter.to_string p = "invalid"
    /\ HashTablePrinter.children p = None.
Proof.
  apply (proj1 (proj2 (proj2 (proj2 (proj2 (proj2 (proj2
           (hashtable_null_before_count Scenario.two_entries_memory
              Scenario.hash_layout "std::unordered_map"
              (Scenario.table_of_size 3)))))))) true 2%nat 5%nat).
  - simpl. split; [lia|]. eexists. split; [reflexivity|].
    split; [lia|]. eexists. split; [reflexivity|]. reflexivity.
  - simpl. lia.
  - lia.
Defined.

(** ** Negative stored counts *)

(** C10 (negative count): when the stored element count of a tree or of a
    hash table is negative, the iterator's count is clamped to 0, the
    traversal yields nothing, and the printer has size 0, summary "empty"
    and no [children]; it is not marked invalid. *)
Theorem negative_count_reads_as_empty (m : memory) (tn : string) (is_map : bool)
  (fuel fuel_in : nat) :
  (forall (L : StdRbtreePrinter.node_layout) (tree : StdRbtreePrinter.rbtree),
     StdRbtreePrinter.pair3_first tree < 0 ->
     StdRbtreePrinter.size (StdRbtreePrinter._iterator tree) = 0
     /\ exists p,
          StdRbtreePrinter.__init__ m L is_map (S fuel) fuel_in tn tree = Ret p
          /\ StdRbtreePrinter.p_size p = 0
          /\ StdRbtreePrinter.to_string p = "empty"
          /\ StdRbtreePrinter.children p = None)
  /\ (forall (L : HashTablePrinter.node_layout) (table : HashTablePrinter.hashtable),
     HashTablePrinter.p2_first table < 0 ->
     HashTablePrinter.size (HashTablePrinter._iterator table) = 0
     /\ exists p,
          HashTablePrinter.__init__ m L is_map (S fuel) tn table = Ret p
          /\ HashTablePrinter.p_size p = 0
          /\ HashTablePrinter.to_string p = "empty"
          /\ HashTablePrinter.children p = None).
Proof.
  split.
  - intros L tree Hneg.
    assert (Hsz : StdRbtreePrinter.size (StdRbtreePrinter._iterator tree) = 0).
    { simpl. destruct (Z.ltb_spec (StdRbtreePrinter.pair3_first tree) 0); [reflexivity|lia]. }
    split; [exact Hsz|].
    assert (Hnext : StdRbtreePrinter.next_of is_map m L fuel_in (StdRbtreePrinter._children tree)
                    = Ret (None, StdRbtreePrinter._children tree)).
    { assert (Hnode : StdRbtreePrinter.next_node m L fuel_in (StdRbtreePrinter._children tree)
                      = Ret (None, StdRbtreePrinter._children tree)).
      { unfold StdRbtreePrinter.next_node, StdRbtreePrinter._children. rewrite Hsz. reflexivity. }
      destruct is_map; unfold StdRbtreePrinter.next_of, StdRbtreePrinter.map__next__, StdRbtreePrinter.__next__;
        rewrite Hnode; reflexivity. }
    unfold StdRbtreePrinter.__init__. rewrite list_unfold, Hnext.
    unfold StdRbtreePrinter.__len__, StdRbtreePrinter._children. rewrite Hsz. simpl.
    eexists. split; [reflexivity|]. repeat split.
  - intros L table Hneg.
    assert (Hsz : HashTablePrinter.size (HashTablePrinter._iterator table) = 0).
    { simpl. destruct (Z.ltb_spec (HashTablePrinter.p2_first table) 0); [reflexivity|lia]. }
    split; [exact Hsz|].
    assert (Hnext : HashTablePrinter.next_of is_map m L (HashTablePrinter._children table)
                    = Ret (None, HashTablePrinter._children table)).
    { assert (Hnode : forall b,
                HashTablePrinter.next_node m L b (HashTablePrinter._children table)
                = Ret (None, HashTablePrinter._children table)).
      { intros b. unfold HashTablePrinter.next_node, HashTablePrinter._children.
        rewrite Hsz. reflexivity. }
      destruct is_map; unfold HashTablePrinter.next_of, HashTablePrinter.map__next__, HashTablePrinter.__next__;
        rewrite Hnode; reflexivity. }
    unfold HashTablePrinter.__init__. rewrite list_unfold, Hnext.
    unfold HashTablePrinter.__len__, HashTablePrinter._children. rewrite Hsz. simpl.
    eexists. split; [reflexivity|]. repeat split.
Qed.

Lemma negative_count_reads_as_empty_witness :
  (exists p,
     StdRbtreePrinter.__init__ Scenario.two_entries_memory Scenario.tree_layout false 1 1
       "std::set" (Scenario.tree_of_size (-1)) = Ret p
     /\ StdRbtreePrinter.to_string p = "empty" /\ StdRbtreePrinter.children p = None)
  /\ (exists p,
     HashTablePrinter.__init__ Scenario.two_entries_memory Scenario.hash_layout true 1
       "std::unordered_map" (Scenario.table_of_size (-1)) = Ret p
     /\ HashTablePrinter.to_string p = "empty" /\ HashTablePrinter.children p = None).
Proof.
  split.
  - destruct (proj1 (negative_count_reads_as_empty Scenario.two_entries_memory
                       "std::set" false 0 1)
                Scenario.tree_layout (Scenario.tree_of_size (-1))
                ltac:(simpl; lia)) as (_ & p & Hp & _ & Hs & Hc).
    exists p. auto.
  - destruct (proj2 (negative_count_reads_as_empty Scenario.two_entries_memory
                       "std::unordered_map" true 0 1)
                Scenario.hash_layout (Scenario.table_of_size (-1))
                ltac:(simpl; lia)) as (_ & p & Hp & _ & Hs & Hc).
    exists p. auto.
Defined.

(** ** Deques *)

Lemma split_buffer_init_fields m sz fuel val p :
  StdSplitBufferPrinter.__init__ m sz fuel val = Ret p ->
  StdSplitBufferPrinter.begin p = StdSplitBufferPrinter.__begin_ val
  /\ StdSplitBufferPrinter.end_ p = StdSplitBufferPrinter.__end_ val.
Proof.
  unfold StdSplitBufferPrinter.__init__.
  destruct (_ <? _); destruct (0 <? _);
    try destruct (Py.list_ _ _ _) as [[es c]| |];
    try destruct (negb _);
    intros H; inversion H; subst; split; reflexivity.
Qed.

Section DequeTraversal.

Variables (m : memory) (psz esz : Z).

(** What a call of [__next__] yields, when it yields. *)
Lemma deque_next_yield (c c1 : StdDequePrinter.cursor) (e : child) :
  StdDequePrinter.__next__ m psz esz c = Ret (Some e, c1) ->
  let idx := StdDequePrinter.c_start c + StdDequePrinter.count c in
  c1 = Shape.deque_cursor c (StdDequePrinter.count c + 1)
  /\ exists b,
       m (ptr_add psz (StdDequePrinter.map_begin c)
            (Z.quot idx (StdDequePrinter.c_block_size c))) = Some b
       /\ e = (label (StdDequePrinter.count c),
               GdbValue (m (ptr_add esz b
                              (Z.rem idx (StdDequePrinter.c_block_size c))))).
Proof.
  unfold StdDequePrinter.__next__, gdb_div, gdb_rem, dereference.
  destruct (StdDequePrinter.c_size c <=? StdDequePrinter.count c); [discriminate|].
  destruct (StdDequePrinter.c_block_size c <? StdDequePrinter.c_start c); [discriminate|].
  destruct (StdDequePrinter.c_block_size c =? 0); [discriminate|].
  cbn [Py.bind].
  destruct (StdDequePrinter.map_end c <=? _); [discriminate|].
  destruct (m (ptr_add psz (StdDequePrinter.map_begin c) _)) as [b|] eqn:Hb;
    [|discriminate].
  cbn [Py.bind fetch]. intros H; inversion H; subst. cbv zeta.
  split; [reflexivity|]. exists b. split; reflexivity.
Qed.

(** Every child that the deque cursor produces is the object found by
    indexing the block map with the quotient and the block with the
    remainder of [start + i] by the block size. *)
Lemma deque_list_nth (fuel : nat) :
  forall c es c',
    Py.list_ (StdDequePrinter.__next__ m psz esz) fuel c = Ret (es, c') ->
    forall j e, nth_error es j = Some e ->
      let idx := StdDequePrinter.c_start c + (StdDequePrinter.count c + Z.of_nat j) in
      exists b,
        m (ptr_add psz (StdDequePrinter.map_begin c)
             (Z.quot idx (StdDequePrinter.c_block_size c))) = Some b
        /\ e = (label (StdDequePrinter.count c + Z.of_nat j),
                GdbValue (m (ptr_add esz b
                               (Z.rem idx (StdDequePrinter.c_block_size c))))).
Proof.
  induction fuel as [|fuel IH]; intros c es c' Hrun j e Hnth;
    [discriminate|].
  rewrite list_unfold in Hrun.
  destruct (StdDequePrinter.__next__ m psz esz c) as [[[e0|] c1]| |] eqn:Hnext;
    try discriminate.
  2:{ inversion Hrun; subst. destruct j; discriminate. }
  destruct (deque_next_yield c c1 e0 Hnext) as (Hc1 & b & Hb & He0).
  destruct (Py.list_ (StdDequePrinter.__next__ m psz esz) fuel c1)
    as [[es1 cz]| |] eqn:Hrec; try discriminate.
  specialize (IH c1 es1 cz Hrec).
  inversion Hrun; subst es c'; clear Hrun.
  destruct j as [|j]; cbn [nth_error] in Hnth.
  - inversion Hnth; subst e. cbv zeta.
    change (Z.of_nat 0) with 0. rewrite !Z.add_0_r.
    exists b. split; [exact Hb | exact He0].
  - destruct (IH j e Hnth) as (b' & Hb' & He). subst c1. cbn in Hb', He.
    cbv zeta.
    replace (StdDequePrinter.count c + Z.of_nat (S j))
      with (StdDequePrinter.count c + 1 + Z.of_nat j) by lia.
    exists b'. split; [exact Hb' | exact He].
Qed.

End DequeTraversal.

(** *** The deque constructor returns or raises

    With block pointers of positive size every loop of the constructor is
    bounded: by the length of the map, or by the stored size. *)

Section DequeTotal.

Variables (m : memory) (psz esz : Z).
Hypothesis psz_pos : 0 < psz.

Lemma split_buffer_list_bounded (fuel : nat) :
  forall c,
    Z.max 0 (StdSplitBufferPrinter.c_end c - StdSplitBufferPrinter.ptr c) < Z.of_nat fuel ->
    exists r, Py.list_ (StdSplitBufferPrinter.__next__ m psz) fuel c = Ret r.
Proof.
  induction fuel as [|fuel IH]; intros c Hc; [lia|].
  rewrite list_unfold. unfold StdSplitBufferPrinter.__next__, StdSplitBufferPrinter.next_at.
  destruct (Z.leb_spec (StdSplitBufferPrinter.c_end c) (StdSplitBufferPrinter.ptr c));
    cbn [Py.bind]; [eauto|].
  match goal with |- context [Py.list_ _ fuel ?c1] =>
    destruct (IH c1) as [[es cz] Hr]
  end.
  { cbn [StdSplitBufferPrinter.c_end StdSplitBufferPrinter.ptr]. unfold ptr_add. lia. }
  unfold StdSplitBufferPrinter.__next__, StdSplitBufferPrinter.next_at in Hr. rewrite Hr. eauto.
Qed.

Lemma litmus_bounded (fuel : nat) :
  forall c,
    Z.max 0 (StdSplitBufferPrinter.c_end c - StdSplitBufferPrinter.ptr c) < Z.of_nat fuel ->
    StdDequePrinter.litmus m psz fuel c <> Hang.
Proof.
  induction fuel as [|fuel IH]; intros c Hc; [lia|].
  cbn [StdDequePrinter.litmus]. unfold StdSplitBufferPrinter.next_at.
  destruct (Z.leb_spec (StdSplitBufferPrinter.c_end c) (StdSplitBufferPrinter.ptr c));
    cbn [Py.bind]; [discriminate|].
  destruct (dereference m (StdSplitBufferPrinter.ptr c)) as [a|];
    cbn [Py.bind fetch]; [|discriminate].
  destruct (dereference m a); cbn [Py.bind fetch]; [|discriminate].
  apply IH. cbn [StdSplitBufferPrinter.c_end StdSplitBufferPrinter.ptr]. unfold ptr_add. lia.
Qed.

Lemma deque_list_bounded (fuel : nat) :
  forall c,
    Z.max 0 (StdDequePrinter.c_size c - StdDequePrinter.count c) < Z.of_nat fuel ->
    Py.list_ (StdDequePrinter.__next__ m psz esz) fuel c <> Hang.
Proof.
  induction fuel as [|fuel IH]; intros c Hc; [lia|].
  rewrite list_unfold.
  destruct (StdDequePrinter.__next__ m psz esz c) as [[[e|] c1]| |] eqn:Hnext;
    try discriminate.
  - destruct (deque_next_yield m psz esz c c1 e Hnext) as [-> _].
    assert (Hlt : StdDequePrinter.count c < StdDequePrinter.c_size c).
    { unfold StdDequePrinter.__next__ in Hnext.
      destruct (Z.leb_spec (StdDequePrinter.c_size c) (StdDequePrinter.count c));
        [discriminate | assumption]. }
    match goal with |- context [Py.list_ _ fuel ?c1] =>
      specialize (IH c1); destruct (Py.list_ _ fuel c1) as [[es cz]| |]
    end; try discriminate.
    apply IH. cbn [Shape.deque_cursor StdDequePrinter.c_size StdDequePrinter.count]. lia.
  - exfalso. revert Hnext.
    unfold StdDequePrinter.__next__, gdb_div, gdb_rem, dereference.
    destruct (StdDequePrinter.c_size c <=? StdDequePrinter.count c); [discriminate|].
    destruct (StdDequePrinter.c_block_size c <? StdDequePrinter.c_start c); [discriminate|].
    destruct (StdDequePrinter.c_block_size c =? 0); [discriminate|].
    cbn [Py.bind].
    destruct (StdDequePrinter.map_end c <=? _); [discriminate|].
    destruct (m (ptr_add psz (StdDequePrinter.map_begin c) _)); discriminate.
Qed.

(** The constructor returns a printer or raises, as soon as the fuel
    exceeds the byte length of the map and the stored size. *)
Lemma deque_init_total (fuel : nat) (tn : string) (val : StdDequePrinter.deque) :
  Z.max 0 (StdSplitBufferPrinter.__end_ (StdDequePrinter.__map_ val)
           - StdSplitBufferPrinter.__begin_ (StdDequePrinter.__map_ val)) < Z.of_nat fuel ->
  Z.max 0 (StdDequePrinter.__size_ val) < Z.of_nat fuel ->
  StdDequePrinter.__init__ m psz esz fuel tn val <> Hang.
Proof.
  intros Hmap Hsize. unfold StdDequePrinter.__init__.
  assert (Hblocks : exists blocks,
            StdSplitBufferPrinter.__init__ m psz fuel (StdDequePrinter.__map_ val) = Ret blocks).
  { unfold StdSplitBufferPrinter.__init__.
    destruct (split_buffer_list_bounded fuel
                (StdSplitBufferPrinter._children_at
                   (StdSplitBufferPrinter.__begin_ (StdDequePrinter.__map_ val))
                   (StdSplitBufferPrinter.__end_ (StdDequePrinter.__map_ val))))
      as [[es cz] Hr]; [exact Hmap|].
    rewrite Hr.
    destruct (_ <? _); destruct (0 <? _); eauto; destruct (negb _); eauto. }
  destruct Hblocks as [blocks Hblocks]. rewrite Hblocks. cbn [Py.bind].
  destruct (split_buffer_init_fields _ _ _ _ _ Hblocks) as [Hb He].
  destruct (_ && _); [|discriminate].
  pose proof (litmus_bounded fuel (StdSplitBufferPrinter._children blocks)) as Hl.
  destruct (StdDequePrinter.litmus m psz fuel (StdSplitBufferPrinter._children blocks))
    as [[]| |]; cbn [Py.bind]; try discriminate.
  2:{ exfalso. apply Hl; [|reflexivity].
      cbn [StdSplitBufferPrinter._children StdSplitBufferPrinter._children_at
           StdSplitBufferPrinter._iterator StdSplitBufferPrinter.c_end StdSplitBufferPrinter.ptr].
      rewrite Hb, He. exact Hmap. }
  pose proof (deque_list_bounded fuel
                (StdDequePrinter._children_at (StdDequePrinter.__size_ val)
                   (StdDequePrinter.__block_size val) (StdDequePrinter.__start_ val) blocks))
    as Hd.
  destruct (Py.list_ _ fuel _) as [[es cz]| |]; cbn [Py.bind fst];
    try discriminate.
  - destruct (negb _); discriminate.
  - exfalso. apply Hd; [|reflexivity].
    cbn [StdDequePrinter._children_at StdDequePrinter._iterator StdDequePrinter.c_size StdDequePrinter.count].
    lia.
Qed.

End DequeTotal.

(** C4 (deque index law): for a deque that its printer accepted, with block
    size [B] and start offset [S], the child at position [i] below the
    element count is labelled [[i]] and is the object at
    [map[(S + i) div B] + ((S + i) mod B) * element_size]: the block pointer
    at that index of the map is mapped, and the child is what lies at that
    offset in the block. *)
Theorem deque_index_law (m : memory) (psz esz : Z) (fuel : nat) (tn : string)
  (val : StdDequePrinter.deque) (p : StdDequePrinter.printer) (i : Z) :
  StdDequePrinter.__init__ m psz esz fuel tn val = Ret p ->
  StdDequePrinter.has_children p = true ->
  0 <= StdDequePrinter.__start_ val ->
  0 <= i < StdDequePrinter.size p ->
  let B := StdDequePrinter.__block_size val in
  let S := StdDequePrinter.__start_ val in
  let map := StdSplitBufferPrinter.__begin_ (StdDequePrinter.__map_ val) in
  exists es c' b,
    Py.list_ (StdDequePrinter.__next__ m psz esz) fuel (StdDequePrinter._children p) = Ret (es, c')
    /\ len es = StdDequePrinter.size p
    /\ StdDequePrinter.size p = StdDequePrinter.__size_ val
    /\ m (map + ((S + i) / B) * psz) = Some b
    /\ nth_error es (Z.to_nat i)
       = Some (label i, GdbValue (m (b + ((S + i) mod B) * esz))).
Proof.
  intros Hinit Hch Hstart Hi. cbv zeta.
  unfold StdDequePrinter.__init__ in Hinit.
  destruct (StdSplitBufferPrinter.__init__ m psz fuel (StdDequePrinter.__map_ val))
    as [blocks| |] eqn:Hblocks; try discriminate.
  cbn [Py.bind] in Hinit.
  destruct (split_buffer_init_fields _ _ _ _ _ Hblocks) as [Hbegin _].
  destruct ((0 <? StdDequePrinter.__size_ val)
            && (StdDequePrinter.__start_ val <? StdDequePrinter.__block_size val)
            && StdSplitBufferPrinter.has_children blocks
            && (StdDequePrinter.__size_ val
                <=? StdSplitBufferPrinter.size blocks * StdDequePrinter.__block_size val))
    eqn:Hguard; [|inversion Hinit; subst p; discriminate].
  repeat (apply andb_prop in Hguard; destruct Hguard as [Hguard ?]).
  destruct (StdDequePrinter.litmus _ _ _ _) as [[]| |]; try discriminate.
  cbn [Py.bind] in Hinit.
  destruct (Py.list_ _ fuel _) as [[es c']| |] eqn:Hrun; try discriminate.
  cbn [Py.bind fst] in Hinit.
  destruct (Z.eqb_spec (StdDequePrinter.__size_ val) (len es)) as [Hlen|];
    cbn [negb] in Hinit; inversion Hinit; subst p; [|discriminate].
  cbn [StdDequePrinter.size] in Hi.
  destruct (nth_error es (Z.to_nat i)) as [e|] eqn:Hnth.
  2:{ apply nth_error_None in Hnth. unfold len in Hlen. lia. }
  destruct (deque_list_nth m psz esz fuel _ es c' Hrun _ e Hnth)
    as (b & Hb & He).
  cbn [StdDequePrinter._children_at StdDequePrinter._iterator StdDequePrinter.c_start
       StdDequePrinter.count StdDequePrinter.map_begin StdDequePrinter.c_block_size] in Hb, He.
  rewrite Z.add_0_l, Z2Nat.id in Hb, He by lia.
  assert (HB : 0 < StdDequePrinter.__block_size val) by lia.
  rewrite Z.quot_div_nonneg in Hb by lia.
  rewrite Z.rem_mod_nonneg in He by lia.
  unfold ptr_add in Hb, He. rewrite Hbegin in Hb.
  exists es, c', b.
  split; [exact Hrun|]. split; [symmetry; exact Hlen|].
  split; [reflexivity|]. split; [exact Hb|]. rewrite Hnth, He. reflexivity.
Qed.

Lemma deque_index_law_witness :
  exists p es c' b,
    StdDequePrinter.__init__ Scenario.two_blocks_memory 8 4 8 "std::deque"
      Scenario.two_blocks_deque = Ret p
    /\ Py.list_ (StdDequePrinter.__next__ Scenario.two_blocks_memory 8 4) 8
         (StdDequePrinter._children p) = Ret (es, c')
    /\ Scenario.two_blocks_memory (1000 + ((1 + 3) / 4) * 8) = Some b
    /\ nth_error es 3
       = Some (label 3, GdbValue (Scenario.two_blocks_memory (b + ((1 + 3) mod 4) * 4))).
Proof.
  eexists.
  destruct (deque_index_law Scenario.two_blocks_memory 8 4 8 "std::deque"
              Scenario.two_blocks_deque _ 3 eq_refl eq_refl
              ltac:(simpl; lia) ltac:(simpl; lia))
    as (es & c' & b & Hrun & _ & _ & Hb & Hnth).
  exists es, c', b. split; [reflexivity|]. split; [exact Hrun|].
  split; [exact Hb | exact Hnth].
Defined.

(** ** Requesting the children twice *)

Section Restart.

Context {P : Type} {H : PrettyPrinter P}.

(** A request that returned keeps its result under more fuel. *)
Lemma elements_fuel_mono (p : P) (f g : nat) (es : list child) :
  (f <= g)%nat ->
  elements f p = Some (Ret es) -> elements g p = Some (Ret es).
Proof.
  unfold elements. intros Hle.
  destruct (pp_children p) as [c|]; [|discriminate].
  destruct (Py.list_ pp_next f c) as [[es' z]| |] eqn:Hrun;
    intros Hf; inversion Hf; subst.
  rewrite (list_fuel_mono pp_next f g c (es, z) Hle Hrun). reflexivity.
Qed.


(** *** The heap *)




Lemma heap_set_length (h : Heap.heap P) :
  forall (r : Heap.ref) (o : Heap.object P),
    List.length (Heap.set h r o) = List.length h.
Proof.
  induction h as [|x h IH]; intros [|r] o; cbn [Heap.set List.length];
    try reflexivity.
  rewrite IH. reflexivity.
Qed.







Section OneRun.

Variables (h : Heap.heap P) (self : Heap.ref) (p : P) (c c' : cursor_of).
Variables (fuel : nat) (es : list child).
Hypothesis printer_at_self : Heap.get h self = Some (Heap.PrinterObject p).
Hypothesis children_set : pp_children p = Some c.
Hypothesis run : Py.list_ pp_next fuel c = Ret (es, c').




End OneRun.

End Restart.










(** * Further properties of the printers *)

(** ** Running a cursor through known states *)

Section ListSteps.

Context {E C : Type} (next : C -> step E C).

(** When the cursor goes through the states [st k], [st (k+1)], ...,
    yielding [el i] in state [st i], and stops in state [st (k+n)], then
    [list] returns those [n] elements. *)
Lemma list_steps (st : nat -> C) (el : nat -> E) (stop : C) (n : nat) :
  forall k,
    (forall i, (k <= i < k + n)%nat -> next (st i) = Ret (Some (el i), st (S i))) ->
    next (st (k + n)%nat) = Ret (None, stop) ->
    Py.list_ next (S n) (st k) = Ret (map el (seq k n), stop).
Proof.
  induction n as [|n IH]; intros k Hyield Hstop; rewrite list_unfold.
  - rewrite Nat.add_0_r in Hstop. rewrite Hstop. reflexivity.
  - rewrite (Hyield k) by lia.
    rewrite (IH (S k)).
    + reflexivity.
    + intros i Hi. apply Hyield. lia.
    + replace (S k + n)%nat with (k + S n)%nat by lia. exact Hstop.
Qed.

(** The same, for any fuel that covers the [n + 1] calls. *)
Lemma list_steps_fuel (st : nat -> C) (el : nat -> E) (stop : C) (n fuel : nat) :
  (forall i, (i < n)%nat -> next (st i) = Ret (Some (el i), st (S i))) ->
  next (st n) = Ret (None, stop) ->
  (n < fuel)%nat ->
  Py.list_ next fuel (st 0%nat) = Ret (map el (seq 0 n), stop).
Proof.
  intros Hyield Hstop Hfuel.
  apply (list_fuel_mono next (S n) fuel); [lia|].
  apply list_steps; [intros i Hi; apply Hyield; lia | exact Hstop].
Qed.

End ListSteps.

Section ListEndless.

Context {E C : Type} (next : C -> step E C).

(** A cursor that yields in every state it goes through never lets [list]
    return. *)
Lemma list_endless (st : nat -> C) (el : nat -> E) :
  (forall i, next (st i) = Ret (Some (el i), st (S i))) ->
  forall fuel k, Py.list_ next fuel (st k) = Hang.
Proof.
  intros Hyield. induction fuel as [|fuel IH]; intros k; [reflexivity|].
  rewrite list_unfold, Hyield, IH. reflexivity.
Qed.

End ListEndless.

(** ** Vectors: summary, children, and ranges that do not end *)

(** The summary of a three-pointer vector is decided by its size
    [end - begin], its capacity [end_cap - begin] and the two probed
    objects: "empty" for size 0 within the capacity; the type name with
    length and capacity, and a [children] method, for a positive size within
    the capacity whose first and last objects are mapped; "invalid" and no
    [children] in every other case (negative size, size above capacity, or a
    probed object that cannot be read). *)
Theorem vector_summary_cases (m : memory) (esz wsz : Z) (tn : string)
  (b e ec : Z) :
  let p := StdVectorPrinter.__init__ m esz wsz tn (StdVectorPrinter.Vector b e ec) in
  let sz := ptr_diff esz e b in
  let cap := ptr_diff esz ec b in
  (sz = 0 -> 0 <= cap ->
     StdVectorPrinter.size p = 0
     /\ StdVectorPrinter.to_string esz p = "empty"
     /\ StdVectorPrinter.children p = None)
  /\ (0 < sz <= cap ->
      (exists x, m b = Some x) -> (exists y, m (ptr_add esz e (-1)) = Some y) ->
     StdVectorPrinter.size p = sz
     /\ StdVectorPrinter.has_children p = true
     /\ StdVectorPrinter.to_string esz p
        = (tn ++ " (length=" ++ fmt_d sz ++ ", capacity=" ++ fmt_d cap ++ ")")%string)
  /\ (sz < 0 \/ cap < sz
      \/ (0 < sz /\ (m b = None \/ m (ptr_add esz e (-1)) = None)) ->
     StdVectorPrinter.size p < 0
     /\ StdVectorPrinter.to_string esz p = "invalid"
     /\ StdVectorPrinter.children p = None).
Proof.
  cbv zeta.
  unfold StdVectorPrinter.__init__, StdVectorPrinter.to_string,
    StdVectorPrinter.children, StdVectorPrinter.audit, dereference.
  cbn [StdVectorPrinter.size StdVectorPrinter.has_children StdVectorPrinter.val
       StdVectorPrinter.typename StdVectorPrinter.val_begin Py.bind].
  set (sz := ptr_diff esz e b). set (cap := ptr_diff esz ec b).
  split; [|split].
  - intros Hsz Hcap. rewrite Hsz.
    destruct (Z.ltb_spec cap 0); [lia|]. cbn. auto.
  - intros Hrange [x Hx] [y Hy].
    destruct (Z.ltb_spec cap sz); [lia|].
    destruct (Z.ltb_spec 0 sz); [|lia].
    rewrite Hx, Hy. cbn.
    destruct (Z.eqb_spec sz 0); [lia|].
    destruct (Z.ltb_spec 0 sz); [|lia]. auto.
  - intros Hbad.
    destruct (Z.ltb_spec cap sz) as [Hc|Hc].
    + cbn. repeat split; lia.
    + destruct (Z.ltb_spec 0 sz) as [Hpos|Hpos].
      * assert (Hnone : m b = None \/ m (ptr_add esz e (-1)) = None)
          by (destruct Hbad as [?|[?|[_ ?]]]; [lia | lia | assumption]).
        destruct (m b) as [x|]; [|cbn; repeat split; try lia].
        destruct (m (ptr_add esz e (-1))) as [y|];
          [destruct Hnone; discriminate | cbn; repeat split; try lia].
      * cbn [fst snd].
        assert (Hneg : sz < 0)
          by (destruct Hbad as [?|[?|[? _]]]; lia).
        destruct (Z.eqb_spec sz 0); [lia|].
        destruct (Z.ltb_spec 0 sz); [lia|]. auto.
Qed.

Lemma vector_summary_cases_witness :
  StdVectorPrinter.to_string 4
    (StdVectorPrinter.__init__ Scenario.three_ints_memory 4 8 "vector"
       Scenario.three_ints) = "vector (length=3, capacity=4)"
  /\ StdVectorPrinter.to_string 4
       (StdVectorPrinter.__init__ Scenario.three_ints_memory 4 8 "vector"
          (StdVectorPrinter.Vector 1000 1016 1016)) = "invalid".
Proof.
  split.
  - apply (proj1 (proj2 (vector_summary_cases Scenario.three_ints_memory 4 8
                           "vector" 1000 1012 1016))).
    + vm_compute. split; [reflexivity | discriminate].
    + exists 7. reflexivity.
    + exists 9. reflexivity.
  - apply (proj2 (proj2 (vector_summary_cases Scenario.three_ints_memory 4 8
                           "vector" 1000 1016 1016))).
    right. right. split; [reflexivity|]. right. reflexivity.
Defined.

(** The children of an accepted vector whose end lies a whole number [n] of
    elements past its begin are these [n] elements in order, labelled
    [[0]] to [[n-1]], and [n] is the size the summary reports. *)
Theorem vector_children_in_order (m : memory) (esz wsz : Z) (tn : string)
  (b ec : Z) (n fuel : nat) :
  0 < esz ->
  (n < fuel)%nat ->
  let p := StdVectorPrinter.__init__ m esz wsz tn
             (StdVectorPrinter.Vector b (ptr_add esz b (Z.of_nat n)) ec) in
  StdVectorPrinter.has_children p = true ->
  elements (H := vector_printer m esz wsz) fuel p
  = Some (Ret (Expected.range_children m esz b n))
  /\ StdVectorPrinter.size p = Z.of_nat n.
Proof.
  intros Hesz Hfuel p Hch.
  unfold elements, pp_children, pp_next, cursor_of, vector_printer.
  unfold StdVectorPrinter.children. rewrite Hch.
  assert (Hc : StdVectorPrinter._children p
               = Shape.vector_cursor esz b (ptr_add esz b (Z.of_nat n)) (Z.of_nat 0)).
  { subst p. unfold StdVectorPrinter._children, StdVectorPrinter.__init__.
    cbn [StdVectorPrinter.val].
    unfold StdVectorPrinter._iterator, Shape.vector_cursor, ptr_add.
    f_equal. simpl. lia. }
  rewrite Hc.
  rewrite (list_steps_fuel (StdVectorPrinter.__next__ m esz wsz)
             (fun i => Shape.vector_cursor esz b (ptr_add esz b (Z.of_nat n)) (Z.of_nat i))
             (fun i => (label (Z.of_nat i),
                        GdbValue (dereference m (ptr_add esz b (Z.of_nat i)))))
             (StdVectorPrinter.with_count
                (Shape.vector_cursor esz b (ptr_add esz b (Z.of_nat n)) (Z.of_nat n))
                (Z.of_nat n + 1))
             n fuel).
  - split; [reflexivity|].
    subst p. unfold StdVectorPrinter.__init__ in *.
    cbn [StdVectorPrinter.has_children StdVectorPrinter.size] in *.
    assert (Hd : ptr_diff esz (ptr_add esz b (Z.of_nat n)) b = Z.of_nat n).
    { unfold ptr_diff, ptr_add.
      replace (b + Z.of_nat n * esz - b) with (Z.of_nat n * esz) by lia.
      apply Z.quot_mul. lia. }
    rewrite Hd in *.
    destruct (_ <? Z.of_nat n); [discriminate|].
    destruct (0 <? Z.of_nat n); [|discriminate].
    destruct (StdVectorPrinter.audit _ _ _ _ _ _); try discriminate. reflexivity.
  - intros i Hi. rewrite (vector_cursor_next m esz wsz b Hesz) by lia.
    replace (Z.of_nat i + 1) with (Z.of_nat (S i)) by lia. reflexivity.
  - apply vector_cursor_stop.
  - exact Hfuel.
Qed.

Lemma vector_children_in_order_witness :
  elements (H := vector_printer Scenario.three_ints_memory 4 8) 4
    (StdVectorPrinter.__init__ Scenario.three_ints_memory 4 8 "vector"
       Scenario.three_ints)
  = Some (Ret [("[0]"%string, GdbValue (Some 7)); ("[1]"%string, GdbValue (Some 8));
               ("[2]"%string, GdbValue (Some 9))]).
Proof.
  exact (proj1 (vector_children_in_order Scenario.three_ints_memory 4 8 "vector"
                  1000 1016 3 4 ltac:(lia) ltac:(lia) eq_refl)).
Defined.

(** When the end of an accepted vector does not lie a whole number of
    elements past its begin, the cursor never meets it: however many
    children the host pulls, the sequence has not ended, and no pull
    raises. *)
Theorem vector_ragged_end_never_stops (m : memory) (esz wsz : Z) (tn : string)
  (b e ec : Z) (fuel : nat) :
  0 < esz ->
  (e - b) mod esz <> 0 ->
  let p := StdVectorPrinter.__init__ m esz wsz tn (StdVectorPrinter.Vector b e ec) in
  StdVectorPrinter.has_children p = true ->
  elements (H := vector_printer m esz wsz) fuel p = Some Hang.
Proof.
  intros Hesz Hrag p Hch.
  unfold elements, pp_children, pp_next, cursor_of, vector_printer.
  unfold StdVectorPrinter.children. rewrite Hch.
  assert (Hc : StdVectorPrinter._children p
               = Shape.vector_cursor esz b e (Z.of_nat 0)).
  { subst p. unfold StdVectorPrinter._children, StdVectorPrinter.__init__.
    cbn [StdVectorPrinter.val].
    unfold StdVectorPrinter._iterator, Shape.vector_cursor, ptr_add.
    f_equal. simpl. lia. }
  rewrite Hc.
  rewrite (list_endless (StdVectorPrinter.__next__ m esz wsz)
             (fun i => Shape.vector_cursor esz b e (Z.of_nat i))
             (fun i => (label (Z.of_nat i),
                        GdbValue (dereference m (ptr_add esz b (Z.of_nat i)))))).
  - reflexivity.
  - intros i. unfold StdVectorPrinter.__next__, Shape.vector_cursor; simpl.
    destruct (Z.eqb_spec (ptr_add esz b (Z.of_nat i)) e) as [Heq|_].
    { exfalso. apply Hrag. subst e. unfold ptr_add.
      replace (b + Z.of_nat i * esz - b) with (Z.of_nat i * esz) by lia.
      apply Z.mod_mul. lia. }
    unfold StdVectorPrinter.with_item_so, dereference; simpl.
    do 3 f_equal; unfold ptr_add; lia.
Qed.

Lemma vector_ragged_end_never_stops_witness :
  elements (H := vector_printer More.ragged_memory 4 8) 50
    (StdVectorPrinter.__init__ More.ragged_memory 4 8 "vector"
       (StdVectorPrinter.Vector 1000 1010 1016)) = Some Hang.
Proof.
  apply (vector_ragged_end_never_stops More.ragged_memory 4 8 "vector"
           1000 1010 1016 50).
  - lia.
  - vm_compute. discriminate.
  - reflexivity.
Defined.

(** The summary of a [vector<bool>] is decided in the same way by its bit
    count, its capacity in bits (words times bits per word) and the first
    and last storage words: "empty", or the type name with [<bool>], length
    and capacity, or "invalid". *)
Theorem bool_vector_summary_cases (m : memory) (esz wsz : Z) (tn : string)
  (b s c : Z) (field : option Z) :
  let bpw := match field with None => 64 | Some w => w end in
  let cap := c * bpw in
  let p := StdVectorPrinter.__init__ m esz wsz tn
             (StdVectorPrinter.VectorBool b s c field) in
  (s = 0 -> 0 <= cap ->
     StdVectorPrinter.to_string esz p = "empty"
     /\ StdVectorPrinter.children p = None)
  /\ (0 < s <= cap ->
      (exists x, m b = Some x) ->
      (exists y, m (ptr_add wsz b (Z.quot (s - 1) bpw)) = Some y) ->
     StdVectorPrinter.has_children p = true
     /\ StdVectorPrinter.to_string esz p
        = (tn ++ "<bool> (length=" ++ fmt_d s ++ ", capacity=" ++ fmt_d cap ++ ")")%string)
  /\ (s < 0 \/ cap < s
      \/ (0 < s /\ (m b = None
                    \/ m (ptr_add wsz b (Z.quot (s - 1) bpw)) = None)) ->
     StdVectorPrinter.to_string esz p = "invalid"
     /\ StdVectorPrinter.children p = None).
Proof.
  cbv zeta.
  set (bpw := match field with None => 64 | Some w => w end).
  assert (Hinit : StdVectorPrinter.__init__ m esz wsz tn
                    (StdVectorPrinter.VectorBool b s c field)
                  = let sz1 := if c * bpw <? s then -1 else s in
                    let audited :=
                      if 0 <? sz1 then
                        match StdVectorPrinter.audit m esz wsz
                                (StdVectorPrinter.VectorBool b s c field) bpw sz1 with
                        | Ret _ => (sz1, true)
                        | _ => (-1, false)
                        end
                      else (sz1, false) in
                    {| StdVectorPrinter.typename := tn;
                       StdVectorPrinter.val := StdVectorPrinter.VectorBool b s c field;
                       StdVectorPrinter.is_bool := true;
                       StdVectorPrinter.bits_per_word := bpw;
                       StdVectorPrinter.size := fst audited;
                       StdVectorPrinter.capacity := c * bpw;
                       StdVectorPrinter.has_children := snd audited |}).
  { subst bpw. destruct field; reflexivity. }
  rewrite Hinit. clear Hinit. cbv zeta.
  unfold StdVectorPrinter.to_string, StdVectorPrinter.children,
    StdVectorPrinter.audit, gdb_div, dereference.
  cbn [StdVectorPrinter.size StdVectorPrinter.has_children StdVectorPrinter.val
       StdVectorPrinter.typename StdVectorPrinter.val_begin
       StdVectorPrinter.bits_per_word].
  split; [|split].
  - intros Hs Hcap. rewrite Hs.
    destruct (Z.ltb_spec (c * bpw) 0); [lia|]. cbn. auto.
  - intros Hrange [x Hx] [y Hy].
    destruct (Z.ltb_spec (c * bpw) s); [lia|].
    destruct (Z.ltb_spec 0 s); [|lia].
    destruct (Z.eqb_spec bpw 0) as [Hz|_]; [rewrite Hz in *; lia|].
    cbn [Py.bind]. rewrite Hx, Hy. cbn.
    destruct (Z.eqb_spec s 0); [lia|].
    destruct (Z.ltb_spec 0 s); [|lia]. auto.
  - intros Hbad.
    destruct (Z.ltb_spec (c * bpw) s) as [Hc|Hc]; [cbn; auto|].
    destruct (Z.ltb_spec 0 s) as [Hpos|Hpos].
    + assert (Hnone : m b = None
                      \/ m (ptr_add wsz b (Z.quot (s - 1) bpw)) = None)
        by (destruct Hbad as [?|[?|[_ ?]]]; [lia | lia | assumption]).
      destruct (Z.eqb_spec bpw 0) as [Hz|_]; [cbn; auto|].
      cbn [Py.bind].
      destruct (m b) as [x|]; [|cbn; auto].
      destruct (m (ptr_add wsz b (Z.quot (s - 1) bpw))) as [y|];
        [destruct Hnone; discriminate | cbn; auto].
    + cbn [fst snd].
      assert (Hneg : s < 0) by (destruct Hbad as [?|[?|[? _]]]; lia).
      destruct (Z.eqb_spec s 0); [lia|].
      destruct (Z.ltb_spec 0 s); [lia|]. auto.
Qed.

Lemma bool_vector_summary_cases_witness :
  StdVectorPrinter.to_string 4
    (StdVectorPrinter.__init__ Scenario.bits65_memory 4 8 "vector" Scenario.bits65)
  = "vector<bool> (length=65, capacity=128)".
Proof.
  apply (proj1 (proj2 (bool_vector_summary_cases Scenario.bits65_memory 4 8
                         "vector" 1000 65 2 None))).
  - lia.
  - exists 1. reflexivity.
  - exists 1. reflexivity.
Defined.

(** ** Strings: what the summary is *)

Section StringContent.

Variables (m : memory) (csz : Z).

Lemma read_chars_spec (cs : list Z) :
  forall p,
    (forall i, (i < List.length cs)%nat ->
       m (ptr_add csz p (Z.of_nat i)) = Some (nth i cs 0)) ->
    StdStringPrinter.read_chars m csz p (List.length cs)
    = Ret (Expected.decoded cs).
Proof.
  induction cs as [|c cs IH]; intros p Hcs; [reflexivity|].
  cbn [List.length StdStringPrinter.read_chars].
  pose proof (Hcs 0%nat ltac:(simpl; lia)) as H0.
  unfold ptr_add in H0. simpl in H0. rewrite Z.add_0_r in H0.
  unfold dereference. rewrite H0. cbn [fetch Py.bind].
  rewrite IH; [reflexivity|].
  intros i Hi. specialize (Hcs (S i) ltac:(simpl; lia)).
  cbn [nth] in Hcs. rewrite <- Hcs. f_equal. unfold ptr_add. lia.
Qed.

(** [read_chars] only depends on what the snapshot holds at the [n]
    character positions. *)
Lemma read_chars_ext (n : nat) :
  forall p q,
    (forall i, (i < n)%nat ->
       m (ptr_add csz p (Z.of_nat i)) = m (ptr_add csz q (Z.of_nat i))) ->
    StdStringPrinter.read_chars m csz p n = StdStringPrinter.read_chars m csz q n.
Proof.
  induction n as [|n IH]; intros p q Hpq; [reflexivity|].
  cbn [StdStringPrinter.read_chars].
  pose proof (Hpq 0%nat ltac:(lia)) as H0.
  unfold ptr_add in H0. simpl in H0. rewrite !Z.add_0_r in H0.
  unfold dereference. rewrite H0.
  rewrite (IH (ptr_add csz p 1) (ptr_add csz q 1)); [reflexivity|].
  intros i Hi. specialize (Hpq (S i) ltac:(lia)).
  unfold ptr_add in *.
  replace (p + 1 * csz + Z.of_nat i * csz) with (p + Z.of_nat (S i) * csz) by lia.
  replace (q + 1 * csz + Z.of_nat i * csz) with (q + Z.of_nat (S i) * csz) by lia.
  exact Hpq.
Qed.

End StringContent.

(** The summary of a string whose characters and terminator are mapped is
    the string of its stored length decoded from the data pointer on: it
    has as many characters as the size says, the printer keeps a
    non-negative size, and it announces the [string] display hint. *)
Theorem string_summary_is_content (m : memory) (csz : Z) (tn : string)
  (val : StdStringPrinter.basic_string) (cs : list Z) (t : Z) :
  let sz := fst (StdStringPrinter.figure_out val) in
  let p0 := snd (StdStringPrinter.figure_out val) in
  let p := StdStringPrinter.__init__ m csz tn val in
  sz = Z.of_nat (List.length cs) ->
  (forall i, (i < List.length cs)%nat ->
     m (ptr_add csz p0 (Z.of_nat i)) = Some (nth i cs 0)) ->
  m (ptr_add csz p0 sz) = Some t ->
  StdStringPrinter.to_string m csz p = Expected.decoded cs
  /\ String.length (StdStringPrinter.to_string m csz p) = List.length cs
  /\ StdStringPrinter.size p = sz
  /\ StdStringPrinter.display_hint p = true.
Proof.
  cbv zeta. intros Hsz Hcs Hterm.
  assert (Hlen : forall l, String.length (Expected.decoded l) = List.length l).
  { induction l as [|c l IH]; [reflexivity|]. simpl. rewrite IH. reflexivity. }
  assert (Hfirst : exists c, m (snd (StdStringPrinter.figure_out val)) = Some c).
  { destruct cs as [|c cs].
    - simpl in Hsz. rewrite Hsz in Hterm. unfold ptr_add in Hterm.
      rewrite Z.add_0_r in Hterm. eauto.
    - specialize (Hcs 0%nat ltac:(simpl; lia)). unfold ptr_add in Hcs.
      simpl in Hcs. rewrite Z.add_0_r in Hcs. eauto. }
  destruct Hfirst as [c0 Hc0].
  unfold StdStringPrinter.__init__.
  destruct (StdStringPrinter.figure_out val) as [sz p0]; cbn [fst snd] in *.
  assert (Haudit : StdStringPrinter.audit m csz sz p0 = Ret true).
  { unfold StdStringPrinter.audit, StdStringPrinter.last_char_ptr,
      StdStringPrinter.first_char_ptr, dereference.
    destruct (Z.leb_spec 0 sz); [|lia].
    rewrite Hc0, Hterm. reflexivity. }
  rewrite Haudit.
  unfold StdStringPrinter.to_string.
  cbn [StdStringPrinter.size StdStringPrinter.ptr StdStringPrinter.display_hint].
  destruct (Z.leb_spec 0 sz); [|lia].
  rewrite Hsz, Nat2Z.id, (read_chars_spec m csz cs p0 Hcs). cbn [Py.bind].
  repeat split. apply Hlen.
Qed.

Lemma string_summary_is_content_witness :
  StdStringPrinter.to_string Scenario.ab_memory 1
    (StdStringPrinter.__init__ Scenario.ab_memory 1 "std::basic_string"
       Scenario.short_ab) = "ab".
Proof.
  apply (string_summary_is_content Scenario.ab_memory 1 "std::basic_string"
           Scenario.short_ab [97; 98] 0).
  - reflexivity.
  - intros [|[|i]] Hi; [reflexivity | reflexivity | simpl in Hi; lia].
  - reflexivity.
Defined.

(** A short-form and a long-form string of the same length whose buffers
    hold the same characters, terminator included, get the same summary. *)
Theorem string_short_long_agree (m : memory) (csz : Z) (tn : string)
  (vs vl : StdStringPrinter.basic_string) (len_ : nat) :
  Z.testbit (StdStringPrinter.s_size vs) 0 = false ->
  Z.testbit (StdStringPrinter.s_size vl) 0 = true ->
  Z.shiftr (StdStringPrinter.s_size vs) 1 = Z.of_nat len_ ->
  StdStringPrinter.l_size vl = Z.of_nat len_ ->
  (forall i, (i <= len_)%nat ->
     m (ptr_add csz (StdStringPrinter.s_data vs) (Z.of_nat i))
     = m (ptr_add csz (StdStringPrinter.l_data vl) (Z.of_nat i))) ->
  StdStringPrinter.to_string m csz (StdStringPrinter.__init__ m csz tn vs)
  = StdStringPrinter.to_string m csz (StdStringPrinter.__init__ m csz tn vl)
  /\ StdStringPrinter.size (StdStringPrinter.__init__ m csz tn vs)
     = StdStringPrinter.size (StdStringPrinter.__init__ m csz tn vl).
Proof.
  intros Hshort Hlong Hs Hl Hsame.
  unfold StdStringPrinter.__init__, StdStringPrinter.figure_out.
  rewrite !land_short_mask, Hshort, Hlong. cbn [negb].
  rewrite Hs, Hl.
  assert (Haudit : StdStringPrinter.audit m csz (Z.of_nat len_)
                     (StdStringPrinter.s_data vs)
                   = StdStringPrinter.audit m csz (Z.of_nat len_)
                       (StdStringPrinter.l_data vl)).
  { unfold StdStringPrinter.audit, StdStringPrinter.last_char_ptr,
      StdStringPrinter.first_char_ptr, dereference.
    pose proof (Hsame 0%nat ltac:(lia)) as H0.
    unfold ptr_add in H0. simpl in H0. rewrite !Z.add_0_r in H0.
    rewrite H0, (Hsame len_ (le_n _)). reflexivity. }
  rewrite Haudit.
  destruct (StdStringPrinter.audit m csz (Z.of_nat len_)
              (StdStringPrinter.l_data vl)) as [hint| |];
    [|split; reflexivity|split; reflexivity].
  unfold StdStringPrinter.to_string.
  cbn [StdStringPrinter.size StdStringPrinter.ptr].
  rewrite (read_chars_ext m csz (Z.to_nat (Z.of_nat len_))
             (StdStringPrinter.s_data vs) (StdStringPrinter.l_data vl)).
  - split; reflexivity.
  - intros i Hi. apply Hsame. lia.
Qed.

Lemma string_short_long_agree_witness :
  StdStringPrinter.to_string Scenario.ab_memory 1
    (StdStringPrinter.__init__ Scenario.ab_memory 1 "std::basic_string"
       Scenario.short_ab)
  = StdStringPrinter.to_string Scenario.ab_memory 1
      (StdStringPrinter.__init__ Scenario.ab_memory 1 "std::basic_string"
         More.long_ab_only).
Proof.
  apply (string_short_long_agree Scenario.ab_memory 1 "std::basic_string"
           Scenario.short_ab More.long_ab_only 2).
  - reflexivity.
  - reflexivity.
  - reflexivity.
  - reflexivity.
  - intros [|[|[|i]]] Hi; [reflexivity | reflexivity | reflexivity | lia].
Defined.

(** ** Split buffers *)

Section SplitBufferWalk.

Variables (m : memory) (psz : Z).

(** The cursor produces the slots that begin before the end, one per
    call, whether or not the last of them fits before the end. *)
Lemma split_buffer_walk (b e : Z) (slots fuel : nat) :
  (forall i, (i < slots)%nat -> ptr_add psz b (Z.of_nat i) < e) ->
  e <= ptr_add psz b (Z.of_nat slots) ->
  (slots < fuel)%nat ->
  Py.list_ (StdSplitBufferPrinter.__next__ m psz) fuel
    (StdSplitBufferPrinter._children_at b e)
  = Ret (Expected.range_children m psz b slots, Expected.split_cursor psz b e slots).
Proof.
  intros Hin Hout Hfuel.
  assert (Hstart : StdSplitBufferPrinter._children_at b e
                   = Expected.split_cursor psz b e 0).
  { unfold StdSplitBufferPrinter._children_at, StdSplitBufferPrinter._iterator,
      Expected.split_cursor, ptr_add. f_equal. simpl. lia. }
  rewrite Hstart.
  apply (list_steps_fuel (StdSplitBufferPrinter.__next__ m psz)
           (Expected.split_cursor psz b e)
           (fun i => (label (Z.of_nat i),
                      GdbValue (dereference m (ptr_add psz b (Z.of_nat i)))))).
  - intros i Hi. specialize (Hin i Hi).
    unfold StdSplitBufferPrinter.__next__, StdSplitBufferPrinter.next_at,
      Expected.split_cursor.
    cbn [StdSplitBufferPrinter.ptr StdSplitBufferPrinter.c_end
         StdSplitBufferPrinter.count].
    destruct (Z.leb_spec e (ptr_add psz b (Z.of_nat i))); [lia|].
    cbn [Py.bind]. do 3 f_equal; unfold ptr_add; lia.
  - unfold StdSplitBufferPrinter.__next__, StdSplitBufferPrinter.next_at,
      Expected.split_cursor.
    cbn [StdSplitBufferPrinter.ptr StdSplitBufferPrinter.c_end
         StdSplitBufferPrinter.count].
    destruct (Z.leb_spec e (ptr_add psz b (Z.of_nat slots))); [|lia].
    reflexivity.
  - exact Hfuel.
Qed.

End SplitBufferWalk.

Lemma split_buffer_accepts (m : memory) (psz : Z) (fuel : nat)
  (b ec : Z) (n : nat) :
  0 < psz ->
  (n < fuel)%nat ->
  Z.of_nat n <= ptr_diff psz ec b ->
  StdSplitBufferPrinter.__init__ m psz fuel
    {| StdSplitBufferPrinter.__begin_ := b;
       StdSplitBufferPrinter.__end_ := ptr_add psz b (Z.of_nat n);
       StdSplitBufferPrinter.__end_cap_ := ec |}
  = Ret {| StdSplitBufferPrinter.begin := b;
           StdSplitBufferPrinter.end_ := ptr_add psz b (Z.of_nat n);
           StdSplitBufferPrinter.end_cap := ec;
           StdSplitBufferPrinter.size := Z.of_nat n;
           StdSplitBufferPrinter.capacity := ptr_diff psz ec b;
           StdSplitBufferPrinter.has_children := 0 <? Z.of_nat n |}.
Proof.
  intros Hpsz Hfuel Hcap.
  assert (Hd : ptr_diff psz (ptr_add psz b (Z.of_nat n)) b = Z.of_nat n).
  { unfold ptr_diff, ptr_add.
    replace (b + Z.of_nat n * psz - b) with (Z.of_nat n * psz) by lia.
    apply Z.quot_mul. lia. }
  unfold StdSplitBufferPrinter.__init__.
  cbn [StdSplitBufferPrinter.__begin_ StdSplitBufferPrinter.__end_
       StdSplitBufferPrinter.__end_cap_].
  rewrite Hd.
  destruct (Z.ltb_spec (ptr_diff psz ec b) (Z.of_nat n)); [lia|].
  destruct (Z.ltb_spec 0 (Z.of_nat n)); [|reflexivity].
  rewrite (split_buffer_walk m psz b _ n fuel);
    [| intros i Hi; unfold ptr_add; nia | lia | lia].
  unfold Expected.range_children, len.
  rewrite length_map, length_seq, Z.eqb_refl. reflexivity.
Qed.

(** A split buffer whose end lies a whole number [n] of slots past its
    begin, within its capacity, is accepted with size [n], and its children
    are its [n] slots in order; one whose end lies inside a further slot
    counts one slot more than its size and is rejected, with size and
    capacity -1 and summary "invalid"; so is one whose size exceeds its
    capacity. *)
Theorem split_buffer_cases (m : memory) (psz : Z) (fuel : nat)
  (b ec : Z) (n : nat) :
  0 < psz ->
  (S n < fuel)%nat ->
  let cap := ptr_diff psz ec b in
  (Z.of_nat n <= cap ->
   exists p,
     StdSplitBufferPrinter.__init__ m psz fuel
       {| StdSplitBufferPrinter.__begin_ := b;
          StdSplitBufferPrinter.__end_ := ptr_add psz b (Z.of_nat n);
          StdSplitBufferPrinter.__end_cap_ := ec |} = Ret p
     /\ StdSplitBufferPrinter.size p = Z.of_nat n
     /\ StdSplitBufferPrinter.capacity p = cap
     /\ StdSplitBufferPrinter.has_children p = (0 <? Z.of_nat n)
     /\ exists c',
          Py.list_ (StdSplitBufferPrinter.__next__ m psz) fuel
            (StdSplitBufferPrinter._children p)
          = Ret (Expected.range_children m psz b n, c'))
  /\ (forall r, 0 < r < psz -> (0 < n)%nat -> Z.of_nat n <= cap ->
      exists p,
        StdSplitBufferPrinter.__init__ m psz fuel
          {| StdSplitBufferPrinter.__begin_ := b;
             StdSplitBufferPrinter.__end_ := ptr_add psz b (Z.of_nat n) + r;
             StdSplitBufferPrinter.__end_cap_ := ec |} = Ret p
        /\ StdSplitBufferPrinter.size p = -1
        /\ StdSplitBufferPrinter.capacity p = -1
        /\ StdSplitBufferPrinter.to_string p = "invalid"
        /\ StdSplitBufferPrinter.children p = None)
  /\ (forall e, cap < ptr_diff psz e b ->
      exists p,
        StdSplitBufferPrinter.__init__ m psz fuel
          {| StdSplitBufferPrinter.__begin_ := b;
             StdSplitBufferPrinter.__end_ := e;
             StdSplitBufferPrinter.__end_cap_ := ec |} = Ret p
        /\ StdSplitBufferPrinter.size p = -1
        /\ StdSplitBufferPrinter.capacity p = -1
        /\ StdSplitBufferPrinter.to_string p = "invalid"
        /\ StdSplitBufferPrinter.children p = None).
Proof.
  intros Hpsz Hfuel cap.
  assert (Hd : ptr_diff psz (ptr_add psz b (Z.of_nat n)) b = Z.of_nat n).
  { unfold ptr_diff, ptr_add.
    replace (b + Z.of_nat n * psz - b) with (Z.of_nat n * psz) by lia.
    apply Z.quot_mul. lia. }
  split; [|split].
  - intros Hcap.
    unfold StdSplitBufferPrinter.__init__.
    cbn [StdSplitBufferPrinter.__begin_ StdSplitBufferPrinter.__end_
         StdSplitBufferPrinter.__end_cap_].
    rewrite Hd. fold cap.
    destruct (Z.ltb_spec cap (Z.of_nat n)); [lia|].
    assert (Hwalk :
      Py.list_ (StdSplitBufferPrinter.__next__ m psz) fuel
        (StdSplitBufferPrinter._children_at b (ptr_add psz b (Z.of_nat n)))
      = Ret (Expected.range_children m psz b n,
             Expected.split_cursor psz b (ptr_add psz b (Z.of_nat n)) n)).
    { apply split_buffer_walk; [intros i Hi; unfold ptr_add; nia | lia | lia]. }
    rewrite Hwalk.
    destruct (Z.ltb_spec 0 (Z.of_nat n)).
    + unfold Expected.range_children at 1, len.
      rewrite length_map, length_seq, Z.eqb_refl. cbn [negb].
      eexists. split; [reflexivity|].
      repeat split. eexists. exact Hwalk.
    + eexists. split; [reflexivity|].
      repeat split. eexists. exact Hwalk.
  - intros r Hr Hn Hcap.
    unfold StdSplitBufferPrinter.__init__.
    cbn [StdSplitBufferPrinter.__begin_ StdSplitBufferPrinter.__end_
         StdSplitBufferPrinter.__end_cap_].
    assert (Hd' : ptr_diff psz (ptr_add psz b (Z.of_nat n) + r) b = Z.of_nat n).
    { unfold ptr_diff, ptr_add.
      replace (b + Z.of_nat n * psz + r - b) with (r + Z.of_nat n * psz) by lia.
      rewrite Z.quot_add by lia. rewrite Z.quot_small by lia. lia. }
    rewrite Hd'. fold cap.
    destruct (Z.ltb_spec cap (Z.of_nat n)); [lia|].
    destruct (Z.ltb_spec 0 (Z.of_nat n)); [|lia].
    rewrite (split_buffer_walk m psz b _ (S n) fuel);
      [| intros i Hi; unfold ptr_add; nia | unfold ptr_add; nia | lia].
    unfold Expected.range_children, len.
    rewrite length_map, length_seq.
    destruct (Z.eqb_spec (Z.of_nat n) (Z.of_nat (S n))); [lia|].
    cbn [negb]. eexists. split; [reflexivity|]. repeat split.
  - intros e He.
    unfold StdSplitBufferPrinter.__init__.
    cbn [StdSplitBufferPrinter.__begin_ StdSplitBufferPrinter.__end_
         StdSplitBufferPrinter.__end_cap_].
    fold cap. destruct (Z.ltb_spec cap (ptr_diff psz e b)); [|lia].
    cbn. eexists. split; [reflexivity|]. repeat split.
Qed.

Lemma split_buffer_cases_witness :
  (exists p,
     StdSplitBufferPrinter.__init__ Scenario.two_blocks_memory 8 5 More.map_of_two
     = Ret p
     /\ StdSplitBufferPrinter.size p = 2
     /\ StdSplitBufferPrinter.capacity p = 4)
  /\ (exists p,
     StdSplitBufferPrinter.__init__ Scenario.two_blocks_memory 8 5 More.ragged_map
     = Ret p
     /\ StdSplitBufferPrinter.to_string p = "invalid").
Proof.
  pose proof (split_buffer_cases Scenario.two_blocks_memory 8 5 1000 1032 2
                ltac:(lia) ltac:(lia)) as (Hok & Hragged & _).
  split.
  - destruct (Hok ltac:(vm_compute; discriminate)) as (p & Hp & Hs & Hc & _).
    exists p. repeat split; assumption.
  - destruct (Hragged 4 ltac:(lia) ltac:(lia) ltac:(vm_compute; discriminate))
      as (p & Hp & _ & _ & Hi & _).
    exists p. split; assumption.
Defined.

(** ** Deques: what is accepted and what is not *)

Lemma split_buffer_init_returns (m : memory) (psz : Z) (fuel : nat)
  (val : StdSplitBufferPrinter.split_buffer) :
  0 < psz ->
  Z.max 0 (StdSplitBufferPrinter.__end_ val - StdSplitBufferPrinter.__begin_ val)
  < Z.of_nat fuel ->
  exists blocks, StdSplitBufferPrinter.__init__ m psz fuel val = Ret blocks.
Proof.
  intros Hpsz Hfuel. unfold StdSplitBufferPrinter.__init__.
  destruct (split_buffer_list_bounded m psz Hpsz fuel
              (StdSplitBufferPrinter._children_at
                 (StdSplitBufferPrinter.__begin_ val)
                 (StdSplitBufferPrinter.__end_ val)))
    as [[es cz] Hr]; [exact Hfuel|].
  rewrite Hr.
  destruct (_ <? _); destruct (0 <? _); eauto; destruct (negb _); eauto.
Qed.

(** A deque whose stored size is 0 (an empty deque) or negative, or whose
    start offset is not below the block size, or whose block map has no
    slots, is rejected by the constructor: size -1, summary "invalid", no
    [children].  In particular an empty deque is not shown as "empty". *)
Theorem deque_rejects (m : memory) (psz esz : Z) (fuel : nat) (tn : string)
  (val : StdDequePrinter.deque) :
  0 < psz ->
  Z.max 0 (StdSplitBufferPrinter.__end_ (StdDequePrinter.__map_ val)
           - StdSplitBufferPrinter.__begin_ (StdDequePrinter.__map_ val))
  < Z.of_nat fuel ->
  StdDequePrinter.__size_ val <= 0
  \/ StdDequePrinter.__block_size val <= StdDequePrinter.__start_ val
  \/ StdSplitBufferPrinter.__end_ (StdDequePrinter.__map_ val)
     <= StdSplitBufferPrinter.__begin_ (StdDequePrinter.__map_ val) ->
  exists p,
    StdDequePrinter.__init__ m psz esz fuel tn val = Ret p
    /\ StdDequePrinter.size p = -1
    /\ StdDequePrinter.to_string p = "invalid"
    /\ StdDequePrinter.to_string p <> "empty"
    /\ StdDequePrinter.children p = None.
Proof.
  intros Hpsz Hfuel Hbad.
  destruct (split_buffer_init_returns m psz fuel (StdDequePrinter.__map_ val)
              Hpsz Hfuel) as [blocks Hblocks].
  unfold StdDequePrinter.__init__. rewrite Hblocks. cbn [Py.bind].
  assert (Hguard :
    (0 <? StdDequePrinter.__size_ val)
    && (StdDequePrinter.__start_ val <? StdDequePrinter.__block_size val)
    && StdSplitBufferPrinter.has_children blocks
    && (StdDequePrinter.__size_ val
        <=? StdSplitBufferPrinter.size blocks * StdDequePrinter.__block_size val)
    = false).
  { destruct Hbad as [Hs | [Hst | Hmap]].
    - destruct (Z.ltb_spec 0 (StdDequePrinter.__size_ val)); [lia|]. reflexivity.
    - destruct (Z.ltb_spec (StdDequePrinter.__start_ val)
                  (StdDequePrinter.__block_size val)); [lia|].
      rewrite andb_false_r. reflexivity.
    - assert (Hch : StdSplitBufferPrinter.has_children blocks = false).
      { revert Hblocks. unfold StdSplitBufferPrinter.__init__.
        assert (Hq : ptr_diff psz (StdSplitBufferPrinter.__end_ (StdDequePrinter.__map_ val))
                       (StdSplitBufferPrinter.__begin_ (StdDequePrinter.__map_ val)) <= 0).
        { unfold ptr_diff. apply Z.quot_le_upper_bound; lia. }
        destruct (_ <? _).
        - cbn. intros Hi; inversion Hi; reflexivity.
        - destruct (Z.ltb_spec 0 (ptr_diff psz
                      (StdSplitBufferPrinter.__end_ (StdDequePrinter.__map_ val))
                      (StdSplitBufferPrinter.__begin_ (StdDequePrinter.__map_ val))));
            [lia|].
          intros Hi; inversion Hi; reflexivity. }
      rewrite Hch, andb_false_r. reflexivity. }
  rewrite Hguard. eexists. split; [reflexivity|].
  repeat split; discriminate.
Qed.

Lemma deque_rejects_witness :
  exists p,
    StdDequePrinter.__init__ Scenario.two_blocks_memory 8 4 20 "std::deque"
      (Expected.deque_over 8 4 1000 1016 2 0 0) = Ret p
    /\ StdDequePrinter.size p = -1
    /\ StdDequePrinter.to_string p = "invalid"
    /\ StdDequePrinter.to_string p <> "empty"
    /\ StdDequePrinter.children p = None.
Proof.
  apply (deque_rejects Scenario.two_blocks_memory 8 4 20 "std::deque"
           (Expected.deque_over 8 4 1000 1016 2 0 0)).
  - lia.
  - reflexivity.
  - left. discriminate.
Defined.

Section DequeWalk.

Variables (m : memory) (psz esz : Z).
Variables (bs mb : Z) (nb : nat) (blk : Z -> Z) (st sz : Z).
Hypothesis psz_pos : 0 < psz.
Hypothesis st_range : 0 <= st < bs.
Hypothesis laid_out : Expected.block_map m psz mb nb blk.

Let c0 : StdDequePrinter.cursor :=
  StdDequePrinter._iterator sz bs st mb (ptr_add psz mb (Z.of_nat nb)).

(** Inside the map, a call yields the element that the index law names. *)
Lemma deque_walk_yield (i : nat) :
  Z.of_nat i < sz ->
  (st + Z.of_nat i) / bs < Z.of_nat nb ->
  StdDequePrinter.__next__ m psz esz (Shape.deque_cursor c0 (Z.of_nat i))
  = Ret (Some (label (Z.of_nat i),
               GdbValue (dereference m
                           (ptr_add esz (blk ((st + Z.of_nat i) / bs))
                              ((st + Z.of_nat i) mod bs)))),
         Shape.deque_cursor c0 (Z.of_nat (S i))).
Proof.
  intros Hi Hq.
  unfold StdDequePrinter.__next__, Shape.deque_cursor, c0,
    StdDequePrinter._iterator, gdb_div, gdb_rem.
  cbn [StdDequePrinter.count StdDequePrinter.c_size StdDequePrinter.c_block_size
       StdDequePrinter.c_start StdDequePrinter.map_begin StdDequePrinter.map_end].
  destruct (Z.leb_spec sz (Z.of_nat i)); [lia|].
  destruct (Z.ltb_spec bs st); [lia|].
  destruct (Z.eqb_spec bs 0); [lia|].
  cbn [Py.bind].
  rewrite Z.quot_div_nonneg, Z.rem_mod_nonneg by lia.
  assert (Hq0 : 0 <= (st + Z.of_nat i) / bs) by (apply Z.div_pos; lia).
  destruct (Z.leb_spec (ptr_add psz mb (Z.of_nat nb))
              (ptr_add psz mb ((st + Z.of_nat i) / bs)));
    [unfold ptr_add in *; nia|].
  destruct (laid_out ((st + Z.of_nat i) / bs) ltac:(lia)) as [Hslot _].
  unfold dereference at 1. rewrite Hslot. cbn [Py.bind fetch].
  do 3 f_equal. lia.
Qed.

(** Past the stored size, or past the end of the map, a call stops. *)
Lemma deque_walk_stop (i : nat) :
  Z.of_nat i = sz \/ Z.of_nat nb <= (st + Z.of_nat i) / bs ->
  StdDequePrinter.__next__ m psz esz (Shape.deque_cursor c0 (Z.of_nat i))
  = Ret (None, Shape.deque_cursor c0 (Z.of_nat i)).
Proof.
  intros Hstop.
  unfold StdDequePrinter.__next__, Shape.deque_cursor, c0,
    StdDequePrinter._iterator, gdb_div, gdb_rem.
  cbn [StdDequePrinter.count StdDequePrinter.c_size StdDequePrinter.c_block_size
       StdDequePrinter.c_start StdDequePrinter.map_begin StdDequePrinter.map_end].
  destruct (Z.leb_spec sz (Z.of_nat i)); [reflexivity|].
  destruct (Z.ltb_spec bs st); [lia|].
  destruct (Z.eqb_spec bs 0); [lia|].
  cbn [Py.bind].
  rewrite Z.quot_div_nonneg by lia.
  destruct (Z.leb_spec (ptr_add psz mb (Z.of_nat nb))
              (ptr_add psz mb ((st + Z.of_nat i) / bs))); [reflexivity|].
  unfold ptr_add in *. nia.
Qed.

(** The cursor produces [n] elements when it then stops. *)
Lemma deque_walk (n fuel : nat) :
  Z.of_nat n <= sz ->
  (st + Z.of_nat n - 1) / bs < Z.of_nat nb ->
  Z.of_nat n = sz \/ Z.of_nat nb <= (st + Z.of_nat n) / bs ->
  (n < fuel)%nat ->
  Py.list_ (StdDequePrinter.__next__ m psz esz) fuel c0
  = Ret (Expected.deque_children m esz bs st blk n,
         Shape.deque_cursor c0 (Z.of_nat n)).
Proof.
  intros Hn Hlast Hstop Hfuel.
  change c0 with (Shape.deque_cursor c0 (Z.of_nat 0)).
  apply (list_steps_fuel (StdDequePrinter.__next__ m psz esz)
           (fun i => Shape.deque_cursor c0 (Z.of_nat i))
           (fun i => (label (Z.of_nat i),
                      GdbValue (dereference m
                                  (ptr_add esz (blk ((st + Z.of_nat i) / bs))
                                     ((st + Z.of_nat i) mod bs)))))).
  - intros i Hi. apply deque_walk_yield; [lia|].
    eapply Z.le_lt_trans; [|exact Hlast].
    apply Z.div_le_mono; lia.
  - apply deque_walk_stop. exact Hstop.
  - exact Hfuel.
Qed.

(** The litmus loop reads every block pointer and the first object of
    every block, and passes. *)
Lemma litmus_passes (fuel : nat) :
  forall i : nat,
    (i <= nb)%nat -> (nb - i < fuel)%nat ->
    StdDequePrinter.litmus m psz fuel
      (Expected.split_cursor psz mb (ptr_add psz mb (Z.of_nat nb)) i)
    = Ret tt.
Proof.
  induction fuel as [|fuel IH]; intros i Hi Hfuel; [lia|].
  cbn [StdDequePrinter.litmus].
  unfold StdSplitBufferPrinter.next_at, Expected.split_cursor.
  cbn [StdSplitBufferPrinter.ptr StdSplitBufferPrinter.c_end
       StdSplitBufferPrinter.count].
  destruct (Z.leb_spec (ptr_add psz mb (Z.of_nat nb)) (ptr_add psz mb (Z.of_nat i)))
    as [Hend|Hin]; cbn [Py.bind]; [reflexivity|].
  assert (Hlt : (i < nb)%nat) by (unfold ptr_add in Hin; nia).
  destruct (laid_out (Z.of_nat i) ltac:(lia)) as [Hslot [x Hx]].
  unfold dereference. rewrite Hslot. cbn [Py.bind fetch]. rewrite Hx.
  cbn [Py.bind fetch].
  specialize (IH (S i) ltac:(lia) ltac:(lia)).
  unfold Expected.split_cursor in IH.
  replace (ptr_add psz (ptr_add psz mb (Z.of_nat i)) 1)
    with (ptr_add psz mb (Z.of_nat (S i))) by (unfold ptr_add; lia).
  replace (Z.of_nat i + 1) with (Z.of_nat (S i)) by lia.
  exact IH.
Qed.

End DequeWalk.

Lemma split_cursor_start (psz b e : Z) :
  StdSplitBufferPrinter._children_at b e = Expected.split_cursor psz b e 0.
Proof.
  unfold StdSplitBufferPrinter._children_at, StdSplitBufferPrinter._iterator,
    Expected.split_cursor, ptr_add. f_equal. simpl. lia.
Qed.

(** A deque laid out over a block map of [nb] whole slots, with a start
    offset below the block size and [n > 0] elements that fit in the mapped
    blocks ([start + n <= nb * block_size]), is accepted: the summary gives
    its length and its capacity (map capacity times block size), and its
    children are its [n] elements in logical order. *)
Theorem deque_accepts (m : memory) (psz esz : Z) (fuel : nat) (tn : string)
  (bs mb ec : Z) (nb : nat) (blk : Z -> Z) (st : Z) (n : nat) :
  0 < psz ->
  0 <= st < bs ->
  Expected.block_map m psz mb nb blk ->
  (0 < n)%nat ->
  st + Z.of_nat n <= Z.of_nat nb * bs ->
  Z.of_nat nb <= ptr_diff psz ec mb ->
  (n < fuel)%nat -> (nb < fuel)%nat ->
  let cap := ptr_diff psz ec mb * bs in
  exists p,
    StdDequePrinter.__init__ m psz esz fuel tn
      (Expected.deque_over psz bs mb ec nb st (Z.of_nat n)) = Ret p
    /\ StdDequePrinter.size p = Z.of_nat n
    /\ StdDequePrinter.capacity p = cap
    /\ StdDequePrinter.to_string p
       = (tn ++ " (length=" ++ fmt_d (Z.of_nat n) ++ ", capacity="
          ++ fmt_d cap ++ ")")%string
    /\ elements (H := deque_printer m psz esz) fuel p
       = Some (Ret (Expected.deque_children m esz bs st blk n)).
Proof.
  intros Hpsz Hst Hmap Hn Hfit Hcap Hfn Hfb cap.
  assert (Hnb : (0 < nb)%nat) by nia.
  unfold StdDequePrinter.__init__, Expected.deque_over.
  cbn [StdDequePrinter.__map_ StdDequePrinter.__block_size
       StdDequePrinter.__start_ StdDequePrinter.__size_].
  rewrite (split_buffer_accepts m psz fuel mb ec nb Hpsz Hfb Hcap).
  cbn [Py.bind StdSplitBufferPrinter.has_children StdSplitBufferPrinter.capacity
       StdSplitBufferPrinter.size StdSplitBufferPrinter._children
       StdSplitBufferPrinter.begin StdSplitBufferPrinter.end_].
  destruct (Z.ltb_spec 0 (Z.of_nat n)); [|lia].
  destruct (Z.ltb_spec st bs); [|lia].
  destruct (Z.ltb_spec 0 (Z.of_nat nb)); [|lia].
  destruct (Z.leb_spec (Z.of_nat n) (Z.of_nat nb * bs)); [|lia].
  cbn [andb].
  unfold StdSplitBufferPrinter._children.
  cbn [StdSplitBufferPrinter.begin StdSplitBufferPrinter.end_].
  rewrite (split_cursor_start psz).
  rewrite (litmus_passes m psz mb nb blk Hpsz Hmap fuel 0) by lia.
  cbn [Py.bind].
  assert (Hwalk :
    Py.list_ (StdDequePrinter.__next__ m psz esz) fuel
      (StdDequePrinter._iterator (Z.of_nat n) bs st mb (ptr_add psz mb (Z.of_nat nb)))
    = Ret (Expected.deque_children m esz bs st blk n,
           Shape.deque_cursor
             (StdDequePrinter._iterator (Z.of_nat n) bs st mb
                (ptr_add psz mb (Z.of_nat nb))) (Z.of_nat n))).
  { apply (deque_walk m psz esz bs mb nb blk st (Z.of_nat n) Hpsz Hst Hmap n fuel).
    - lia.
    - apply Z.div_lt_upper_bound; lia.
    - left. reflexivity.
    - exact Hfn. }
  unfold StdDequePrinter._children_at.
  cbn [StdSplitBufferPrinter.begin StdSplitBufferPrinter.end_].
  rewrite Hwalk. cbn [Py.bind fst].
  assert (Hlen : len (Expected.deque_children m esz bs st blk n) = Z.of_nat n).
  { unfold len, Expected.deque_children. rewrite length_map, length_seq. reflexivity. }
  rewrite Hlen, Z.eqb_refl. cbn [negb].
  eexists. split; [reflexivity|].
  split; [reflexivity|]. split; [reflexivity|]. split.
  - unfold StdDequePrinter.to_string.
    cbn [StdDequePrinter.size StdDequePrinter.typename StdDequePrinter.capacity].
    destruct (Z.eqb_spec (Z.of_nat n) 0); [lia|].
    destruct (Z.ltb_spec 0 (Z.of_nat n)); [|lia]. reflexivity.
  - unfold elements, pp_children, pp_next, cursor_of, deque_printer.
    unfold StdDequePrinter.children, StdDequePrinter._children,
      StdDequePrinter._children_at.
    cbn [StdDequePrinter.has_children StdDequePrinter.size
         StdDequePrinter.block_size StdDequePrinter.start StdDequePrinter.blocks
         StdSplitBufferPrinter.begin StdSplitBufferPrinter.end_].
    rewrite Hwalk. reflexivity.
Qed.

Lemma two_blocks_laid_out :
  Expected.block_map Scenario.two_blocks_memory 8 1000 2 More.two_blocks.
Proof.
  intros j Hj. assert (Hc : j = 0 \/ j = 1) by lia.
  destruct Hc as [-> | ->]; (split; [reflexivity | eexists; reflexivity]).
Defined.

Lemma deque_accepts_witness :
  exists p,
    StdDequePrinter.__init__ Scenario.two_blocks_memory 8 4 8 "std::deque"
      (Expected.deque_over 8 4 1000 1016 2 1 5) = Ret p
    /\ StdDequePrinter.size p = 5
    /\ StdDequePrinter.capacity p = 8
    /\ StdDequePrinter.to_string p = "std::deque (length=5, capacity=8)"
    /\ elements (H := deque_printer Scenario.two_blocks_memory 8 4) 8 p
       = Some (Ret (Expected.deque_children Scenario.two_blocks_memory 4 4 1
                      More.two_blocks 5)).
Proof.
  apply (deque_accepts Scenario.two_blocks_memory 8 4 8 "std::deque"
           4 1000 1016 2 More.two_blocks 1 5).
  - lia.
  - lia.
  - exact two_blocks_laid_out.
  - lia.
  - lia.
  - vm_compute. discriminate.
  - lia.
  - lia.
Defined.

(** When the stored size fits the map ([n <= nb * block_size]) but the
    elements, counted from the start offset, run past the last block
    ([start + n > nb * block_size]), the cursor stops at the end of the map
    without raising, the count falls short of the stored size, and the
    constructor rejects the deque: size -1, summary "invalid", no
    [children]. *)
Theorem deque_overrun_rejected (m : memory) (psz esz : Z) (fuel : nat)
  (tn : string) (bs mb ec : Z) (nb : nat) (blk : Z -> Z) (st : Z) (n : nat) :
  0 < psz ->
  0 <= st < bs ->
  Expected.block_map m psz mb nb blk ->
  (0 < nb)%nat ->
  Z.of_nat n <= Z.of_nat nb * bs ->
  Z.of_nat nb * bs < st + Z.of_nat n ->
  Z.of_nat nb <= ptr_diff psz ec mb ->
  (n < fuel)%nat -> (nb < fuel)%nat ->
  exists p,
    StdDequePrinter.__init__ m psz esz fuel tn
      (Expected.deque_over psz bs mb ec nb st (Z.of_nat n)) = Ret p
    /\ StdDequePrinter.size p = -1
    /\ StdDequePrinter.to_string p = "invalid"
    /\ StdDequePrinter.children p = None.
Proof.
  intros Hpsz Hst Hmap Hnb Hfit Hover Hcap Hfn Hfb.
  unfold StdDequePrinter.__init__, Expected.deque_over.
  cbn [StdDequePrinter.__map_ StdDequePrinter.__block_size
       StdDequePrinter.__start_ StdDequePrinter.__size_].
  rewrite (split_buffer_accepts m psz fuel mb ec nb Hpsz Hfb Hcap).
  cbn [Py.bind StdSplitBufferPrinter.has_children StdSplitBufferPrinter.capacity
       StdSplitBufferPrinter.size StdSplitBufferPrinter._children
       StdSplitBufferPrinter.begin StdSplitBufferPrinter.end_].
  destruct (Z.ltb_spec 0 (Z.of_nat n)); [|nia].
  destruct (Z.ltb_spec st bs); [|lia].
  destruct (Z.ltb_spec 0 (Z.of_nat nb)); [|lia].
  destruct (Z.leb_spec (Z.of_nat n) (Z.of_nat nb * bs)); [|lia].
  cbn [andb].
  unfold StdSplitBufferPrinter._children.
  cbn [StdSplitBufferPrinter.begin StdSplitBufferPrinter.end_].
  rewrite (split_cursor_start psz).
  rewrite (litmus_passes m psz mb nb blk Hpsz Hmap fuel 0) by lia.
  cbn [Py.bind].
  set (k := Z.to_nat (Z.of_nat nb * bs - st)).
  assert (Hk : Z.of_nat k = Z.of_nat nb * bs - st) by (subst k; nia).
  assert (Hwalk :
    Py.list_ (StdDequePrinter.__next__ m psz esz) fuel
      (StdDequePrinter._iterator (Z.of_nat n) bs st mb (ptr_add psz mb (Z.of_nat nb)))
    = Ret (Expected.deque_children m esz bs st blk k,
           Shape.deque_cursor
             (StdDequePrinter._iterator (Z.of_nat n) bs st mb
                (ptr_add psz mb (Z.of_nat nb))) (Z.of_nat k))).
  { apply (deque_walk m psz esz bs mb nb blk st (Z.of_nat n) Hpsz Hst Hmap k fuel).
    - lia.
    - apply Z.div_lt_upper_bound; lia.
    - right. rewrite Hk.
      replace (st + (Z.of_nat nb * bs - st)) with (Z.of_nat nb * bs) by lia.
      rewrite Z.div_mul by lia. lia.
    - lia. }
  unfold StdDequePrinter._children_at.
  cbn [StdSplitBufferPrinter.begin StdSplitBufferPrinter.end_].
  rewrite Hwalk. cbn [Py.bind fst].
  assert (Hlen : len (Expected.deque_children m esz bs st blk k) = Z.of_nat k).
  { unfold len, Expected.deque_children. rewrite length_map, length_seq. reflexivity. }
  rewrite Hlen.
  destruct (Z.eqb_spec (Z.of_nat n) (Z.of_nat k)); [lia|].
  cbn [negb]. eexists. split; [reflexivity|]. repeat split.
Qed.

Lemma deque_overrun_rejected_witness :
  exists p,
    StdDequePrinter.__init__ Scenario.two_blocks_memory 8 4 8 "std::deque"
      (Expected.deque_over 8 4 1000 1016 2 3 6) = Ret p
    /\ StdDequePrinter.size p = -1
    /\ StdDequePrinter.to_string p = "invalid"
    /\ StdDequePrinter.children p = None.
Proof.
  apply (deque_overrun_rejected Scenario.two_blocks_memory 8 4 8 "std::deque"
           4 1000 1016 2 More.two_blocks 3 6).
  - lia.
  - lia.
  - exact two_blocks_laid_out.
  - lia.
  - lia.
  - lia.
  - vm_compute. discriminate.
  - lia.
  - lia.
Defined.

(** ** Forward lists *)

Section ForwardListWalk.

Variables (m : memory) (L : StdForwardListPrinter.node_layout).

Lemma forward_list_next_node (n c : Z) :
  n <> 0 ->
  StdForwardListPrinter.__next__ m L
    {| StdForwardListPrinter.node := Some n; StdForwardListPrinter.count := c |}
  = Ret (Some (label c, GdbValue (m (n + StdForwardListPrinter.off_value L))),
         {| StdForwardListPrinter.node := m (n + StdForwardListPrinter.off_next L);
            StdForwardListPrinter.count := c + 1 |}).
Proof.
  intros Hn. unfold StdForwardListPrinter.__next__.
  cbn [StdForwardListPrinter.node StdForwardListPrinter.count fetch Py.bind].
  destruct (Z.eqb_spec n 0); [contradiction|]. reflexivity.
Qed.

Lemma forward_list_next_null (c : Z) :
  StdForwardListPrinter.__next__ m L
    {| StdForwardListPrinter.node := Some 0; StdForwardListPrinter.count := c |}
  = Ret (None,
         {| StdForwardListPrinter.node := Some 0; StdForwardListPrinter.count := c |}).
Proof. reflexivity. Qed.

Lemma forward_list_next_unreadable (c : Z) :
  StdForwardListPrinter.__next__ m L
    {| StdForwardListPrinter.node := None; StdForwardListPrinter.count := c |}
  = Raise.
Proof. reflexivity. Qed.

(** A null-terminated chain is walked to its end. *)
Lemma forward_list_walk (nodes : list Z) :
  forall n c,
    Expected.linked m (StdForwardListPrinter.off_next L) n nodes 0 ->
    Forall (fun a => a <> 0) nodes ->
    exists stop,
      Py.list_ (StdForwardListPrinter.__next__ m L) (S (List.length nodes))
        {| StdForwardListPrinter.node := Some n; StdForwardListPrinter.count := c |}
      = Ret (Expected.node_children_from m (StdForwardListPrinter.off_value L) c nodes,
             stop).
Proof.
  induction nodes as [|a rest IH]; intros n c Hlink Hnz; rewrite list_unfold.
  - simpl in Hlink. subst n. rewrite forward_list_next_null. cbn. eauto.
  - destruct Hlink as (-> & n' & Hnext & Hlink).
    inversion Hnz as [|? ? Ha Hrest]; subst.
    rewrite (forward_list_next_node a c Ha), Hnext.
    destruct (IH n' (c + 1) Hlink Hrest) as [stop Hrun].
    cbn [List.length]. rewrite Hrun. eexists. reflexivity.
Qed.

(** A chain that ends in a node with an unreadable link makes [list]
    raise. *)
Lemma forward_list_walk_raises (a : Z) (nodes : list Z) :
  a <> 0 ->
  m (a + StdForwardListPrinter.off_next L) = None ->
  forall n c f,
    Expected.linked m (StdForwardListPrinter.off_next L) n nodes a ->
    Forall (fun x => x <> 0) nodes ->
    (S (List.length nodes) < f)%nat ->
    Py.list_ (StdForwardListPrinter.__next__ m L) f
      {| StdForwardListPrinter.node := Some n; StdForwardListPrinter.count := c |}
    = Raise.
Proof.
  intros Ha Hnone.
  induction nodes as [|x rest IH]; intros n c f Hl Hz Hf.
  - simpl in Hl. subst n.
    destruct f as [|[|f]]; [simpl in Hf; lia | simpl in Hf; lia |].
    rewrite list_unfold, (forward_list_next_node a c Ha), Hnone.
    rewrite list_unfold, forward_list_next_unreadable. reflexivity.
  - destruct Hl as (-> & n' & Hnext & Hl).
    inversion Hz as [|? ? Hx Hrest]; subst.
    destruct f as [|f]; [lia|].
    rewrite list_unfold, (forward_list_next_node x c Hx), Hnext.
    rewrite (IH n' (c + 1) f Hl Hrest); [reflexivity|]. simpl in Hf. lia.
Qed.

(** A chain that never reaches null keeps the cursor yielding. *)
Lemma forward_list_endless (P : Z -> Prop) :
  (forall n, P n -> n <> 0 /\ exists n',
      m (n + StdForwardListPrinter.off_next L) = Some n' /\ P n') ->
  forall fuel n c,
    P n ->
    Py.list_ (StdForwardListPrinter.__next__ m L) fuel
      {| StdForwardListPrinter.node := Some n; StdForwardListPrinter.count := c |}
    = Hang.
Proof.
  intros Hclosed. induction fuel as [|fuel IH]; intros n c Hn; [reflexivity|].
  destruct (Hclosed n Hn) as (Hnz & n' & Hnext & Hn').
  rewrite list_unfold, (forward_list_next_node n c Hnz), Hnext.
  rewrite (IH n' (c + 1) Hn'). reflexivity.
Qed.

End ForwardListWalk.

Lemma node_children_from_length m off i nodes :
  List.length (Expected.node_children_from m off i nodes) = List.length nodes.
Proof.
  revert i. induction nodes as [|a rest IH]; intros i; [reflexivity|].
  simpl. rewrite IH. reflexivity.
Qed.

(** A forward list whose nodes are linked from the head to a null link is
    shown with as many children as it has nodes, the node values in chain
    order; its summary is "empty" without nodes and the type name with the
    node count otherwise; only a non-empty list gets a [children] method. *)
Theorem forward_list_chain (m : memory) (L : StdForwardListPrinter.node_layout)
  (fuel : nat) (tn : string) (val : StdForwardListPrinter.forward_list)
  (nodes : list Z) :
  Expected.linked m (StdForwardListPrinter.off_next L)
    (StdForwardListPrinter.before_begin_next val) nodes 0 ->
  Forall (fun a => a <> 0) nodes ->
  (List.length nodes < fuel)%nat ->
  exists p,
    StdForwardListPrinter.__init__ m L fuel tn val = Ret p
    /\ StdForwardListPrinter.size p = len nodes
    /\ StdForwardListPrinter.to_string p
       = (if 0 <? len nodes
          then (tn ++ " (length=" ++ fmt_d (len nodes) ++ ")")%string
          else "empty")
    /\ (0 < len nodes ->
        elements (H := forward_list_printer m L) fuel p
        = Some (Ret (Expected.node_children m
                       (StdForwardListPrinter.off_value L) nodes)))
    /\ (len nodes = 0 -> StdForwardListPrinter.children p = None).
Proof.
  intros Hlink Hnz Hfuel.
  destruct (forward_list_walk m L nodes _ 0 Hlink Hnz) as [stop Hrun].
  apply (list_fuel_mono _ _ fuel) in Hrun; [|lia].
  unfold StdForwardListPrinter.__init__.
  unfold StdForwardListPrinter._iterator. rewrite Hrun.
  assert (Hlen : len (Expected.node_children_from m
                        (StdForwardListPrinter.off_value L) 0 nodes) = len nodes).
  { unfold len. rewrite node_children_from_length. reflexivity. }
  rewrite Hlen.
  eexists. split; [reflexivity|]. split; [reflexivity|]. split; [|split].
  - unfold StdForwardListPrinter.to_string.
    cbn [StdForwardListPrinter.size StdForwardListPrinter.typename].
    destruct (Z.eqb_spec (len nodes) 0) as [Hz|Hz].
    + rewrite Hz. reflexivity.
    + destruct (Z.ltb_spec 0 (len nodes)); [reflexivity|]. unfold len in *. lia.
  - intros Hpos.
    unfold elements, pp_children, pp_next, cursor_of, forward_list_printer.
    unfold StdForwardListPrinter.children, StdForwardListPrinter._children,
      StdForwardListPrinter._iterator.
    cbn [StdForwardListPrinter.has_children StdForwardListPrinter.head].
    destruct (Z.ltb_spec 0 (len nodes)); [|lia].
    rewrite Hrun. reflexivity.
  - intros Hz. unfold StdForwardListPrinter.children.
    cbn [StdForwardListPrinter.has_children]. rewrite Hz. reflexivity.
Qed.

Lemma forward_list_chain_witness :
  exists p,
    StdForwardListPrinter.__init__ More.fl_memory More.fl_layout 5
      "std::forward_list" (More.fl_from 400) = Ret p
    /\ StdForwardListPrinter.size p = 2
    /\ StdForwardListPrinter.to_string p = "std::forward_list (length=2)".
Proof.
  destruct (forward_list_chain More.fl_memory More.fl_layout 5
              "std::forward_list" (More.fl_from 400) [400; 500])
    as (p & Hp & Hs & Ht & _).
  - simpl. split; [reflexivity|]. eexists. split; [reflexivity|].
    split; [reflexivity|]. eexists. split; reflexivity.
  - repeat constructor; discriminate.
  - simpl. lia.
  - exists p. split; [exact Hp|]. split; [exact Hs | exact Ht].
Defined.

(** A forward list whose links never reach null (a cycle, for instance)
    keeps the constructor counting: whatever number of calls it is allowed,
    it has not returned, and it does not raise. *)
Theorem forward_list_cycle_never_returns (m : memory)
  (L : StdForwardListPrinter.node_layout) (tn : string)
  (val : StdForwardListPrinter.forward_list) (P : Z -> Prop) (fuel : nat) :
  P (StdForwardListPrinter.before_begin_next val) ->
  (forall n, P n -> n <> 0 /\ exists n',
      m (n + StdForwardListPrinter.off_next L) = Some n' /\ P n') ->
  StdForwardListPrinter.__init__ m L fuel tn val = Hang.
Proof.
  intros Hhead Hclosed. unfold StdForwardListPrinter.__init__.
  unfold StdForwardListPrinter._iterator.
  rewrite (forward_list_endless m L P Hclosed fuel _ 0 Hhead). reflexivity.
Qed.

Lemma forward_list_cycle_never_returns_witness :
  StdForwardListPrinter.__init__ More.fl_memory More.fl_layout 1000
    "std::forward_list" (More.fl_from 600) = Hang.
Proof.
  apply (forward_list_cycle_never_returns More.fl_memory More.fl_layout
           "std::forward_list" (More.fl_from 600) (fun n => n = 600) 1000).
  - reflexivity.
  - intros n ->. split; [discriminate|]. exists 600. split; reflexivity.
Defined.

(** A forward list whose chain runs into a node with an unreadable link is
    marked invalid: the constructor catches the failed read, the size is
    -1, the summary is "invalid" and there is no [children] method. *)
Theorem forward_list_broken_link (m : memory)
  (L : StdForwardListPrinter.node_layout) (fuel : nat) (tn : string)
  (val : StdForwardListPrinter.forward_list) (nodes : list Z) (a : Z) :
  Expected.linked m (StdForwardListPrinter.off_next L)
    (StdForwardListPrinter.before_begin_next val) nodes a ->
  Forall (fun x => x <> 0) nodes ->
  a <> 0 ->
  m (a + StdForwardListPrinter.off_next L) = None ->
  (S (List.length nodes) < fuel)%nat ->
  exists p,
    StdForwardListPrinter.__init__ m L fuel tn val = Ret p
    /\ StdForwardListPrinter.size p = -1
    /\ StdForwardListPrinter.to_string p = "invalid"
    /\ StdForwardListPrinter.children p = None.
Proof.
  intros Hlink Hnz Ha Hnone Hfuel.
  unfold StdForwardListPrinter.__init__, StdForwardListPrinter._iterator.
  rewrite (forward_list_walk_raises m L a nodes Ha Hnone _ 0 fuel Hlink Hnz Hfuel).
  eexists. split; [reflexivity|]. repeat split.
Qed.

Lemma forward_list_broken_link_witness :
  exists p,
    StdForwardListPrinter.__init__ More.fl_memory More.fl_layout 5
      "std::forward_list" (More.fl_from 700) = Ret p
    /\ StdForwardListPrinter.size p = -1
    /\ StdForwardListPrinter.to_string p = "invalid"
    /\ StdForwardListPrinter.children p = None.
Proof.
  apply (forward_list_broken_link More.fl_memory More.fl_layout 5
           "std::forward_list" (More.fl_from 700) [] 700).
  - reflexivity.
  - constructor.
  - discriminate.
  - reflexivity.
  - simpl. lia.
Defined.

(** ** Lists: the children of a chain as long as the stored size *)

Section ListWalk.

Variables (m : memory) (L : StdListPrinter.node_layout).

(** A chain of as many nodes as remain to be counted, none of them the
    sentinel, is walked node by node; the walk stops at the count. *)
Lemma list_walk (nodes : list Z) :
  forall c b last,
    StdListPrinter.base c = Some b ->
    Expected.linked m (StdListPrinter.off_next L) b nodes last ->
    Forall (fun a => a <> StdListPrinter.head c) nodes ->
    StdListPrinter.count c + len nodes = StdListPrinter.num_nodes c ->
    exists stop,
      Py.list_ (StdListPrinter.__next__ m L) (S (List.length nodes)) c
      = Ret (Expected.node_children_from m (StdListPrinter.off_value L)
               (StdListPrinter.count c) nodes, stop).
Proof.
  induction nodes as [|a rest IH]; intros c b last Hb Hlink Hne Hcnt;
    rewrite list_unfold, (list_next_spec m L c b Hb).
  - unfold len in Hcnt. simpl in Hcnt. rewrite Z.add_0_r in Hcnt.
    rewrite Hcnt, Z.eqb_refl, orb_true_r. cbn. eauto.
  - destruct Hlink as (-> & b' & Hnext & Hlink).
    inversion Hne as [|? ? Ha Hrest]; subst.
    unfold len in Hcnt. cbn [List.length] in Hcnt.
    destruct (Z.eqb_spec a (StdListPrinter.head c)); [contradiction|].
    destruct (Z.eqb_spec (StdListPrinter.count c) (StdListPrinter.num_nodes c));
      [lia|].
    cbn [orb].
    match goal with |- context [Py.list_ _ _ ?c1] =>
      destruct (IH c1 b' last) as [stop Hrun]
    end; [exact Hnext | exact Hlink | exact Hrest | unfold len; simpl; lia |].
    cbn [List.length StdListPrinter.count] in *. rewrite Hrun.
    eexists. reflexivity.
Qed.

End ListWalk.

(** A list whose first [k] nodes are linked from the sentinel's next
    pointer, none of them the sentinel, and whose stored size is [k], is
    accepted with size [k]: the summary is "empty" for [k = 0] and the type
    name with the length otherwise, and the children are the values of
    those [k] nodes in chain order.  The walk stops at the stored size:
    where the link of the [k]-th node leads is not looked at, only read. *)
Theorem list_children_in_order (m : memory) (L : StdListPrinter.node_layout)
  (fuel : nat) (tn : string) (val : StdListPrinter.list_)
  (nodes : list Z) (last : Z) :
  Expected.linked m (StdListPrinter.off_next L)
    (StdListPrinter.end_next val) nodes last ->
  Forall (fun a => a <> StdListPrinter.end_address val) nodes ->
  StdListPrinter.size_alloc val = len nodes ->
  (List.length nodes < fuel)%nat ->
  exists p,
    StdListPrinter.__init__ m L fuel tn val = Ret p
    /\ StdListPrinter.size p = len nodes
    /\ StdListPrinter.to_string p
       = (if 0 <? len nodes
          then (tn ++ " (length=" ++ fmt_d (len nodes) ++ ")")%string
          else "empty")
    /\ (0 < len nodes ->
        elements (H := list_printer m L) fuel p
        = Some (Ret (Expected.node_children m (StdListPrinter.off_value L) nodes)))
    /\ (len nodes = 0 -> StdListPrinter.children p = None).
Proof.
  intros Hlink Hne Hsz Hfuel.
  destruct (list_walk m L nodes
              (StdListPrinter._children_at val (StdListPrinter.size_alloc val))
              (StdListPrinter.end_next val) last eq_refl Hlink Hne)
    as [stop Hrun].
  { cbn [StdListPrinter._children_at StdListPrinter._iterator
         StdListPrinter.count StdListPrinter.num_nodes]. lia. }
  cbn [StdListPrinter._children_at StdListPrinter._iterator
       StdListPrinter.count] in Hrun.
  apply (list_fuel_mono _ _ fuel) in Hrun; [|lia].
  assert (Hlen : len (Expected.node_children_from m
                        (StdListPrinter.off_value L) 0 nodes) = len nodes).
  { unfold len. rewrite node_children_from_length. reflexivity. }
  rewrite Hsz in Hrun.
  unfold StdListPrinter.__init__.
  rewrite Hsz, Hrun, Hlen, Z.eqb_refl. cbn [negb].
  destruct (Z.ltb_spec 0 (len nodes)) as [Hpos|Hzero].
  - eexists. split; [reflexivity|]. split; [reflexivity|]. split; [|split].
    + unfold StdListPrinter.to_string.
      cbn [StdListPrinter.size StdListPrinter.typename].
      destruct (Z.eqb_spec (len nodes) 0); [lia|].
      destruct (Z.ltb_spec 0 (len nodes)); [reflexivity | lia].
    + intros _.
      unfold elements, pp_children, pp_next, cursor_of, list_printer.
      unfold StdListPrinter.children, StdListPrinter._children.
      cbn [StdListPrinter.has_children StdListPrinter.size StdListPrinter.val].
      rewrite Hrun. reflexivity.
    + intros Hz. lia.
  - assert (Hz : len nodes = 0) by (unfold len in *; lia).
    eexists. split; [reflexivity|]. split; [reflexivity|]. split; [|split].
    + unfold StdListPrinter.to_string.
      cbn [StdListPrinter.size StdListPrinter.typename].
      rewrite Hz. reflexivity.
    + intros Hpos. lia.
    + intros _. reflexivity.
Qed.

Lemma list_children_in_order_witness :
  exists p,
    StdListPrinter.__init__ Scenario.two_nodes_memory Scenario.list_layout 5
      "std::list" (Scenario.list_of_size 2) = Ret p
    /\ StdListPrinter.size p = 2
    /\ StdListPrinter.to_string p = "std::list (length=2)".
Proof.
  destruct (list_children_in_order Scenario.two_nodes_memory
              Scenario.list_layout 5 "std::list" (Scenario.list_of_size 2)
              [200; 300] 100)
    as (p & Hp & Hs & Ht & _).
  - simpl. split; [reflexivity|]. eexists. split; [reflexivity|].
    split; [reflexivity|]. eexists. split; reflexivity.
  - repeat constructor; discriminate.
  - reflexivity.
  - simpl. lia.
  - exists p. split; [exact Hp|]. split; [exact Hs | exact Ht].
Defined.

(** ** Hash tables: the children of a chain as long as the stored count *)

Section HashWalk.

Variables (m : memory) (L : HashTablePrinter.node_layout).

Lemma hash_next_node_yields (c : HashTablePrinter.cursor) (n v : Z) :
  HashTablePrinter.count c < HashTablePrinter.size c ->
  HashTablePrinter.node c = Some n -> n <> 0 ->
  m (n + HashTablePrinter.off_value L) = Some v ->
  HashTablePrinter.next_node m L false c
  = Ret (Some (n, (label (HashTablePrinter.count c),
                   GdbValue (dereference m (n + HashTablePrinter.off_value L)))),
         {| HashTablePrinter.node := m (n + HashTablePrinter.off_next L);
            HashTablePrinter.size := HashTablePrinter.size c;
            HashTablePrinter.count := HashTablePrinter.count c + 1 |}).
Proof.
  intros Hc Hn Hnz Hv. unfold HashTablePrinter.next_node.
  destruct (Z.leb_spec (HashTablePrinter.size c) (HashTablePrinter.count c)); [lia|].
  rewrite Hn. cbn [fetch Py.bind].
  destruct (Z.eqb_spec n 0); [contradiction|].
  unfold HashTablePrinter.format_value, dereference. rewrite Hv. reflexivity.
Qed.

Lemma hash_next_node_full (is_pair : bool) (c : HashTablePrinter.cursor) :
  HashTablePrinter.size c <= HashTablePrinter.count c ->
  HashTablePrinter.next_node m L is_pair c = Ret (None, c).
Proof.
  intros Hc. unfold HashTablePrinter.next_node.
  destruct (Z.leb_spec (HashTablePrinter.size c) (HashTablePrinter.count c));
    [reflexivity | lia].
Qed.

(** The set iterator walks a chain of as many entries as remain to be
    counted. *)
Lemma hash_set_walk (nodes : list Z) :
  forall c n last,
    HashTablePrinter.node c = Some n ->
    Expected.linked m (HashTablePrinter.off_next L) n nodes last ->
    Forall (fun a => a <> 0
                     /\ exists v, m (a + HashTablePrinter.off_value L) = Some v)
      nodes ->
    HashTablePrinter.count c + len nodes = HashTablePrinter.size c ->
    exists stop,
      Py.list_ (HashTablePrinter.__next__ m L) (S (List.length nodes)) c
      = Ret (Expected.node_children_from m (HashTablePrinter.off_value L)
               (HashTablePrinter.count c) nodes, stop)
      /\ HashTablePrinter.size stop = HashTablePrinter.size c.
Proof.
  induction nodes as [|a rest IH]; intros c n last Hn Hlink Hok Hcnt;
    rewrite list_unfold; unfold HashTablePrinter.__next__ at 1.
  - unfold len in Hcnt. simpl in Hcnt.
    rewrite hash_next_node_full by lia. cbn. eauto.
  - destruct Hlink as (-> & n' & Hnext & Hlink).
    inversion Hok as [|? ? [Ha [v Hv]] Hrest]; subst.
    unfold len in Hcnt. cbn [List.length] in Hcnt.
    rewrite (hash_next_node_yields c a v) by (assumption || lia).
    cbn [Py.bind]. rewrite Hnext.
    match goal with |- context [Py.list_ _ _ ?c1] =>
      destruct (IH c1 n' last) as (stop & Hrun & Hsz)
    end; [reflexivity | exact Hlink | exact Hrest | unfold len; simpl; lia |].
    cbn [List.length HashTablePrinter.count HashTablePrinter.size] in *.
    rewrite Hrun. eexists. split; [reflexivity | exact Hsz].
Qed.

(** The map iterator walks the same chain, reading each pair, and stops
    where the stored count is reached, at a null link, or at an entry whose
    pair cannot be read. *)
Lemma hash_map_walk (entries : list (Z * Z)) :
  forall c n last,
    HashTablePrinter.node c = Some n ->
    Expected.linked m (HashTablePrinter.off_next L) n (map fst entries) last ->
    Forall (fun ak => fst ak <> 0
                      /\ m (fst ak + HashTablePrinter.off_first L) = Some (snd ak)
                      /\ exists v, m (fst ak + HashTablePrinter.off_second L) = Some v)
      entries ->
    HashTablePrinter.count c + len entries <= HashTablePrinter.size c ->
    HashTablePrinter.count c + len entries = HashTablePrinter.size c
    \/ last = 0
    \/ m (last + HashTablePrinter.off_first L) = None
    \/ m (last + HashTablePrinter.off_second L) = None ->
    exists stop,
      Py.list_ (HashTablePrinter.map__next__ m L) (S (List.length entries)) c
      = Ret (Expected.map_children_from m (HashTablePrinter.off_second L)
               (HashTablePrinter.count c) entries, stop)
      /\ HashTablePrinter.size stop = HashTablePrinter.size c.
Proof.
  induction entries as [|[a k] rest IH]; intros c n last Hn Hlink Hok Hcnt Hend;
    rewrite list_unfold; unfold HashTablePrinter.map__next__ at 1.
  - unfold len in Hcnt, Hend. cbn [List.length Expected.linked map] in *. subst n.
    destruct (Z.le_gt_cases (HashTablePrinter.size c) (HashTablePrinter.count c))
      as [Hfull | Hleft].
    { rewrite (hash_next_node_stop m L true c last Hn) by (left; exact Hfull).
      cbn. eauto. }
    destruct (Z.eq_dec last 0) as [Hz | Hnz].
    { rewrite (hash_next_node_stop m L true c last Hn) by (right; exact Hz).
      cbn. eauto. }
    rewrite (hash_next_node_step m L true c last Hn Hleft Hnz).
    assert (Hbad : HashTablePrinter.format_value m L true last = Raise).
    { unfold HashTablePrinter.format_value, dereference.
      destruct Hend as [Hend | [Hend | [Hend | Hend]]]; [lia | contradiction | |];
        rewrite Hend; [|destruct (m (last + HashTablePrinter.off_first L))];
        reflexivity. }
    rewrite Hbad. cbn. eauto.
  - cbn [map fst] in Hlink. destruct Hlink as (-> & n' & Hnext & Hlink).
    inversion Hok as [|? ? [Ha [Hk [v Hv]]] Hrest]; subst.
    cbn [fst snd] in *.
    unfold len in Hcnt, Hend. cbn [List.length] in Hcnt, Hend.
    rewrite (hash_next_node_step m L true c a Hn) by (assumption || lia).
    unfold HashTablePrinter.format_value, dereference. rewrite Hk, Hv.
    cbn [fetch Py.bind]. rewrite Hk. cbn [fetch]. rewrite Hnext.
    match goal with |- context [Py.list_ _ _ ?c1] =>
      destruct (IH c1 n' last) as (stop & Hrun & Hsz)
    end; [reflexivity | exact Hlink | exact Hrest | unfold len; simpl; lia
          | unfold len; cbn [HashTablePrinter.count HashTablePrinter.size];
            destruct Hend as [Hend | Hend]; [left; lia | right; exact Hend] |].
    cbn [List.length HashTablePrinter.count HashTablePrinter.size] in *.
    rewrite Hrun. eexists. split; [reflexivity | exact Hsz].
Qed.

End HashWalk.

Lemma map_children_from_length m off i entries :
  List.length (Expected.map_children_from m off i entries) = List.length entries.
Proof.
  revert i. induction entries as [|[a k] rest IH]; intros i; [reflexivity|].
  simpl. rewrite IH. reflexivity.
Qed.

Lemma hash_cursor_start (table : HashTablePrinter.hashtable) :
  0 <= HashTablePrinter.p2_first table ->
  HashTablePrinter._children table
  = {| HashTablePrinter.node := Some (HashTablePrinter.p1_first_next table);
       HashTablePrinter.size := HashTablePrinter.p2_first table;
       HashTablePrinter.count := 0 |}.
Proof.
  intros Hp. unfold HashTablePrinter._children, HashTablePrinter._iterator.
  destruct (Z.ltb_spec (HashTablePrinter.p2_first table) 0); [lia | reflexivity].
Qed.

(** A hash set whose chain from the stored head has as many entries as the
    stored count, each with a readable value, is accepted: the summary is
    "empty" for no entries and the type name with the count otherwise, and
    the children are the entries' values in chain order. *)
Theorem hashtable_set_children (m : memory) (L : HashTablePrinter.node_layout)
  (fuel : nat) (tn : string) (table : HashTablePrinter.hashtable)
  (nodes : list Z) (last : Z) :
  Expected.linked m (HashTablePrinter.off_next L)
    (HashTablePrinter.p1_first_next table) nodes last ->
  Forall (fun a => a <> 0
                   /\ exists v, m (a + HashTablePrinter.off_value L) = Some v)
    nodes ->
  HashTablePrinter.p2_first table = len nodes ->
  (List.length nodes < fuel)%nat ->
  exists p,
    HashTablePrinter.__init__ m L false fuel tn table = Ret p
    /\ HashTablePrinter.p_size p = len nodes
    /\ HashTablePrinter.to_string p
       = (if 0 <? len nodes
          then (tn ++ " (count=" ++ fmt_d (len nodes) ++ ")")%string
          else "empty")
    /\ (0 < len nodes ->
        elements (H := hashtable_printer m L false) fuel p
        = Some (Ret (Expected.node_children m (HashTablePrinter.off_value L) nodes))).
Proof.
  intros Hlink Hok Hcount Hfuel.
  assert (Hstart := hash_cursor_start table ltac:(unfold len in *; lia)).
  destruct (hash_set_walk m L nodes (HashTablePrinter._children table)
              (HashTablePrinter.p1_first_next table) last)
    as (stop & Hrun & Hsz);
    [rewrite Hstart; reflexivity | exact Hlink | exact Hok
     | rewrite Hstart; cbn [HashTablePrinter.count HashTablePrinter.size]; lia |].
  apply (list_fuel_mono _ _ fuel) in Hrun; [|lia].
  assert (Hc0 : HashTablePrinter.count (HashTablePrinter._children table) = 0)
    by (rewrite Hstart; reflexivity).
  rewrite Hc0 in Hrun.
  assert (Hlen : len (Expected.node_children_from m
                        (HashTablePrinter.off_value L) 0 nodes) = len nodes).
  { unfold len. rewrite node_children_from_length. reflexivity. }
  unfold HashTablePrinter.__init__.
  change (HashTablePrinter.next_of false m L) with (HashTablePrinter.__next__ m L).
  rewrite Hrun, Hlen. unfold HashTablePrinter.__len__.
  rewrite Hsz, Hstart. cbn [HashTablePrinter.size].
  rewrite Hcount, Z.eqb_refl. cbn [negb].
  destruct (Z.ltb_spec 0 (len nodes)) as [Hpos|Hzero].
  - eexists. split; [reflexivity|]. split; [reflexivity|]. split.
    + unfold HashTablePrinter.to_string.
      cbn [HashTablePrinter.p_size HashTablePrinter.typename].
      destruct (Z.eqb_spec (len nodes) 0); [lia|].
      destruct (Z.ltb_spec 0 (len nodes)); [reflexivity | lia].
    + intros _.
      unfold elements, pp_children, pp_next, cursor_of, hashtable_printer.
      unfold HashTablePrinter.children.
      cbn [HashTablePrinter.has_children HashTablePrinter.val].
      change (HashTablePrinter.next_of false m L)
        with (HashTablePrinter.__next__ m L).
      rewrite Hrun. reflexivity.
  - assert (Hz : len nodes = 0) by (unfold len in *; lia).
    eexists. split; [reflexivity|]. split; [reflexivity|]. split.
    + unfold HashTablePrinter.to_string.
      cbn [HashTablePrinter.p_size HashTablePrinter.typename].
      rewrite Hz. reflexivity.
    + intros Hpos. lia.
Qed.

Lemma hashtable_set_children_witness :
  exists p,
    HashTablePrinter.__init__ Scenario.two_entries_memory Scenario.hash_layout
      false 5 "std::unordered_set" (Scenario.table_of_size 2) = Ret p
    /\ HashTablePrinter.p_size p = 2
    /\ HashTablePrinter.to_string p = "std::unordered_set (count=2)".
Proof.
  destruct (hashtable_set_children Scenario.two_entries_memory
              Scenario.hash_layout 5 "std::unordered_set"
              (Scenario.table_of_size 2) [400; 500] 0)
    as (p & Hp & Hs & Ht & _).
  - simpl. split; [reflexivity|]. eexists. split; [reflexivity|].
    split; [reflexivity|]. eexists. split; reflexivity.
  - repeat constructor; try discriminate; eexists; reflexivity.
  - reflexivity.
  - simpl. lia.
  - exists p. split; [exact Hp|]. split; [exact Hs | exact Ht].
Defined.

(** A hash map whose chain holds entries with readable pairs (key and
    mapped value).  When the entries are as many as the stored count, the
    printer is accepted, and its children are the mapped values in chain
    order, each labelled with its position and its key ("[i] key").  When
    they are fewer than the stored count, because the chain ends in a null
    link or goes on with an entry whose key or mapped value cannot be read,
    the traversal stops there and the printer is rejected: size -1, summary
    "invalid", no [children]. *)
Theorem hashtable_map_children (m : memory) (L : HashTablePrinter.node_layout)
  (fuel : nat) (tn : string) (table : HashTablePrinter.hashtable)
  (entries : list (Z * Z)) (last : Z) :
  Expected.linked m (HashTablePrinter.off_next L)
    (HashTablePrinter.p1_first_next table) (map fst entries) last ->
  Forall (fun ak => fst ak <> 0
                    /\ m (fst ak + HashTablePrinter.off_first L) = Some (snd ak)
                    /\ exists v, m (fst ak + HashTablePrinter.off_second L) = Some v)
    entries ->
  (List.length entries < fuel)%nat ->
  (HashTablePrinter.p2_first table = len entries ->
   (0 < List.length entries)%nat ->
   exists p,
     HashTablePrinter.__init__ m L true fuel tn table = Ret p
     /\ HashTablePrinter.p_size p = len entries
     /\ HashTablePrinter.to_string p
        = (tn ++ " (count=" ++ fmt_d (len entries) ++ ")")%string
     /\ elements (H := hashtable_printer m L true) fuel p
        = Some (Ret (Expected.map_children_from m
                       (HashTablePrinter.off_second L) 0 entries)))
  /\ (len entries < HashTablePrinter.p2_first table ->
      last = 0
      \/ m (last + HashTablePrinter.off_first L) = None
      \/ m (last + HashTablePrinter.off_second L) = None ->
      exists p,
        HashTablePrinter.__init__ m L true fuel tn table = Ret p
        /\ HashTablePrinter.p_size p = -1
        /\ HashTablePrinter.to_string p = "invalid"
        /\ HashTablePrinter.children p = None).
Proof.
  intros Hlink Hok Hfuel.
  assert (Hwalk : 0 <= HashTablePrinter.p2_first table ->
            len entries <= HashTablePrinter.p2_first table ->
            len entries = HashTablePrinter.p2_first table
            \/ last = 0
            \/ m (last + HashTablePrinter.off_first L) = None
            \/ m (last + HashTablePrinter.off_second L) = None ->
            exists stop,
              Py.list_ (HashTablePrinter.map__next__ m L) fuel
                (HashTablePrinter._children table)
              = Ret (Expected.map_children_from m
                       (HashTablePrinter.off_second L) 0 entries, stop)
              /\ HashTablePrinter.size stop = HashTablePrinter.p2_first table).
  { intros Hpos Hle Hend.
    assert (Hstart := hash_cursor_start table Hpos).
    destruct (hash_map_walk m L entries (HashTablePrinter._children table)
                (HashTablePrinter.p1_first_next table) last)
      as (stop & Hrun & Hsz);
      [rewrite Hstart; reflexivity | exact Hlink | exact Hok
       | rewrite Hstart; cbn [HashTablePrinter.count HashTablePrinter.size]; lia
       | rewrite Hstart; cbn [HashTablePrinter.count HashTablePrinter.size];
         destruct Hend as [Hend | Hend]; [left; lia | right; exact Hend] |].
    apply (list_fuel_mono _ _ fuel) in Hrun; [|lia].
    rewrite Hstart in Hrun, Hsz.
    cbn [HashTablePrinter.count HashTablePrinter.size] in Hrun, Hsz.
    rewrite Hstart. exists stop. split; [exact Hrun | exact Hsz]. }
  assert (Hlen : len (Expected.map_children_from m
                        (HashTablePrinter.off_second L) 0 entries) = len entries).
  { unfold len. rewrite map_children_from_length. reflexivity. }
  split.
  - intros Hcount Hnonempty.
    destruct Hwalk as (stop & Hrun & Hsz);
      [unfold len in *; lia | lia | left; lia |].
    unfold HashTablePrinter.__init__.
    change (HashTablePrinter.next_of true m L)
      with (HashTablePrinter.map__next__ m L).
    rewrite Hrun, Hlen. unfold HashTablePrinter.__len__.
    rewrite Hsz, Hcount, Z.eqb_refl. cbn [negb].
    destruct (Z.ltb_spec 0 (len entries)) as [Hpos|Hzero];
      [|unfold len in *; lia].
    eexists. split; [reflexivity|]. split; [reflexivity|]. split.
    + unfold HashTablePrinter.to_string.
      cbn [HashTablePrinter.p_size HashTablePrinter.typename].
      destruct (Z.eqb_spec (len entries) 0); [lia|].
      destruct (Z.ltb_spec 0 (len entries)); [reflexivity | lia].
    + unfold elements, pp_children, pp_next, cursor_of, hashtable_printer.
      unfold HashTablePrinter.children.
      cbn [HashTablePrinter.has_children HashTablePrinter.val].
      change (HashTablePrinter.next_of true m L)
        with (HashTablePrinter.map__next__ m L).
      rewrite Hrun. reflexivity.
  - intros Hshort Hend.
    destruct Hwalk as (stop & Hrun & Hsz);
      [unfold len in *; lia | lia | right; exact Hend |].
    unfold HashTablePrinter.__init__.
    change (HashTablePrinter.next_of true m L)
      with (HashTablePrinter.map__next__ m L).
    rewrite Hrun, Hlen. unfold HashTablePrinter.__len__. rewrite Hsz.
    destruct (Z.eqb_spec (len entries) (HashTablePrinter.p2_first table)); [lia|].
    cbn [negb]. eexists. split; [reflexivity|]. repeat split.
Qed.

Lemma hashtable_map_children_witness :
  (exists p,
     HashTablePrinter.__init__ Scenario.two_entries_memory Scenario.hash_layout
       true 5 "unordered_map" (Scenario.table_of_size 2) = Ret p
     /\ HashTablePrinter.p_size p = 2
     /\ HashTablePrinter.to_string p = "unordered_map (count=2)"
     /\ elements (H := hashtable_printer Scenario.two_entries_memory
                         Scenario.hash_layout true) 5 p
        = Some (Ret [("[0] 1"%string, GdbValue (Some 10));
                     ("[1] 2"%string, GdbValue (Some 20))]))
  /\ (exists p,
        HashTablePrinter.__init__ More.unreadable_second_memory
          Scenario.hash_layout true 5 "unordered_map"
          (Scenario.table_of_size 2) = Ret p
        /\ HashTablePrinter.p_size p = -1
        /\ HashTablePrinter.to_string p = "invalid"
        /\ HashTablePrinter.children p = None).
Proof.
  split.
  - refine (proj1 (hashtable_map_children Scenario.two_entries_memory
              Scenario.hash_layout 5 "unordered_map"
              (Scenario.table_of_size 2) [(400, 1); (500, 2)] 0 _ _ _) _ _).
    + simpl. split; [reflexivity|]. eexists. split; [reflexivity|].
      split; [reflexivity|]. eexists. split; reflexivity.
    + repeat constructor; try discriminate; eexists; reflexivity.
    + simpl. lia.
    + reflexivity.
    + simpl. lia.
  - refine (proj2 (hashtable_map_children More.unreadable_second_memory
              Scenario.hash_layout 5 "unordered_map"
              (Scenario.table_of_size 2) [(400, 1)] 500 _ _ _) _ _).
    + simpl. split; [reflexivity|]. eexists. split; reflexivity.
    + repeat constructor; try discriminate; eexists; reflexivity.
    + simpl. lia.
    + reflexivity.
    + right. right. reflexivity.
Defined.

(** ** Trees: the traversal is the in-order traversal *)

Local Open Scope list_scope.

Lemma entry_children_from_app m L is_map key (xs ys : list Z) :
  forall i,
    Tree.entry_children_from m L is_map key i (xs ++ ys)
    = Tree.entry_children_from m L is_map key i xs
      ++ Tree.entry_children_from m L is_map key (i + len xs) ys.
Proof.
  induction xs as [|x xs IH]; intros i.
  - unfold len. simpl. rewrite Z.add_0_r. reflexivity.
  - cbn [app Tree.entry_children_from]. rewrite IH. f_equal. f_equal. f_equal.
    unfold len. cbn [List.length]. lia.
Qed.

Lemma entry_children_from_length m L is_map key i nodes :
  List.length (Tree.entry_children_from m L is_map key i nodes)
  = List.length nodes.
Proof.
  revert i. induction nodes as [|a rest IH]; intros i; [reflexivity|].
  simpl. rewrite IH. reflexivity.
Qed.

Section TreeWalk.

Variables (m : memory) (L : StdRbtreePrinter.node_layout).
Variables (is_map : bool) (key : Z -> Z).

(** Descending to the left from the root of a non-empty tree ends at its
    first node. *)
Lemma descend_left_spec (t : Tree.tree) :
  forall p x fuel,
    Tree.shaped m L t p -> t <> Tree.Leaf -> (Tree.height t <= fuel)%nat ->
    StdRbtreePrinter.descend_left m L fuel (Tree.root t) = Ret (Tree.leftmost t x).
Proof.
  induction t as [|l IHl a r _]; intros p x fuel Hshape Hne Hfuel;
    [contradiction Hne; reflexivity|].
  destruct Hshape as (Ha & Hl & Hr & Hp & Hd & Hsl & Hsr).
  destruct fuel as [|fuel]; [cbn [Tree.height] in Hfuel; lia|].
  cbn [StdRbtreePrinter.descend_left Tree.root Tree.leftmost].
  unfold dereference. rewrite Hl. cbn [fetch Py.bind].
  destruct l as [|ll b lr].
  - reflexivity.
  - assert (Hb : b <> 0) by (destruct Hsl as [Hb _]; exact Hb).
    cbn [Tree.root]. destruct (Z.eqb_spec b 0); [contradiction|].
    apply (IHl a a fuel Hsl); [discriminate|]. cbn [Tree.height] in *. lia.
Qed.

(** One call at the node [a], when the next node can be computed. *)
Lemma tree_step (fuel_in : nat) (a n' sz c : Z) :
  c < sz ->
  StdRbtreePrinter.successor m L fuel_in a = Ret n' ->
  (is_map = true -> m (a + StdRbtreePrinter.off_first L) = Some (key a)) ->
  StdRbtreePrinter.next_of is_map m L fuel_in
    {| StdRbtreePrinter.node := a; StdRbtreePrinter.size := sz;
       StdRbtreePrinter.count := c |}
  = Ret (Some (Tree.entry_child m L is_map key c a),
         {| StdRbtreePrinter.node := n'; StdRbtreePrinter.size := sz;
            StdRbtreePrinter.count := c + 1 |}).
Proof.
  intros Hc Hsucc Hkey.
  assert (Hnode :
    StdRbtreePrinter.next_node m L fuel_in
      {| StdRbtreePrinter.node := a; StdRbtreePrinter.size := sz;
         StdRbtreePrinter.count := c |}
    = Ret (Some (a, (label c,
                     GdbValue (dereference m (a + StdRbtreePrinter.off_value L)))),
           {| StdRbtreePrinter.node := n'; StdRbtreePrinter.size := sz;
              StdRbtreePrinter.count := c + 1 |})).
  { unfold StdRbtreePrinter.next_node.
    cbn [StdRbtreePrinter.node StdRbtreePrinter.size StdRbtreePrinter.count].
    destruct (Z.leb_spec sz c); [lia|]. rewrite Hsucc. reflexivity. }
  unfold StdRbtreePrinter.next_of, Tree.entry_child. destruct is_map.
  - unfold StdRbtreePrinter.map__next__. rewrite Hnode. cbv beta iota.
    unfold dereference at 1. rewrite (Hkey eq_refl). reflexivity.
  - unfold StdRbtreePrinter.__next__. rewrite Hnode. reflexivity.
Qed.

(** Leaving the subtree [t] upwards leads to [nxt], within [k] steps. *)
Definition climbs (k : nat) (t : Tree.tree) (p nxt : Z) : Prop :=
  Tree.root t <> 0 ->
  forall f, (k < f)%nat ->
    StdRbtreePrinter.ascend m L f (Tree.root t) (Some p) = Ret nxt.

(** Walking a subtree: from its first node the cursor yields its nodes in
    order and arrives at [nxt], from where the rest of the walk goes on. *)
Lemma tree_walk (fuel_in : nat) (sz : Z) (t : Tree.tree) :
  forall p nxt k c0 fuel rest stop,
    Tree.shaped m L t p ->
    climbs k t p nxt ->
    (k + Tree.height t < fuel_in)%nat ->
    Forall (fun a => is_map = true ->
                     m (a + StdRbtreePrinter.off_first L) = Some (key a))
      (Tree.inorder t) ->
    c0 + len (Tree.inorder t) <= sz ->
    Py.list_ (StdRbtreePrinter.next_of is_map m L fuel_in) fuel
      {| StdRbtreePrinter.node := nxt; StdRbtreePrinter.size := sz;
         StdRbtreePrinter.count := c0 + len (Tree.inorder t) |}
    = Ret (rest, stop) ->
    Py.list_ (StdRbtreePrinter.next_of is_map m L fuel_in)
      (List.length (Tree.inorder t) + fuel)
      {| StdRbtreePrinter.node := Tree.leftmost t nxt; StdRbtreePrinter.size := sz;
         StdRbtreePrinter.count := c0 |}
    = Ret (Tree.entry_children_from m L is_map key c0 (Tree.inorder t) ++ rest,
           stop).
Proof.
  induction t as [|l IHl a r IHr];
    intros p nxt k c0 fuel rest stop Hshape Hclimb Hfuel Hkeys Hsz Hrest.
  - unfold len in Hrest. simpl in Hrest. rewrite Z.add_0_r in Hrest.
    simpl. exact Hrest.
  - destruct Hshape as (Ha & Hl & Hr & Hp & Hd & Hsl & Hsr).
    cbn [Tree.inorder Tree.leftmost] in *.
    apply Forall_app in Hkeys. destruct Hkeys as [Hkl Hkar].
    inversion Hkar as [|? ? Hka Hkr]; subst.
    assert (Hlen : len (Tree.inorder l ++ a :: Tree.inorder r)
                   = len (Tree.inorder l) + 1 + len (Tree.inorder r)).
    { unfold len. rewrite length_app. cbn [List.length]. lia. }
    rewrite Hlen in Hsz, Hrest.
    pose proof (Nat.le_max_l (Tree.height l) (Tree.height r)) as Hhl.
    pose proof (Nat.le_max_r (Tree.height l) (Tree.height r)) as Hhr.
    cbn [Tree.height] in Hfuel.
    (* the successor of [a] is the first node of [r], or [nxt] *)
    assert (Hsucc : StdRbtreePrinter.successor m L fuel_in a
                    = Ret (Tree.leftmost r nxt)).
    { unfold StdRbtreePrinter.successor, dereference. rewrite Hr.
      cbn [fetch Py.bind]. destruct r as [|rl b rr].
      - cbn [Tree.root Tree.leftmost]. rewrite Z.eqb_refl. cbn [negb].
        rewrite Hp. apply (Hclimb Ha). lia.
      - assert (Hb : b <> 0) by (destruct Hsr as [Hb _]; exact Hb).
        cbn [Tree.root]. destruct (Z.eqb_spec b 0); [contradiction|].
        cbn [negb].
        apply (descend_left_spec (Tree.Node rl b rr) a nxt fuel_in Hsr);
          [discriminate | lia]. }
    (* the walk of [r], then the rest *)
    assert (Hright :
      Py.list_ (StdRbtreePrinter.next_of is_map m L fuel_in)
        (List.length (Tree.inorder r) + fuel)
        {| StdRbtreePrinter.node := Tree.leftmost r nxt;
           StdRbtreePrinter.size := sz;
           StdRbtreePrinter.count := c0 + len (Tree.inorder l) + 1 |}
      = Ret (Tree.entry_children_from m L is_map key
               (c0 + len (Tree.inorder l) + 1) (Tree.inorder r) ++ rest, stop)).
    { apply (IHr a nxt (S k)); [exact Hsr | | lia | exact Hkr | lia |].
      - intros Hroot f Hf.
        destruct f as [|f]; [lia|].
        cbn [StdRbtreePrinter.ascend fetch Py.bind].
        unfold dereference. rewrite Hl. cbn [fetch Py.bind].
        destruct (Z.eqb_spec (Tree.root r) (Tree.root l)) as [Heq|_].
        { exfalso. destruct r as [|rl b rr]; [apply Hroot; reflexivity|].
          apply Hd. symmetry. exact Heq. }
        rewrite Hp. apply (Hclimb Ha). lia.
      - replace (c0 + len (Tree.inorder l) + 1 + len (Tree.inorder r))
          with (c0 + (len (Tree.inorder l) + 1 + len (Tree.inorder r))) by lia.
        exact Hrest. }
    (* the step at [a], then the walk of [r] *)
    assert (Hmid :
      Py.list_ (StdRbtreePrinter.next_of is_map m L fuel_in)
        (S (List.length (Tree.inorder r) + fuel))
        {| StdRbtreePrinter.node := a; StdRbtreePrinter.size := sz;
           StdRbtreePrinter.count := c0 + len (Tree.inorder l) |}
      = Ret (Tree.entry_child m L is_map key (c0 + len (Tree.inorder l)) a
             :: Tree.entry_children_from m L is_map key
                  (c0 + len (Tree.inorder l) + 1) (Tree.inorder r) ++ rest,
             stop)).
    { rewrite list_unfold.
      rewrite (tree_step fuel_in a (Tree.leftmost r nxt) sz
                 (c0 + len (Tree.inorder l)));
        [| unfold len in *; lia | exact Hsucc | exact Hka].
      rewrite Hright. reflexivity. }
    (* the walk of [l], then the step at [a] *)
    rewrite entry_children_from_app. cbn [Tree.entry_children_from].
    rewrite <- app_assoc. cbn [app].
    replace (List.length (Tree.inorder l ++ a :: Tree.inorder r) + fuel)%nat
      with (List.length (Tree.inorder l)
            + S (List.length (Tree.inorder r) + fuel))%nat
      by (rewrite length_app; cbn [List.length]; lia).
    apply (IHl a a O); [exact Hsl | | lia | exact Hkl | unfold len in *; lia
                        | exact Hmid].
    intros Hroot f Hf. destruct f as [|f]; [lia|].
    cbn [StdRbtreePrinter.ascend fetch Py.bind].
    unfold dereference. rewrite Hl. cbn [fetch Py.bind].
    rewrite Z.eqb_refl. reflexivity.
Qed.

End TreeWalk.

Lemma rbtree_next_full m L is_map fuel_in (c : StdRbtreePrinter.cursor) :
  StdRbtreePrinter.size c <= StdRbtreePrinter.count c ->
  StdRbtreePrinter.next_of is_map m L fuel_in c = Ret (None, c).
Proof.
  intros Hc.
  assert (Hnode : StdRbtreePrinter.next_node m L fuel_in c = Ret (None, c)).
  { unfold StdRbtreePrinter.next_node.
    destruct (Z.leb_spec (StdRbtreePrinter.size c) (StdRbtreePrinter.count c));
      [reflexivity | lia]. }
  unfold StdRbtreePrinter.next_of. destruct is_map.
  - unfold StdRbtreePrinter.map__next__. rewrite Hnode. reflexivity.
  - unfold StdRbtreePrinter.__next__. rewrite Hnode. reflexivity.
Qed.

(** The children of a set or a map whose tree is laid out in memory below
    its end node (child and parent links consistent, begin node the
    leftmost node, stored count the number of nodes, and for a map every key
    readable) are its nodes in in-order, one child per node: the traversal
    that goes to the leftmost node of the right subtree, or else climbs
    until it arrives from a left child, visits the nodes in the order of the
    in-order traversal.  The printer is accepted with that count, and the
    summary gives it. *)
Theorem rbtree_inorder_children (m : memory) (L : StdRbtreePrinter.node_layout)
  (is_map : bool) (key : Z -> Z) (fuel fuel_in : nat) (tn : string)
  (t : Tree.tree) (e : Z) :
  Tree.shaped m L t e ->
  m (e + StdRbtreePrinter.off_left L) = Some (Tree.root t) ->
  Forall (fun a => is_map = true ->
                   m (a + StdRbtreePrinter.off_first L) = Some (key a))
    (Tree.inorder t) ->
  (List.length (Tree.inorder t) < fuel)%nat ->
  (Tree.height t < fuel_in)%nat ->
  exists p,
    StdRbtreePrinter.__init__ m L is_map fuel fuel_in tn (Tree.rbtree_of t e)
    = Ret p
    /\ StdRbtreePrinter.p_size p = len (Tree.inorder t)
    /\ StdRbtreePrinter.to_string p
       = (if 0 <? len (Tree.inorder t)
          then (tn ++ " (count=" ++ fmt_d (len (Tree.inorder t)) ++ ")")%string
          else "empty"%string)
    /\ (0 < len (Tree.inorder t) ->
        elements (H := rbtree_printer m L is_map fuel_in) fuel p
        = Some (Ret (Tree.entry_children_from m L is_map key 0 (Tree.inorder t)))).
Proof.
  intros Hshape Hend Hkeys Hfuel Hfin.
  set (n := len (Tree.inorder t)).
  assert (Hn : 0 <= n) by (unfold n, len; lia).
  assert (Hstart : StdRbtreePrinter._children (Tree.rbtree_of t e)
                   = {| StdRbtreePrinter.node := Tree.leftmost t e;
                        StdRbtreePrinter.size := n;
                        StdRbtreePrinter.count := 0 |}).
  { unfold StdRbtreePrinter._children, StdRbtreePrinter._iterator, Tree.rbtree_of.
    cbn [StdRbtreePrinter.begin_node StdRbtreePrinter.pair3_first]. fold n.
    destruct (Z.ltb_spec n 0); [lia | reflexivity]. }
  assert (Hrun :
    Py.list_ (StdRbtreePrinter.next_of is_map m L fuel_in) fuel
      {| StdRbtreePrinter.node := Tree.leftmost t e;
         StdRbtreePrinter.size := n; StdRbtreePrinter.count := 0 |}
    = Ret (Tree.entry_children_from m L is_map key 0 (Tree.inorder t),
           {| StdRbtreePrinter.node := e; StdRbtreePrinter.size := n;
              StdRbtreePrinter.count := 0 + n |})).
  { apply (list_fuel_mono _ (List.length (Tree.inorder t) + 1) fuel); [lia|].
    rewrite <- (app_nil_r (Tree.entry_children_from m L is_map key 0 (Tree.inorder t))).
    apply (tree_walk m L is_map key fuel_in n t e e O 0 1%nat).
    - exact Hshape.
    - intros Hroot f Hf. destruct f as [|f]; [lia|].
      cbn [StdRbtreePrinter.ascend fetch Py.bind].
      unfold dereference. rewrite Hend. cbn [fetch Py.bind].
      rewrite Z.eqb_refl. reflexivity.
    - lia.
    - exact Hkeys.
    - fold n. lia.
    - fold n. rewrite list_unfold, rbtree_next_full; [reflexivity|].
      cbn [StdRbtreePrinter.size StdRbtreePrinter.count]. lia. }
  assert (Hlen : len (Tree.entry_children_from m L is_map key 0 (Tree.inorder t)) = n).
  { unfold n, len. rewrite entry_children_from_length. reflexivity. }
  unfold StdRbtreePrinter.__init__. rewrite Hstart, Hrun, Hlen.
  unfold StdRbtreePrinter.__len__. cbn [StdRbtreePrinter.size].
  rewrite Z.eqb_refl. cbn [negb].
  destruct (Z.ltb_spec 0 n) as [Hpos|Hzero].
  - eexists. split; [reflexivity|]. split; [reflexivity|]. split.
    + unfold StdRbtreePrinter.to_string.
      cbn [StdRbtreePrinter.p_size StdRbtreePrinter.typename].
      destruct (Z.eqb_spec n 0); [lia|].
      destruct (Z.ltb_spec 0 n); [reflexivity | lia].
    + intros _.
      unfold elements, pp_children, pp_next, cursor_of, rbtree_printer.
      unfold StdRbtreePrinter.children.
      cbn [StdRbtreePrinter.has_children StdRbtreePrinter.val].
      rewrite Hstart, Hrun. reflexivity.
  - assert (Hz : n = 0) by lia.
    eexists. split; [reflexivity|]. split; [reflexivity|]. split.
    + unfold StdRbtreePrinter.to_string.
      cbn [StdRbtreePrinter.p_size StdRbtreePrinter.typename].
      rewrite Hz. reflexivity.
    + intros Hpos. lia.
Qed.

Lemma three_nodes_shaped :
  Tree.shaped More.three_nodes_memory Scenario.tree_layout More.three_nodes 900.
Proof.
  simpl. repeat split; try discriminate; try reflexivity.
Defined.

Lemma rbtree_inorder_children_witness :
  exists p,
    StdRbtreePrinter.__init__ More.three_nodes_memory Scenario.tree_layout true
      5 5 "std::map" (Tree.rbtree_of More.three_nodes 900) = Ret p
    /\ StdRbtreePrinter.p_size p = 3
    /\ StdRbtreePrinter.to_string p = "std::map (count=3)"%string
    /\ (0 < 3 ->
        elements (H := rbtree_printer More.three_nodes_memory
                         Scenario.tree_layout true 5) 5 p
        = Some (Ret [("[0] 1"%string, GdbValue (Some 10));
                     ("[1] 2"%string, GdbValue (Some 20));
                     ("[2] 3"%string, GdbValue (Some 30))])).
Proof.
  apply (rbtree_inorder_children More.three_nodes_memory Scenario.tree_layout
           true More.three_keys 5 5 "std::map" More.three_nodes 900).
  - exact three_nodes_shaped.
  - reflexivity.
  - repeat constructor.
  - simpl. lia.
  - simpl. lia.
Defined.

(** A tree whose begin node has no right child and whose climb fails at
    once, because the left link of its parent cannot be read (a null or
    dangling parent pointer), is rejected whenever the stored count is
    positive: the node is not produced at all, the traversal count 0
    differs from the stored count, and the printer has size -1, summary
    "invalid" and no [children]. *)
Theorem rbtree_broken_parent_rejected (m : memory)
  (L : StdRbtreePrinter.node_layout) (is_map : bool) (fuel fuel_in : nat)
  (tn : string) (tree : StdRbtreePrinter.rbtree) (parent : Z) :
  0 < StdRbtreePrinter.pair3_first tree ->
  m (StdRbtreePrinter.begin_node tree + StdRbtreePrinter.off_right L) = Some 0 ->
  m (StdRbtreePrinter.begin_node tree + StdRbtreePrinter.off_parent L)
  = Some parent ->
  m (parent + StdRbtreePrinter.off_left L) = None ->
  exists p,
    StdRbtreePrinter.__init__ m L is_map (S fuel) (S fuel_in) tn tree = Ret p
    /\ StdRbtreePrinter.p_size p = -1
    /\ StdRbtreePrinter.to_string p = "invalid"%string
    /\ StdRbtreePrinter.children p = None.
Proof.
  intros Hcount Hright Hparent Hleft.
  assert (Hsize : StdRbtreePrinter.size (StdRbtreePrinter._children tree)
                  = StdRbtreePrinter.pair3_first tree).
  { unfold StdRbtreePrinter._children, StdRbtreePrinter._iterator.
    cbn [StdRbtreePrinter.size].
    destruct (Z.ltb_spec (StdRbtreePrinter.pair3_first tree) 0); [lia | reflexivity]. }
  assert (Hnode : StdRbtreePrinter.next_node m L (S fuel_in)
                    (StdRbtreePrinter._children tree)
                  = Ret (None, StdRbtreePrinter._children tree)).
  { unfold StdRbtreePrinter.next_node. rewrite Hsize.
    cbn [StdRbtreePrinter._children StdRbtreePrinter._iterator
         StdRbtreePrinter.count StdRbtreePrinter.node].
    destruct (Z.leb_spec (StdRbtreePrinter.pair3_first tree) 0); [lia|].
    unfold StdRbtreePrinter.successor, dereference. rewrite Hright.
    cbn [fetch Py.bind Z.eqb negb StdRbtreePrinter.ascend].
    rewrite Hparent. cbn [fetch Py.bind].
    unfold dereference. rewrite Hleft. reflexivity. }
  assert (Hnext : StdRbtreePrinter.next_of is_map m L (S fuel_in)
                    (StdRbtreePrinter._children tree)
                  = Ret (None, StdRbtreePrinter._children tree)).
  { unfold StdRbtreePrinter.next_of. destruct is_map.
    - unfold StdRbtreePrinter.map__next__. rewrite Hnode. reflexivity.
    - unfold StdRbtreePrinter.__next__. rewrite Hnode. reflexivity. }
  unfold StdRbtreePrinter.__init__. rewrite list_unfold, Hnext.
  unfold StdRbtreePrinter.__len__. rewrite Hsize.
  unfold len. cbn [List.length Z.of_nat].
  destruct (Z.eqb_spec 0 (StdRbtreePrinter.pair3_first tree)); [lia|].
  cbn [negb]. eexists. split; [reflexivity|]. repeat split.
Qed.

Lemma rbtree_broken_parent_rejected_witness :
  exists p,
    StdRbtreePrinter.__init__ More.orphan_memory Scenario.tree_layout false
      3 3 "std::set" (Scenario.tree_of_size 1) = Ret p
    /\ StdRbtreePrinter.p_size p = -1
    /\ StdRbtreePrinter.to_string p = "invalid"%string
    /\ StdRbtreePrinter.children p = None.
Proof.
  apply (rbtree_broken_parent_rejected More.orphan_memory Scenario.tree_layout
           false 2 2 "std::set" (Scenario.tree_of_size 1) 0).
  - reflexivity.
  - reflexivity.
  - reflexivity.
  - reflexivity.
Defined.

(** ** Bitsets: one child per set bit *)

Lemma filter_none {A : Type} (f : A -> bool) (l : list A) :
  (forall x, In x l -> f x = false) -> filter f l = [].
Proof.
  induction l as [|x l IH]; intros Hall; [reflexivity|].
  cbn [filter]. rewrite (Hall x (or_introl eq_refl)).
  apply IH. intros y Hy. apply Hall. right. exact Hy.
Qed.

Section BitsetScan.

Variables (base w : Z) (width : nat).
Hypothesis w_range : 0 <= w < 2 ^ Z.of_nat width.

(** The inner loop, entered at bit [bi] with the word shifted by [bi],
    appends the set bits from [bi] on. *)
Lemma scan_word_spec (k : nat) :
  forall (bi fuel : nat),
    (bi + k = width)%nat -> (k < fuel)%nat ->
    StdBitsetPrinter.scan_word fuel base (Z.of_nat bi) (Z.shiftr w (Z.of_nat bi))
    = Ret (map (fun b => (label (base + b), 1))
             (filter (Z.testbit w) (map Z.of_nat (seq bi k)))).
Proof.
  induction k as [|k IH]; intros bi fuel Hk Hfuel;
    (destruct fuel as [|fuel]; [lia|]); cbn [StdBitsetPrinter.scan_word].
  - assert (Hz : Z.shiftr w (Z.of_nat bi) = 0).
    { rewrite Z.shiftr_div_pow2 by lia. apply Z.div_small.
      replace bi with width by lia. exact w_range. }
    rewrite Hz. reflexivity.
  - destruct (Z.eqb_spec (Z.shiftr w (Z.of_nat bi)) 0) as [Hz|Hnz].
    + rewrite filter_none; [reflexivity|].
      intros x Hx. apply in_map_iff in Hx. destruct Hx as (j & <- & Hj).
      apply in_seq in Hj.
      replace (Z.of_nat j) with ((Z.of_nat j - Z.of_nat bi) + Z.of_nat bi) by lia.
      rewrite <- Z.shiftr_spec by lia. rewrite Hz. apply Z.bits_0.
    + rewrite Z.shiftr_shiftr by lia.
      replace (Z.of_nat bi + 1) with (Z.of_nat (S bi)) by lia.
      rewrite (IH (S bi) fuel) by lia. cbn [Py.bind].
      assert (Hbit : negb (Z.land (Z.shiftr w (Z.of_nat bi)) 1 =? 0)
                     = Z.testbit w (Z.of_nat bi)).
      { change 1 with (Z.shiftl 1 0) at 1.
        rewrite bit_mask_test by lia.
        rewrite Z.shiftr_spec by lia. reflexivity. }
      rewrite Hbit. cbn [seq map filter].
      destruct (Z.testbit w (Z.of_nat bi)); reflexivity.
Qed.

End BitsetScan.

Section BitsetWords.

Variables (words : StdBitsetPrinter.storage) (ws : Z -> Z).
Variables (n width : nat) (bpw : Z).
Hypothesis words_ok :
  forall i, (i < n)%nat ->
    StdBitsetPrinter.word_at words (Z.of_nat n) (Z.of_nat i) = Ret (ws (Z.of_nat i))
    /\ 0 <= ws (Z.of_nat i) < 2 ^ Z.of_nat width.

(** The outer loop, entered at word [wi], appends the set bits of the
    words from [wi] on. *)
Lemma scan_words_spec (k : nat) :
  forall (wi fuel fuel_in : nat),
    (wi + k = n)%nat -> (k < fuel)%nat -> (width < fuel_in)%nat ->
    StdBitsetPrinter.scan_words fuel fuel_in words (Z.of_nat n) bpw (Z.of_nat wi)
    = Ret (List.concat
             (map (fun i =>
                     map (fun b => (label (Z.of_nat i * bpw + b), 1))
                         (Expected.set_bits width (ws (Z.of_nat i))))
                  (seq wi k))).
Proof.
  induction k as [|k IH]; intros wi fuel fuel_in Hk Hfuel Hin;
    (destruct fuel as [|fuel]; [lia|]); cbn [StdBitsetPrinter.scan_words].
  - destruct (Z.ltb_spec (Z.of_nat wi) (Z.of_nat n)); [lia | reflexivity].
  - destruct (Z.ltb_spec (Z.of_nat wi) (Z.of_nat n)); [|lia].
    destruct (words_ok wi ltac:(lia)) as [Hword Hrange].
    rewrite Hword. cbn [Py.bind].
    pose proof (scan_word_spec (Z.of_nat wi * bpw) (ws (Z.of_nat wi)) width
                  Hrange width 0 fuel_in ltac:(lia) Hin) as Hscan.
    change (Z.of_nat 0) with 0 in Hscan. rewrite Z.shiftr_0_r in Hscan.
    rewrite Hscan. cbn [Py.bind].
    replace (Z.of_nat wi + 1) with (Z.of_nat (S wi)) by lia.
    rewrite (IH (S wi) fuel fuel_in) by lia. reflexivity.
Qed.

End BitsetWords.

(** The children of a bitset whose storage matches its word count (one
    scalar word, or an array of several words) and whose words are
    non-negative and below [2^width] are exactly its set bits: one child
    per set bit, with value 1 and label [word_index * bits_per_word + bit],
    in increasing order within each word, word after word; clear bits give
    no child.  The summary shows the declared bit count whatever the
    words hold. *)
Theorem bitset_children_are_set_bits (tn : string)
  (st : StdBitsetPrinter.storage) (ws : Z -> Z) (n width : nat)
  (field : option Z) (bits : Z) (fuel fuel_in : nat) :
  (n = 1%nat /\ st = StdBitsetPrinter.Word (ws 0))
  \/ (n <> 1%nat /\ st = StdBitsetPrinter.Words ws) ->
  (forall i, (i < n)%nat -> 0 <= ws (Z.of_nat i) < 2 ^ Z.of_nat width) ->
  (n < fuel)%nat -> (width < fuel_in)%nat ->
  let bpw := match field with None => 64 | Some b => b end in
  let p := StdBitsetPrinter.__init__ tn
             {| StdBitsetPrinter.__first_ := st;
                StdBitsetPrinter.__n_words := Z.of_nat n;
                StdBitsetPrinter.__bits_per_word := field |} bits in
  StdBitsetPrinter.children fuel fuel_in p
  = Ret (Expected.bitset_children bpw width ws n)
  /\ StdBitsetPrinter.to_string p
     = (tn ++ " (length=" ++ fmt_d bits ++ ")")%string.
Proof.
  intros Hst Hrange Hfuel Hin bpw p. split; [|reflexivity].
  assert (Hwords : forall i, (i < n)%nat ->
            StdBitsetPrinter.word_at st (Z.of_nat n) (Z.of_nat i)
            = Ret (ws (Z.of_nat i))
            /\ 0 <= ws (Z.of_nat i) < 2 ^ Z.of_nat width).
  { intros i Hi. split; [|apply Hrange; exact Hi].
    destruct Hst as [[Hn ->] | [Hn ->]]; unfold StdBitsetPrinter.word_at.
    - subst n. replace i with 0%nat by lia. reflexivity.
    - destruct (Z.eqb_spec (Z.of_nat n) 1); [lia | reflexivity]. }
  pose proof (scan_words_spec st ws n width bpw Hwords n 0 fuel fuel_in
                ltac:(lia) Hfuel Hin) as Hscan.
  unfold StdBitsetPrinter.children, p, StdBitsetPrinter.__init__.
  cbn [StdBitsetPrinter.val StdBitsetPrinter.__first_
       StdBitsetPrinter.__n_words StdBitsetPrinter.__bits_per_word].
  fold bpw. destruct Hst as [[_ ->] | [_ ->]]; exact Hscan.
Qed.

Lemma bitset_children_are_set_bits_witness :
  StdBitsetPrinter.children 3 65
    (StdBitsetPrinter.__init__ "std::bitset" More.bitset96 96)
  = Ret [("[1]"%string, 1); ("[3]"%string, 1); ("[64]"%string, 1)].
Proof.
  refine (eq_trans
            (proj1 (bitset_children_are_set_bits "std::bitset"
                      (StdBitsetPrinter.Words More.bitset_words)
                      More.bitset_words 2 64 None 96 3 65 _ _ _ _))
            _).
  - right. split; [discriminate | reflexivity].
  - intros i Hi. assert (Hc : i = 0%nat \/ i = 1%nat) by lia.
    destruct Hc as [-> | ->]; vm_compute; (split; [discriminate | reflexivity]).
  - lia.
  - lia.
  - vm_compute. reflexivity.
Defined.

(** ** The registry *)

Lemma string_app_assoc (a b c : string) :
  ((a ++ b) ++ c)%string = (a ++ b ++ c)%string.
Proof.
  induction a as [|x a IH]; cbn [append]; [reflexivity | rewrite IH; reflexivity].
Qed.

Lemma string_app_length (a b : string) :
  String.length (a ++ b)%string = (String.length a + String.length b)%nat.
Proof.
  induction a as [|x a IH]; cbn [append String.length Nat.add];
    [reflexivity | rewrite IH; reflexivity].
Qed.

Lemma string_app_nonempty (a b : string) :
  b <> ""%string -> (a ++ b)%string <> ""%string.
Proof.
  intros Hb. destruct a as [|x a]; cbn [append]; [exact Hb | discriminate].
Qed.

Lemma all_chars_app (f : ascii -> bool) (a b : string) :
  Printer.all_chars f (a ++ b)%string
  = Printer.all_chars f a && Printer.all_chars f b.
Proof.
  induction a as [|x a IH]; cbn [append Printer.all_chars andb];
    [reflexivity | rewrite IH; apply andb_assoc].
Qed.

(** The greedy run stops at the first character that is no word
    character. *)
Lemma word_prefix_stop (b : string) (c : ascii) (r : string) :
  Printer.all_chars Printer.word_char b = true ->
  Printer.word_char c = false ->
  Printer.word_prefix (b ++ String c r)%string = (b, String c r).
Proof.
  induction b as [|x b IH]; intros Hb Hc; cbn [append Printer.word_prefix].
  - rewrite Hc. reflexivity.
  - cbn [Printer.all_chars] in Hb. apply andb_prop in Hb.
    destruct Hb as [Hx Hb]. rewrite Hx, (IH Hb Hc). reflexivity.
Qed.

Lemma word_prefix_spec (s : string) :
  s = (fst (Printer.word_prefix s) ++ snd (Printer.word_prefix s))%string
  /\ Printer.all_chars Printer.word_char (fst (Printer.word_prefix s)) = true.
Proof.
  induction s as [|x s [IH1 IH2]]; cbn [Printer.word_prefix].
  - split; reflexivity.
  - destruct (Printer.word_char x) eqn:Hx; cbn [fst snd append Printer.all_chars].
    + split; [f_equal; exact IH1 | rewrite Hx, IH2; reflexivity].
    + split; reflexivity.
Qed.

Lemma tail_matches_close (a : string) :
  Printer.all_chars Printer.not_newline a = true ->
  Printer.tail_matches (a ++ ">")%string = true.
Proof.
  induction a as [|x a IH]; intros Ha.
  - reflexivity.
  - cbn [Printer.all_chars] in Ha. apply andb_prop in Ha.
    destruct Ha as [Hx Ha]. cbn [append Printer.tail_matches].
    rewrite Hx, (IH Ha). apply orb_true_r.
Qed.

Lemma tail_matches_spec (r : string) :
  Printer.tail_matches r = true ->
  exists a tail,
    r = (a ++ ">" ++ tail)%string
    /\ Printer.all_chars Printer.not_newline a = true
    /\ (tail = ""%string \/ tail = String Printer.newline "").
Proof.
  induction r as [|x r IH]; cbn [Printer.tail_matches]; intros H;
    [discriminate|].
  apply orb_prop in H. destruct H as [H|H]; apply andb_prop in H;
    destruct H as [H1 H2].
  - apply Ascii.eqb_eq in H1. subst x. exists ""%string, r.
    split; [reflexivity|]. split; [reflexivity|].
    unfold Printer.at_end in H2. destruct r as [|c [|c' r']].
    + left. reflexivity.
    + right. apply Ascii.eqb_eq in H2. subst c. reflexivity.
    + discriminate.
  - destruct (IH H2) as (a & tail & -> & Ha & Ht).
    exists (String x a), tail. split; [reflexivity|].
    split; [cbn [Printer.all_chars]; rewrite H1, Ha; reflexivity | exact Ht].
Qed.

(** A word, an opening bracket, arguments without a newline and a closing
    bracket: the pattern matches, and the group is the word. *)
Lemma compiled_rx_template (b args : string) :
  b <> ""%string ->
  Printer.all_chars Printer.word_char b = true ->
  Printer.all_chars Printer.not_newline args = true ->
  Printer.compiled_rx_match (b ++ "<" ++ args ++ ">")%string = Some b.
Proof.
  intros Hne Hb Ha. unfold Printer.compiled_rx_match.
  change (b ++ "<" ++ args ++ ">")%string
    with (b ++ String "<" (args ++ ">"))%string.
  rewrite (word_prefix_stop b "<" (args ++ ">")%string Hb eq_refl).
  cbn [fst snd]. destruct b as [|x b]; [contradiction Hne; reflexivity|].
  rewrite (tail_matches_close args Ha). reflexivity.
Qed.

(** What a match tells about the string. *)
Lemma compiled_rx_sound (s b : string) :
  Printer.compiled_rx_match s = Some b ->
  b <> ""%string
  /\ Printer.all_chars Printer.word_char b = true
  /\ exists a tail,
       s = (b ++ "<" ++ a ++ ">" ++ tail)%string
       /\ Printer.all_chars Printer.not_newline a = true
       /\ (tail = ""%string \/ tail = String Printer.newline "").
Proof.
  unfold Printer.compiled_rx_match.
  destruct (word_prefix_spec s) as [Hs Hw]. revert Hs Hw.
  destruct (fst (Printer.word_prefix s)) as [|g group]; [discriminate|].
  destruct (snd (Printer.word_prefix s)) as [|c tail]; [discriminate|].
  intros Hs Hw.
  destruct (Ascii.eqb c "<") eqn:Hc; cbn [andb]; [|discriminate].
  destruct (Printer.tail_matches tail) eqn:Ht; [|discriminate].
  intros Hb. injection Hb as <-.
  apply Ascii.eqb_eq in Hc. subst c.
  destruct (tail_matches_spec tail Ht) as (a & tl & -> & Ha & Htl).
  split; [discriminate|]. split; [exact Hw|].
  exists a, tl. split; [exact Hs|]. split; [exact Ha | exact Htl].
Qed.

Section RegistryLemmas.

Context {V R : Type}.

Lemma dict_get_set_same (k : string) (v : RxPrinter.printer V R)
  (d : Printer.dict V R) :
  Printer.dict_get k (Printer.dict_set k v d) = Some v.
Proof.
  unfold Printer.dict_set. cbn [Printer.dict_get].
  rewrite String.eqb_refl. reflexivity.
Qed.

Lemma dict_get_set_other (k k' : string) (v : RxPrinter.printer V R)
  (d : Printer.dict V R) :
  k' <> k ->
  Printer.dict_get k' (Printer.dict_set k v d) = Printer.dict_get k' d.
Proof.
  intros Hk. unfold Printer.dict_set. cbn [Printer.dict_get].
  destruct (String.eqb_spec k' k) as [E|_]; [contradiction|].
  induction d as [|[k0 v0] d IH]; cbn [filter Printer.dict_get fst];
    [reflexivity|].
  destruct (String.eqb_spec k k0) as [E|E]; cbn [negb].
  - subst k0. destruct (String.eqb_spec k' k) as [E'|_]; [contradiction|].
    exact IH.
  - cbn [Printer.dict_get]. rewrite IH. reflexivity.
Qed.

Lemma dict_set_length (k : string) (v : RxPrinter.printer V R)
  (d : Printer.dict V R) :
  (List.length (Printer.dict_set k v d) <= S (List.length d))%nat.
Proof.
  unfold Printer.dict_set. cbn [List.length]. apply le_n_S. apply filter_length_le.
Qed.

Lemma dict_set_again_length (k : string) (v v' : RxPrinter.printer V R)
  (d : Printer.dict V R) :
  (List.length (Printer.dict_set k v (Printer.dict_set k v' d)) <= S (List.length d))%nat.
Proof.
  unfold Printer.dict_set. cbn [List.length filter fst].
  rewrite String.eqb_refl. cbn [negb]. apply le_n_S.
  etransitivity; apply filter_length_le.
Qed.

(** [add] with a name of word characters only passes the sanity check. *)
Lemma add_returns (self : Printer.printer V R) (name : string)
  (f : string -> V -> R) :
  name <> ""%string ->
  Printer.all_chars Printer.word_char name = true ->
  Printer.add self name f
  = Ret {| Printer.name := Printer.name self;
           Printer.subprinters :=
             Printer.subprinters self ++ [RxPrinter.__init__ name f];
           Printer.lookup :=
             Printer.dict_set name (RxPrinter.__init__ name f)
               (Printer.lookup self);
           Printer.enabled := Printer.enabled self |}.
Proof.
  intros Hne Hw. unfold Printer.add.
  change (name ++ "<>")%string with (name ++ "<" ++ "" ++ ">")%string.
  rewrite (compiled_rx_template name "" Hne Hw eq_refl). reflexivity.
Qed.

(** [__call__] on a template name looks its word up. *)
Lemma call_template (self : Printer.printer V R) (b args : string) (val : V) :
  b <> ""%string ->
  Printer.all_chars Printer.word_char b = true ->
  Printer.all_chars Printer.not_newline args = true ->
  Printer.__call__ self (Some (b ++ "<" ++ args ++ ">")%string) val
  = match Printer.dict_get b (Printer.lookup self) with
    | Some p => RxPrinter.invoke p val
    | None => None
    end.
Proof.
  intros Hne Hw Ha. unfold Printer.__call__.
  assert (He : String.eqb (b ++ "<" ++ args ++ ">")%string "" = false).
  { destruct b as [|x b]; [contradiction Hne; reflexivity | reflexivity]. }
  rewrite He, (compiled_rx_template b args Hne Hw Ha). reflexivity.
Qed.

(** [__call__] looks at the dict only under the matched word. *)
Lemma call_frame (self self' : Printer.printer V R) (typename : option string)
  (val : V) :
  (forall s b, typename = Some s -> Printer.compiled_rx_match s = Some b ->
     Printer.dict_get b (Printer.lookup self')
     = Printer.dict_get b (Printer.lookup self)) ->
  Printer.__call__ self' typename val = Printer.__call__ self typename val.
Proof.
  intros Hsame. unfold Printer.__call__.
  destruct typename as [s|]; [|reflexivity].
  destruct (String.eqb s ""); [reflexivity|].
  destruct (Printer.compiled_rx_match s) as [b|] eqn:Hb; [|reflexivity].
  rewrite (Hsame s b eq_refl Hb). reflexivity.
Qed.

End RegistryLemmas.

(** A registration is found again: [add] with a non-empty name of word
    characters returns, appends one sub-printer, and from then on
    [__call__] on any type [name<args>] (arguments without a newline) is
    the call of the registered function with the name and the value;
    types whose word is another one are dispatched as before. *)
Theorem registry_add_then_call {V R : Type} (self : Printer.printer V R)
  (name : string) (f : string -> V -> R) :
  name <> ""%string ->
  Printer.all_chars Printer.word_char name = true ->
  exists self',
    Printer.add self name f = Ret self'
    /\ Printer.subprinters self'
       = Printer.subprinters self ++ [RxPrinter.__init__ name f]
    /\ (forall args val,
          Printer.all_chars Printer.not_newline args = true ->
          Printer.__call__ self' (Some (name ++ "<" ++ args ++ ">")%string) val
          = Some (f name val))
    /\ (forall typename val,
          Printer.compiled_rx_match typename <> Some name ->
          Printer.__call__ self' (Some typename) val
          = Printer.__call__ self (Some typename) val).
Proof.
  intros Hne Hw. eexists. split; [apply (add_returns self name f Hne Hw)|].
  split; [reflexivity|]. split.
  - intros args val Ha. rewrite (call_template _ name args val Hne Hw Ha).
    cbn [Printer.lookup]. rewrite dict_get_set_same. reflexivity.
  - intros typename val Hother. apply call_frame.
    intros s b Hs Hb. injection Hs as <-. cbn [Printer.lookup].
    apply dict_get_set_other. intros ->. apply Hother. exact Hb.
Qed.

Lemma registry_add_then_call_witness :
  exists self',
    Printer.add More.one_printer "std::list" More.echo = Ret self'
    /\ Printer.__call__ self' (Some "std::list<int>"%string) 7
       = Some ("std::list"%string, 7)
    /\ Printer.__call__ self' (Some "std::vector<int>"%string) 7
       = Printer.__call__ More.one_printer (Some "std::vector<int>"%string) 7.
Proof.
  destruct (registry_add_then_call More.one_printer "std::list" More.echo)
    as (self' & Hadd & _ & Hsame & Hother).
  - discriminate.
  - reflexivity.
  - exists self'. split; [exact Hadd|]. split.
    + apply (Hsame "int"%string 7). reflexivity.
    + apply (Hother "std::vector<int>"%string 7). vm_compute. discriminate.
Defined.

(** [add_container] registers the name under the base, under the base's
    version namespace and under the version namespace nested twice: it
    returns, appends four sub-printers, adds at most three names to the
    dict (one of the four is registered twice), and each of the three
    spellings of a type is dispatched to the function with that
    spelling. *)
Theorem add_container_dispatch {V R : Type} (self : Printer.printer V R)
  (base name : string) (f : string -> V -> R) :
  name <> ""%string ->
  Printer.all_chars Printer.word_char base = true ->
  Printer.all_chars Printer.word_char name = true ->
  exists self',
    Printer.add_container self base name f = Ret self'
    /\ List.length (Printer.subprinters self')
       = (4 + List.length (Printer.subprinters self))%nat
    /\ (List.length (Printer.lookup self')
        <= 3 + List.length (Printer.lookup self))%nat
    /\ (forall vers args val,
          In vers [""%string; "__1::"%string; "__1::__1::"%string] ->
          Printer.all_chars Printer.not_newline args = true ->
          Printer.__call__ self'
            (Some (base ++ vers ++ name ++ "<" ++ args ++ ">")%string) val
          = Some (f (base ++ vers ++ name)%string val)).
Proof.
  intros Hne Hbase Hname.
  assert (E2 : ((base ++ "__1::") ++ name)%string
               = (base ++ "__1::" ++ name)%string)
    by apply string_app_assoc.
  assert (E4 : (((base ++ "__1::") ++ "__1::") ++ name)%string
               = (base ++ "__1::__1::" ++ name)%string).
  { rewrite !string_app_assoc. reflexivity. }
  assert (W : forall vers,
             In vers [""%string; "__1::"%string; "__1::__1::"%string] ->
             (base ++ vers ++ name)%string <> ""%string
             /\ Printer.all_chars Printer.word_char (base ++ vers ++ name)%string
                = true).
  { intros vers Hv. split.
    - apply string_app_nonempty, string_app_nonempty, Hne.
    - rewrite !all_chars_app, Hbase, Hname.
      cbn [In] in Hv. destruct Hv as [<- | [<- | [<- | []]]]; reflexivity. }
  destruct (W ""%string) as [N1 W1]; [cbn [In]; tauto|].
  destruct (W "__1::"%string) as [N2 W2]; [cbn [In]; tauto|].
  destruct (W "__1::__1::"%string) as [N4 W4]; [cbn [In]; tauto|].
  cbn [append] in N1, W1.
  assert (L : forall v : string,
             String.length (base ++ v ++ name)%string
             = (String.length base + String.length v + String.length name)%nat).
  { intros v. rewrite !string_app_length. lia. }
  assert (D12 : (base ++ name)%string <> (base ++ "__1::" ++ name)%string).
  { intros E. apply (f_equal String.length) in E.
    rewrite (L "__1::"%string), string_app_length in E.
    cbn [String.length] in E. lia. }
  assert (D14 : (base ++ name)%string <> (base ++ "__1::__1::" ++ name)%string).
  { intros E. apply (f_equal String.length) in E.
    rewrite (L "__1::__1::"%string), string_app_length in E.
    cbn [String.length] in E. lia. }
  assert (D24 : (base ++ "__1::" ++ name)%string
                <> (base ++ "__1::__1::" ++ name)%string).
  { intros E. apply (f_equal String.length) in E.
    rewrite (L "__1::"%string), (L "__1::__1::"%string) in E.
    cbn [String.length] in E. lia. }
  eexists. split.
  { unfold Printer.add_container, Printer.add_version.
    rewrite (add_returns self (base ++ name)%string f N1 W1). cbn [Py.bind].
    rewrite E2.
    rewrite (add_returns _ (base ++ "__1::" ++ name)%string f N2 W2).
    cbn [Py.bind].
    rewrite (add_returns _ (base ++ "__1::" ++ name)%string f N2 W2).
    cbn [Py.bind]. rewrite E4.
    rewrite (add_returns _ (base ++ "__1::__1::" ++ name)%string f N4 W4).
    reflexivity. }
  cbn [Printer.subprinters Printer.lookup]. split.
  { rewrite !length_app. cbn [List.length]. lia. }
  split.
  { etransitivity; [apply dict_set_length|]. apply le_n_S.
    etransitivity; [apply dict_set_again_length|]. apply le_n_S.
    apply dict_set_length. }
  intros vers args val Hv Ha.
  destruct (W vers Hv) as [Nv Wv].
  replace (base ++ vers ++ name ++ "<" ++ args ++ ">")%string
    with ((base ++ vers ++ name) ++ "<" ++ args ++ ">")%string
    by (rewrite !string_app_assoc; reflexivity).
  rewrite (call_template _ (base ++ vers ++ name)%string args val Nv Wv Ha).
  cbn [Printer.lookup].
  cbn [In] in Hv. destruct Hv as [<- | [<- | [<- | []]]].
  - cbn [append].
    rewrite (dict_get_set_other _ (base ++ name)%string) by exact D14.
    rewrite (dict_get_set_other _ (base ++ name)%string) by exact D12.
    rewrite (dict_get_set_other _ (base ++ name)%string) by exact D12.
    rewrite dict_get_set_same. reflexivity.
  - rewrite (dict_get_set_other _ (base ++ "__1::" ++ name)%string) by exact D24.
    rewrite dict_get_set_same. reflexivity.
  - rewrite dict_get_set_same. reflexivity.
Qed.

Lemma add_container_dispatch_witness :
  exists self',
    Printer.add_container More.one_printer "std::" "deque" More.echo = Ret self'
    /\ List.length (Printer.subprinters self') = 5%nat
    /\ Printer.__call__ self'
         (Some "std::__1::deque<int, std::__1::allocator<int> >"%string) 7
       = Some ("std::__1::deque"%string, 7).
Proof.
  destruct (add_container_dispatch More.one_printer "std::" "deque" More.echo)
    as (self' & Hadd & Hlen & _ & Hcall).
  - discriminate.
  - reflexivity.
  - reflexivity.
  - exists self'. split; [exact Hadd|]. split; [exact Hlen|].
    apply (Hcall "__1::"%string "int, std::__1::allocator<int> "%string 7).
    + right. left. reflexivity.
    + reflexivity.
Defined.

(** [__call__] prints template types only: whenever it returns a result,
    the type name is a non-empty run of word characters followed by a
    bracketed argument list (closing at the end of the name, or before a
    newline that ends it), the dict holds an enabled sub-printer under that
    run, and the result is the call of its function with its name and the
    value.  A type without a tag, or with a tag without an argument list,
    gets no printer, whatever is registered. *)
Theorem call_requires_template_name {V R : Type} (self : Printer.printer V R)
  (typename : option string) (val : V) (r : R) :
  Printer.__call__ self typename val = Some r ->
  exists b a tail p,
    typename = Some (b ++ "<" ++ a ++ ">" ++ tail)%string
    /\ b <> ""%string
    /\ Printer.all_chars Printer.word_char b = true
    /\ Printer.all_chars Printer.not_newline a = true
    /\ (tail = ""%string \/ tail = String Printer.newline "")
    /\ Printer.dict_get b (Printer.lookup self) = Some p
    /\ RxPrinter.enabled p = true
    /\ r = RxPrinter.function p (RxPrinter.name p) val.
Proof.
  unfold Printer.__call__. destruct typename as [s|]; [|discriminate].
  destruct (String.eqb s ""); [discriminate|].
  destruct (Printer.compiled_rx_match s) as [b|] eqn:Hb; [|discriminate].
  destruct (Printer.dict_get b (Printer.lookup self)) as [p|] eqn:Hp;
    [|discriminate].
  unfold RxPrinter.invoke. destruct (RxPrinter.enabled p) eqn:He;
    cbn [negb]; [|discriminate].
  intros Hr. injection Hr as <-.
  destruct (compiled_rx_sound s b Hb) as (Hne & Hw & a & tail & -> & Ha & Ht).
  exists b, a, tail, p. repeat (split; [assumption || reflexivity|]).
  reflexivity.
Qed.

Lemma call_requires_template_name_witness :
  exists b a tail p,
    Some "std::vector<int>"%string = Some (b ++ "<" ++ a ++ ">" ++ tail)%string
    /\ b <> ""%string
    /\ Printer.all_chars Printer.word_char b = true
    /\ Printer.all_chars Printer.not_newline a = true
    /\ (tail = ""%string \/ tail = String Printer.newline "")
    /\ Printer.dict_get b (Printer.lookup More.one_printer) = Some p
    /\ RxPrinter.enabled p = true
    /\ ("std::vector"%string, 7)
       = RxPrinter.function p (RxPrinter.name p) 7.
Proof.
  apply (call_requires_template_name More.one_printer
           (Some "std::vector<int>"%string) 7 ("std::vector"%string, 7)).
  reflexivity.
Defined.

(** The sanity check of [add] lets through a name that goes on after an
    opening bracket; such a registration returns, but no type is ever
    dispatched to it: [__call__] behaves as before on every type. *)
Theorem add_accepts_name_never_looked_up {V R : Type}
  (self : Printer.printer V R) (word rest : string) (f : string -> V -> R) :
  word <> ""%string ->
  Printer.all_chars Printer.word_char word = true ->
  Printer.all_chars Printer.not_newline rest = true ->
  exists self',
    Printer.add self (word ++ "<" ++ rest)%string f = Ret self'
    /\ forall typename val,
         Printer.__call__ self' typename val
         = Printer.__call__ self typename val.
Proof.
  intros Hne Hw Hrest.
  assert (Hmatch : Printer.compiled_rx_match ((word ++ "<" ++ rest) ++ "<>")%string
                   = Some word).
  { replace ((word ++ "<" ++ rest) ++ "<>")%string
      with (word ++ "<" ++ (rest ++ "<") ++ ">")%string
      by (rewrite !string_app_assoc; reflexivity).
    apply (compiled_rx_template word (rest ++ "<")%string Hne Hw).
    rewrite all_chars_app, Hrest. reflexivity. }
  unfold Printer.add. rewrite Hmatch. eexists. split; [reflexivity|].
  intros typename val. apply call_frame.
  intros s b _ Hb. cbn [Printer.lookup].
  apply dict_get_set_other. intros ->.
  destruct (compiled_rx_sound s _ Hb) as (_ & Hall & _).
  rewrite all_chars_app in Hall. cbn [append Printer.all_chars] in Hall.
  change (Printer.word_char "<") with false in Hall.
  cbn [andb] in Hall. rewrite andb_false_r in Hall. discriminate.
Qed.

Lemma add_accepts_name_never_looked_up_witness :
  exists self',
    Printer.add More.one_printer "std::list<int" More.echo = Ret self'
    /\ Printer.__call__ self' (Some "std::list<int>"%string) 7
       = Printer.__call__ More.one_printer (Some "std::list<int>"%string) 7.
Proof.
  destruct (add_accepts_name_never_looked_up More.one_printer
              "std::list" "int" More.echo)
    as (self' & Hadd & Hcall).
  - discriminate.
  - reflexivity.
  - reflexivity.
  - exists self'. split; [exact Hadd|]. apply Hcall.
Defined.

(** What the dict of the built printer holds under the two spellings of
    each class name of the table. *)
Lemma dictionary_lookup (V : Type) :
  Forall (fun e : string * Dictionary.printer_class =>
            forall vers : string,
              vers = ""%string \/ vers = "__1::"%string ->
              ("std::" ++ vers ++ fst e)%string <> ""%string
              /\ Printer.all_chars Printer.word_char
                   ("std::" ++ vers ++ fst e)%string = true
              /\ Printer.dict_get ("std::" ++ vers ++ fst e)%string
                   (Printer.lookup (@Dictionary.libcxx_printer V))
                 = Some (RxPrinter.__init__ ("std::" ++ vers ++ fst e)%string
                           (Dictionary.construct (snd e))))
         Expected.libcxx_printers.
Proof.
  unfold Expected.libcxx_printers.
  repeat (apply Forall_cons;
          [intros vers [-> | ->]; vm_compute;
           (split; [discriminate | split; reflexivity]) |]).
  apply Forall_nil.
Qed.

(** Building the dictionary returns: every registered name passes the
    sanity check.  In the printer it builds, each class name registered
    with a version namespace is dispatched, in its [std::] and in its
    [std::__1::] spelling and whatever its template arguments, to the class
    of the table, called with the spelling as type name. *)
Theorem libcxx_dictionary_dispatch (V : Type) :
  Dictionary.build_libcxx_dictionary = Ret (@Dictionary.libcxx_printer V)
  /\ forall (base : string) (cls : Dictionary.printer_class)
            (vers args : string) (val : V),
       In (base, cls) Expected.libcxx_printers ->
       vers = ""%string \/ vers = "__1::"%string ->
       Printer.all_chars Printer.not_newline args = true ->
       Printer.__call__ Dictionary.libcxx_printer
         (Some ("std::" ++ vers ++ base ++ "<" ++ args ++ ">")%string) val
       = Some (cls, ("std::" ++ vers ++ base)%string, val).
Proof.
  split; [vm_compute; reflexivity|].
  intros base cls vers args val Hin Hvers Hargs.
  pose proof (dictionary_lookup V) as Hall.
  rewrite Forall_forall in Hall.
  destruct (Hall (base, cls) Hin vers Hvers) as (Hne & Hw & Hget).
  cbn [fst snd] in Hne, Hw, Hget.
  replace ("std::" ++ vers ++ base ++ "<" ++ args ++ ">")%string
    with (("std::" ++ vers ++ base) ++ "<" ++ args ++ ">")%string
    by (rewrite !string_app_assoc; reflexivity).
  rewrite (call_template _ ("std::" ++ vers ++ base)%string args val Hne Hw Hargs).
  rewrite Hget. reflexivity.
Qed.

Lemma libcxx_dictionary_dispatch_witness :
  Printer.__call__ Dictionary.libcxx_printer
    (Some "std::__1::vector<int, std::__1::allocator<int> >"%string) 7
  = Some (Dictionary.StdVectorPrinter, "std::__1::vector"%string, 7).
Proof.
  apply (proj2 (libcxx_dictionary_dispatch Z)
           "vector"%string Dictionary.StdVectorPrinter "__1::"%string
           "int, std::__1::allocator<int> "%string 7).
  - unfold Expected.libcxx_printers. cbn [In].
    repeat (first [left; reflexivity | right]).
  - right. reflexivity.
  - reflexivity.
Defined.
